(* ===================================================================== *)
(* wiimote_node.py: the timed output-pattern scheduler                    *)
(*   OutputPattern, SwitchPulser and the WiimoteListeners callbacks       *)
(* ===================================================================== *)
(* The Python 2 source is embedded shallowly:
     - a duration (a Python float holding seconds) is an exact rational
       [Q]; float('inf'), used only as the "no pattern left" sentinel of
       the sweep, is the [None] of an [option Q]; NaN and infinite
       durations are outside the model;
     - round(x, 2) is rounding to hundredths, halves away from zero;
     - Python's unbounded int (numReps) is [Z]; list indices are [nat];
     - an exception is a constructor of [exn]; a call that may raise
       returns a [result];
     - objects mutated in place are passed and returned explicitly;
     - of the sender threads, the fields that WiiSender.run computes by
       itself from exact data are embedded (LED states, IR sources);
       polling the device and publishing are not, and neither is the
       float arithmetic of the header stamp. *)

From Stdlib Require Import ZArith QArith Qround List Bool Lia Lqa.
Import ListNotations.

(* --------------------------------------------------------------------- *)
(* Python runtime pieces                                                  *)
(* --------------------------------------------------------------------- *)

Inductive exn : Type :=
| IndexError
| AttributeError
| ValueError
| SystemExit
| ROSInterruptException.

Inductive result (A : Type) : Type :=
| Ok (a : A)
| Raise (e : exn).

Arguments Ok {A} a.
Arguments Raise {A} e.

(** [x < y] on durations. *)
Definition Qltb (x y : Q) : bool := negb (Qle_bool y x).

(** round(x, 2) of Python 2: nearest hundredth, halves away from zero. *)
Definition round2 (x : Q) : Q :=
  if Qle_bool 0 x
  then Qmake (Qfloor (x * 100 + (1 # 2))) 100
  else - Qmake (Qfloor ((- x) * 100 + (1 # 2))) 100.

(** [l[i] = v] for an index already known to be in range; out of range
    the list is returned as it is (the source never stores there: every
    store follows a read of the same index). *)
Fixpoint list_set {A : Type} (l : list A) (i : nat) (v : A) : list A :=
  match l, i with
  | [], _ => []
  | _ :: t, O => v :: t
  | h :: t, S j => h :: list_set t j v
  end.

(* --------------------------------------------------------------------- *)
(* class OutputPattern                                                    *)
(* --------------------------------------------------------------------- *)

Module OutputPattern.

Record t : Type := mk {
  origTimePattern : list Q;
  timePattern : list Q;
  numReps : Z;
  patternPt : nat;
  patternSpent : bool;
  startOfRepeat : bool
}.

(** __init__(self, rosMsgPattern, numReps) *)
Definition init (rosMsgPattern : list Q) (numReps : Z) : t :=
  {| origTimePattern := rosMsgPattern;
     timePattern := rosMsgPattern;
     numReps := numReps;
     patternPt := 0%nat;
     patternSpent := false;
     startOfRepeat := false |}.

(** timeRemaining(self) *)
Definition timeRemaining (self : t) : result (option Q) :=
  if patternSpent self then Ok None
  else match nth_error (timePattern self) (patternPt self) with
       | Some d => Ok (Some d)
       | None => Raise IndexError
       end.

(** resetForRepeat(self) *)
Definition resetForRepeat (self : t) : t * bool :=
  if patternSpent self then (self, false)
  else
    let self1 := {| origTimePattern := origTimePattern self;
                    timePattern := timePattern self;
                    numReps := numReps self - 1;
                    patternPt := patternPt self;
                    patternSpent := patternSpent self;
                    startOfRepeat := startOfRepeat self |} in
    if (numReps self1 <=? 0)%Z then (self1, false)
    else
      ({| origTimePattern := origTimePattern self1;
          timePattern := origTimePattern self1;
          numReps := numReps self1;
          patternPt := 0%nat;
          patternSpent := patternSpent self1;
          startOfRepeat := startOfRepeat self1 |}, true).

(** The head after the subtraction: negative results become 0.0. *)
Definition clamp (res : Q) : Q := if Qltb res 0 then 0 else res.

(** reduceTimer(self, time) *)
Definition reduceTimer (self : t) (time : Q) : t * result (option Q) :=
  if patternSpent self then (self, Ok None)
  else
    match nth_error (timePattern self) (patternPt self) with
    | None => (self, Raise IndexError)
    | Some head =>
      let res := clamp (head - time) in
      let tp := list_set (timePattern self) (patternPt self) res in
      let res := round2 res in
      if Qle_bool res 0 then
        let self2 := {| origTimePattern := origTimePattern self;
                        timePattern := tp;
                        numReps := numReps self;
                        patternPt := S (patternPt self);
                        patternSpent := patternSpent self;
                        startOfRepeat := false |} in
        if (patternPt self2 <? length (timePattern self2))%nat
        then (self2, Ok (Some res))
        else
          let (self3, canRepeat) := resetForRepeat self2 in
          if canRepeat then
            let self4 := {| origTimePattern := origTimePattern self3;
                            timePattern := timePattern self3;
                            numReps := numReps self3;
                            patternPt := patternPt self3;
                            patternSpent := patternSpent self3;
                            startOfRepeat := true |} in
            match nth_error (timePattern self4) (patternPt self4) with
            | Some d => (self4, Ok (Some d))
            | None => (self4, Raise IndexError)
            end
          else
            ({| origTimePattern := origTimePattern self3;
                timePattern := timePattern self3;
                numReps := numReps self3;
                patternPt := patternPt self3;
                patternSpent := true;
                startOfRepeat := startOfRepeat self3 |}, Ok None)
      else
        ({| origTimePattern := origTimePattern self;
            timePattern := tp;
            numReps := numReps self;
            patternPt := patternPt self;
            patternSpent := patternSpent self;
            startOfRepeat := false |}, Ok (Some res))
    end.

(** The pattern after a series of reduceTimer calls, whatever they
    returned. *)
Definition reduceAll (self : t) (times : list Q) : t :=
  fold_left (fun p time => fst (reduceTimer p time)) times self.

(** One sweep of a scheduler that holds this pattern alone: the wait is
    the head time, and the head is reduced by it. *)
Definition sweepAlone (self : t) : t :=
  match timeRemaining self with
  | Ok (Some d) => fst (reduceTimer self d)
  | _ => self
  end.

End OutputPattern.

(* --------------------------------------------------------------------- *)
(* wiimoteConstants and the device object (not part of this file)         *)
(* --------------------------------------------------------------------- *)

(** Modelled from the spec: wiimoteConstants.NUM_LEDS is imported, not
    defined here; the spec bounds the LED channels by 4, and flipLED's
    literal four-slot mask agrees. *)
Definition NUM_LEDS : nat := 4.

(** RUMBLE and LED, the two values of outputIndicator. *)
Inductive indicator : Type := RUMBLE | LED.

Module WIIMote.

(** Modelled from the spec: the class WIIMote is imported, not defined
    here.  The spec gives the actuator collaborator as "set rumble(bool)",
    "get rumble", "set LEDs([bool|unchanged; N])" and "get LEDs". *)
Record t : Type := mk {
  rumble : bool;
  leds : list bool
}.

Definition getRumble (self : t) : bool := rumble self.

Definition setRumble (self : t) (switchPos : bool) : t :=
  {| rumble := switchPos; leds := leds self |}.

Definition getLEDs (self : t) : list bool := leds self.

(** One entry per LED: [Some b] sets it, [None] leaves it unchanged. *)
Fixpoint applyMask (status : list bool) (statusList : list (option bool))
  : list bool :=
  match status, statusList with
  | [], _ => []
  | _, [] => status
  | b :: status', Some v :: rest => v :: applyMask status' rest
  | b :: status', None :: rest => b :: applyMask status' rest
  end.

Definition setLEDs (self : t) (statusList : list (option bool)) : t :=
  {| rumble := rumble self; leds := applyMask (leds self) statusList |}.

End WIIMote.

(* --------------------------------------------------------------------- *)
(* class SwitchPulser(threading.Thread)                                   *)
(* --------------------------------------------------------------------- *)

(** What a pulser thread does, in the order it does it. *)
Inductive event : Type :=
| EvOn                                   (* turnIndicatorOn *)
| EvSleep (nextDuration : Q)             (* rospy.sleep returned *)
| EvFlip (index : nat) (newState : bool) (* flipRumbleOrLED *)
| EvOff.                                 (* the finally block *)

(** What the thread shares with the rest of the process: the device, the
    rospy shutdown flag, and (for the statements only) the record of what
    happened. *)
Record World : Type := mkWorld {
  wiimoteDevice : WIIMote.t;
  is_shutdown : bool;
  trace : list event
}.

Definition withDevice (w : World) (dev : WIIMote.t) : World :=
  {| wiimoteDevice := dev; is_shutdown := is_shutdown w; trace := trace w |}.

Definition emit (w : World) (e : event) : World :=
  {| wiimoteDevice := wiimoteDevice w;
     is_shutdown := is_shutdown w;
     trace := trace w ++ [e] |}.

Module SwitchPulser.

(** How run() ended. *)
Inductive outcome : Type :=
| Returned
| Raised (e : exn).

(** Where the thread is in run(). *)
Inductive phase : Type :=
| Created                      (* run() not entered yet *)
| LoopHead                     (* about to test the while condition *)
| Sleeping (nextDuration : Q)  (* inside rospy.sleep(nextDuration) *)
| Finished (o : outcome).

Record t : Type := mk {
  patternArray : list (option OutputPattern.t);
  outputIndicator : indicator;
  stop : bool;
  LEDMask : list (option bool);
  pc : phase
}.

(** __init__(self, patternArray, outputIndicator, wiimoteDevice); the
    attribute LEDMask does not exist until turnIndicatorOn creates it,
    and is never read before. *)
Definition init (patternArray : list (option OutputPattern.t))
    (outputIndicator : indicator) : t :=
  {| patternArray := patternArray;
     outputIndicator := outputIndicator;
     stop := false;
     LEDMask := [];
     pc := Created |}.

Definition withPc (self : t) (p : phase) : t :=
  {| patternArray := patternArray self;
     outputIndicator := outputIndicator self;
     stop := stop self;
     LEDMask := LEDMask self;
     pc := p |}.

Definition withStop (self : t) (b : bool) : t :=
  {| patternArray := patternArray self;
     outputIndicator := outputIndicator self;
     stop := b;
     LEDMask := LEDMask self;
     pc := pc self |}.

Definition withLEDMask (self : t) (m : list (option bool)) : t :=
  {| patternArray := patternArray self;
     outputIndicator := outputIndicator self;
     stop := stop self;
     LEDMask := m;
     pc := pc self |}.

Definition withPatternArray (self : t)
    (pa : list (option OutputPattern.t)) : t :=
  {| patternArray := pa;
     outputIndicator := outputIndicator self;
     stop := stop self;
     LEDMask := LEDMask self;
     pc := pc self |}.

(** The mask turnIndicatorOn builds: True for a slot with a pattern,
    None for a slot without, over range(min(NUM_LEDS, len)). *)
Definition onMask (patternArray : list (option OutputPattern.t))
  : list (option bool) :=
  map (fun p : option OutputPattern.t =>
         match p with
         | None => None
         | Some _ => Some true
         end)
      (firstn (Nat.min NUM_LEDS (length patternArray)) patternArray).

(** turnIndicatorOn(self, theIndicator) *)
Definition turnIndicatorOn (self : t) (theIndicator : indicator)
    (w : World) : t * World * result unit :=
  match theIndicator with
  | RUMBLE =>
    match nth_error (patternArray self) 0 with
    | None => (self, w, Raise IndexError)
    | Some (Some _) =>
      (self,
       emit (withDevice w (WIIMote.setRumble (wiimoteDevice w) true)) EvOn,
       Ok tt)
    | Some None =>
      (* neither branch of the if/elif applies *)
      (self, w, Raise ValueError)
    end
  | LED =>
    let mask := onMask (patternArray self) in
    (withLEDMask self mask,
     emit (withDevice w (WIIMote.setLEDs (wiimoteDevice w) mask)) EvOn,
     Ok tt)
  end.

(** flipRumble(self) *)
Definition flipRumble (w : World) : World :=
  let b := negb (WIIMote.getRumble (wiimoteDevice w)) in
  emit (withDevice w (WIIMote.setRumble (wiimoteDevice w) b)) (EvFlip 0 b).

(** flipLED(self, index) *)
Definition flipLED (index : nat) (w : World) : World * result unit :=
  let LEDStatus := WIIMote.getLEDs (wiimoteDevice w) in
  let newLEDStatus : list (option bool) := [None; None; None; None] in
  match nth_error LEDStatus index with
  | None => (w, Raise IndexError)
  | Some b =>
    if (index <? length newLEDStatus)%nat then
      let newLEDStatus := list_set newLEDStatus index (Some (negb b)) in
      (emit (withDevice w (WIIMote.setLEDs (wiimoteDevice w) newLEDStatus))
            (EvFlip index (negb b)),
       Ok tt)
    else (w, Raise IndexError)
  end.

(** flipRumbleOrLED(self, index) *)
Definition flipRumbleOrLED (self : t) (index : nat) (w : World)
  : World * result unit :=
  match outputIndicator self with
  | RUMBLE => (flipRumble w, Ok tt)
  | LED => flipLED index w
  end.

(** min(nextDuration, patternHeadTime), nextDuration starting at
    float('inf'). *)
Definition pymin (nextDuration : option Q) (patternHeadTime : Q) : Q :=
  match nextDuration with
  | None => patternHeadTime
  | Some nd => if Qltb patternHeadTime nd then patternHeadTime else nd
  end.

(** The first for loop of run(): the minimum of the head times. *)
Fixpoint nextDurationFrom (patterns : list (option OutputPattern.t))
    (nextDuration : option Q) : result (option Q) :=
  match patterns with
  | [] => Ok nextDuration
  | None :: rest => nextDurationFrom rest nextDuration
  | Some pattern :: rest =>
    match OutputPattern.timeRemaining pattern with
    | Raise e => Raise e
    | Ok None => nextDurationFrom rest nextDuration
    | Ok (Some patternHeadTime) =>
      nextDurationFrom rest (Some (pymin nextDuration patternHeadTime))
    end
  end.

(** The second for loop of run(), from patternIndex on; [n] bounds the
    number of slots still to visit. *)
Fixpoint tickFrom (n : nat) (patternIndex : nat) (self : t)
    (durationJustFinished : Q) (w : World) : t * World * result unit :=
  match n with
  | O => (self, w, Ok tt)
  | S n' =>
    match nth_error (patternArray self) patternIndex with
    | None => (self, w, Ok tt)
    | Some None => (self, w, Raise AttributeError)
    | Some (Some pattern) =>
      let (pattern', reducedTime) :=
        OutputPattern.reduceTimer pattern durationJustFinished in
      (* the pattern object was changed in place *)
      let self1 :=
        withPatternArray self
          (list_set (patternArray self) patternIndex (Some pattern')) in
      match reducedTime with
      | Raise e => (self1, w, Raise e)
      | Ok reduced =>
        let '(self2, w2, on) :=
          if OutputPattern.startOfRepeat pattern'
          then turnIndicatorOn self1 (outputIndicator self1) w
          else (self1, w, Ok tt) in
        match on with
        | Raise e => (self2, w2, Raise e)
        | Ok _ =>
          match reduced with
          | None =>
            tickFrom n' (S patternIndex) self2 durationJustFinished w2
          | Some r =>
            if Qeq_bool r 0 then
              match flipRumbleOrLED self2 patternIndex w2 with
              | (w3, Raise e) => (self2, w3, Raise e)
              | (w3, Ok _) =>
                tickFrom n' (S patternIndex) self2 durationJustFinished w3
              end
            else
              tickFrom n' (S patternIndex) self2 durationJustFinished w2
          end
        end
      end
    end
  end.

Definition tick (self : t) (durationJustFinished : Q) (w : World)
  : t * World * result unit :=
  tickFrom (length (patternArray self)) 0 self durationJustFinished w.

(** The finally block of run(); [pending] is how the try block ended. *)
Definition finally (self : t) (w : World) (pending : outcome) : t * World :=
  match outputIndicator self with
  | RUMBLE =>
    (* setRumble(False); exit(0) *)
    (withPc self (Finished (Raised SystemExit)),
     emit (withDevice w (WIIMote.setRumble (wiimoteDevice w) false)) EvOff)
  | LED =>
    let mask :=
      map (fun oneLED : option bool =>
             match oneLED with
             | None => None
             | Some _ => Some false
             end)
          (LEDMask self) in
    (withPc (withLEDMask self mask) (Finished pending),
     emit (withDevice w (WIIMote.setLEDs (wiimoteDevice w) mask)) EvOff)
  end.

(** One step of the thread: from a suspension point of run() to the
    next.  rospy.sleep raises ROSInterruptException when the node is
    shut down; the stop attribute is read by the while condition only. *)
Definition step (self : t) (w : World) : t * World :=
  match pc self with
  | Created =>
    (* turnIndicatorOn is called before the try statement *)
    match turnIndicatorOn self (outputIndicator self) w with
    | (self', w', Ok _) => (withPc self' LoopHead, w')
    | (self', w', Raise e) => (withPc self' (Finished (Raised e)), w')
    end
  | LoopHead =>
    if is_shutdown w || stop self then finally self w Returned
    else
      match nextDurationFrom (patternArray self) None with
      | Raise e => finally self w (Raised e)
      | Ok None => finally self w (Raised SystemExit)
      | Ok (Some nextDuration) => (withPc self (Sleeping nextDuration), w)
      end
  | Sleeping nextDuration =>
    if is_shutdown w then finally self w Returned
    else
      match tick self nextDuration (emit w (EvSleep nextDuration)) with
      | (self', w', Ok _) => (withPc self' LoopHead, w')
      | (self', w', Raise e) => finally self' w' (Raised e)
      end
  | Finished _ => (self, w)
  end.

(** [n] steps of the thread with nobody else acting. *)
Fixpoint steps (n : nat) (self : t) (w : World) : t * World :=
  match n with
  | O => (self, w)
  | S n' => let (self', w') := step self w in steps n' self' w'
  end.

(** What the rest of the process can do between two steps of the
    thread. *)
Inductive action : Type :=
| ThreadStep        (* the pulser thread runs to its next suspension *)
| SetStop           (* somebody sets pulser.stop = True *)
| RosShutdown.      (* the node is shut down *)

Definition act (a : action) (self : t) (w : World) : t * World :=
  match a with
  | ThreadStep => step self w
  | SetStop => (withStop self true, w)
  | RosShutdown =>
    (self, {| wiimoteDevice := wiimoteDevice w;
              is_shutdown := true;
              trace := trace w |})
  end.

Fixpoint exec (schedule : list action) (self : t) (w : World) : t * World :=
  match schedule with
  | [] => (self, w)
  | a :: rest => let (self', w') := act a self w in exec rest self' w'
  end.

(** Passes still owed by a pattern: the size of what is left of it. *)
Definition owed (p : OutputPattern.t) : nat :=
  if OutputPattern.patternSpent p then 0%nat
  else (Z.to_nat (OutputPattern.numReps p - 1)
          * length (OutputPattern.origTimePattern p)
        + (length (OutputPattern.timePattern p)
           - OutputPattern.patternPt p))%nat.

Definition owedAll (patterns : list (option OutputPattern.t)) : nat :=
  fold_right
    (fun (p : option OutputPattern.t) acc =>
       match p with
       | None => acc
       | Some pattern => (owed pattern + acc)%nat
       end)
    0%nat patterns.

(** Steps that certainly bring the thread to its end. *)
Definition enoughSteps (self : t) : nat :=
  (2 * owedAll (patternArray self) + 3)%nat.

(** join(): the caller waits until run() has ended. *)
Definition join (self : t) (w : World) : t * World :=
  steps (enoughSteps self) self w.

End SwitchPulser.

(* --------------------------------------------------------------------- *)
(* class WiimoteListeners(threading.Thread): the two callbacks            *)
(* --------------------------------------------------------------------- *)

Module WiimoteListeners.

(** msg.rumble of a RumbleControl message, and one entry of
    msg.timed_switch_array of an LEDControl message. *)
Record TimedSwitch : Type := mkTimedSwitch {
  switch_mode : Z;
  num_cycles : Z;
  pulse_pattern : list Q
}.

Record LEDControl : Type := mkLEDControl {
  switch_array : list Z;
  timed_switch_array : list TimedSwitch
}.

(** The listener object; self.wiiMote is the device of the [World]. *)
Record t : Type := mk {
  pulserThread : option SwitchPulser.t
}.

(** What a callback asks of threads and of the device, in order. *)
Inductive call : Type :=
| CallStop                                  (* pulserThread.stop = True *)
| CallJoin                                  (* pulserThread.join() *)
| CallStart                                 (* pulserThread.start() *)
| CallSetRumble (switchPos : bool)
| CallSetLEDs (statusList : list (option bool))
| CallLoginfo.                              (* rospy.loginfo(...) *)

(** The first if statement of rumbleSwitchCallback: a running pulser is
    told to stop and waited for. *)
Definition stopPulser (self : t) (w : World) : t * World * list call :=
  match pulserThread self with
  | None => (self, w, [])
  | Some th =>
    let (_, w') := SwitchPulser.join (SwitchPulser.withStop th true) w in
    ({| pulserThread := None |}, w', [CallStop; CallJoin])
  end.

(** Modelled from the spec: the direct LED request is "a flat per-LED
    boolean array"; its int8 entries are read as Python truth values by
    the device. *)
Definition statusOfSwitchArray (switch_array : list Z)
  : list (option bool) :=
  map (fun z : Z => Some (negb (z =? 0)%Z)) switch_array.

Section Callbacks.

(** wiimoteConstants.SWITCH_ON, SWITCH_OFF and SWITCH_PULSE_PATTERN are
    imported, not defined here. *)
Variables SWITCH_ON SWITCH_OFF SWITCH_PULSE_PATTERN : Z.

(** rumbleSwitchCallback(msg) *)
Definition rumbleSwitchCallback (self : t) (msg : TimedSwitch)
    (w : World) : t * World * list call :=
  let '(self1, w1, calls) := stopPulser self w in
  if (switch_mode msg =? SWITCH_ON)%Z then
    (self1,
     withDevice w1 (WIIMote.setRumble (wiimoteDevice w1) true),
     calls ++ [CallSetRumble true])
  else if (switch_mode msg =? SWITCH_OFF)%Z then
    (self1,
     withDevice w1 (WIIMote.setRumble (wiimoteDevice w1) false),
     calls ++ [CallSetRumble false])
  else if negb (switch_mode msg =? SWITCH_PULSE_PATTERN)%Z then
    (self1, w1, calls ++ [CallLoginfo])
  else if (num_cycles msg =? 0)%Z then
    (self1, w1, calls)
  else
    let th :=
      SwitchPulser.init
        [Some (OutputPattern.init (pulse_pattern msg) (num_cycles msg))]
        RUMBLE in
    let (th', w2) := SwitchPulser.join th w1 in
    ({| pulserThread := Some th' |}, w2, calls ++ [CallStart; CallJoin]).

(** ledControlCallback(msg) *)
Definition ledControlCallback (self : t) (msg : LEDControl)
    (w : World) : result (t * World * list call) :=
  match switch_array msg with
  | [] => Raise IndexError
  | first :: _ =>
    if negb (first =? -1)%Z then
      let statusList := statusOfSwitchArray (switch_array msg) in
      Ok (self,
          withDevice w (WIIMote.setLEDs (wiimoteDevice w) statusList),
          [CallSetLEDs statusList])
    else
      let patterns :=
        map (fun timedSwitch : TimedSwitch =>
               Some (OutputPattern.init (pulse_pattern timedSwitch)
                                        (num_cycles timedSwitch)))
            (timed_switch_array msg) in
      let th := SwitchPulser.init patterns LED in
      let (th', w') := SwitchPulser.join th w in
      Ok ({| pulserThread := Some th' |}, w', [CallStart; CallJoin])
  end.

End Callbacks.

End WiimoteListeners.

(* --------------------------------------------------------------------- *)
(* class WiiSender: message fields filled in by run                       *)
(* --------------------------------------------------------------------- *)

Module WiiSender.

(** geometry_msgs Point(x, y, z). *)
Record Point : Type := mkPoint { x : Q; y : Q; z : Q }.

(** An entry of wiistate.IRSources that is not None: a dict in which the
    keys 'pos' and 'size' may each be missing. *)
Record IRSource : Type := mkIRSource {
  pos : option (Q * Q);
  size : option Q
}.

(** [l[i] = v] with Python's range check. *)
Definition store {A : Type} (l : list A) (i : nat) (v : A)
  : result (list A) :=
  if (i <? length l)%nat then Ok (list_set l i v) else Raise IndexError.

(** The body of [for indx in range(len(msg.LEDs))], run for the [n]
    indices from [indx] on. *)
Fixpoint ledsFrom (n indx : nat) (ledStates : list bool) (LEDs : list Z)
  : list Z * result unit :=
  match n with
  | O => (LEDs, Ok tt)
  | S n' =>
    match nth_error ledStates indx with
    | None => (LEDs, Raise IndexError)
    | Some state =>
      ledsFrom n' (S indx) ledStates
               (list_set LEDs indx (if state then 1%Z else 0%Z))
    end
  end.

Definition fillLEDs (ledStates : list bool) (LEDs : list Z)
  : list Z * result unit :=
  ledsFrom (length LEDs) 0 ledStates LEDs.

(** One turn of [for irSensorIndx in range(NUM_IR_SENSORS)]: the two
    lists are msg.ir_positions and msg.ir_sizes. *)
Definition irBody (irSensorIndx : nat) (irSources : list (option IRSource))
    (ir_positions : list Point) (ir_sizes : list Q)
  : list Point * list Q * result unit :=
  match nth_error irSources irSensorIndx with
  | None => (ir_positions, ir_sizes, Raise IndexError)
  | Some (Some source) =>
    match pos source with
    | None =>
      match store ir_positions irSensorIndx (mkPoint (-1) (-1) (-1)) with
      | Raise e => (ir_positions, ir_sizes, Raise e)
      | Ok ir_positions' => (ir_positions', ir_sizes, Ok tt)
      end
    | Some (pos0, pos1) =>
      match store ir_positions irSensorIndx (mkPoint pos0 pos1 (-1)) with
      | Raise e => (ir_positions, ir_sizes, Raise e)
      | Ok ir_positions' =>
        match size source with
        | None =>
          match store ir_sizes irSensorIndx (-1) with
          | Raise e => (ir_positions', ir_sizes, Raise e)
          | Ok ir_sizes' => (ir_positions', ir_sizes', Ok tt)
          end
        | Some size =>
          match store ir_sizes irSensorIndx size with
          | Raise e => (ir_positions', ir_sizes, Raise e)
          | Ok ir_sizes' => (ir_positions', ir_sizes', Ok tt)
          end
        end
      end
    end
  | Some None =>
    match store ir_positions irSensorIndx (mkPoint (-1) (-1) (-1)) with
    | Raise e => (ir_positions, ir_sizes, Raise e)
    | Ok ir_positions' =>
      match store ir_sizes irSensorIndx (-1) with
      | Raise e => (ir_positions', ir_sizes, Raise e)
      | Ok ir_sizes' => (ir_positions', ir_sizes', Ok tt)
      end
    end
  end.

Fixpoint irFrom (n irSensorIndx : nat) (irSources : list (option IRSource))
    (ir_positions : list Point) (ir_sizes : list Q)
  : list Point * list Q * result unit :=
  match n with
  | O => (ir_positions, ir_sizes, Ok tt)
  | S n' =>
    match irBody irSensorIndx irSources ir_positions ir_sizes with
    | (ir_positions', ir_sizes', Ok _) =>
      irFrom n' (S irSensorIndx) irSources ir_positions' ir_sizes'
    | raised => raised
    end
  end.

Definition fillIR (NUM_IR_SENSORS : nat) (irSources : list (option IRSource))
    (ir_positions : list Point) (ir_sizes : list Q)
  : list Point * list Q * result unit :=
  irFrom NUM_IR_SENSORS 0 irSources ir_positions ir_sizes.

End WiiSender.

(* --------------------------------------------------------------------- *)
(* Specifications and invariants used by the proofs                       *)
(* --------------------------------------------------------------------- *)

(** The six ways through reduceTimer. *)
Inductive reduceTimerSpec (p : OutputPattern.t) (time : Q)
  : OutputPattern.t * result (option Q) -> Prop :=
| RtSpent :
    OutputPattern.patternSpent p = true ->
    reduceTimerSpec p time (p, Ok None)
| RtNoHead :
    OutputPattern.patternSpent p = false ->
    nth_error (OutputPattern.timePattern p) (OutputPattern.patternPt p) = None ->
    reduceTimerSpec p time (p, Raise IndexError)
| RtContinue (head : Q) :
    OutputPattern.patternSpent p = false ->
    nth_error (OutputPattern.timePattern p) (OutputPattern.patternPt p)
      = Some head ->
    Qle_bool (round2 (OutputPattern.clamp (head - time))) 0 = false ->
    reduceTimerSpec p time
      (OutputPattern.mk (OutputPattern.origTimePattern p)
         (list_set (OutputPattern.timePattern p) (OutputPattern.patternPt p)
                   (OutputPattern.clamp (head - time)))
         (OutputPattern.numReps p) (OutputPattern.patternPt p) false false,
       Ok (Some (round2 (OutputPattern.clamp (head - time)))))
| RtAdvance (head : Q) :
    OutputPattern.patternSpent p = false ->
    nth_error (OutputPattern.timePattern p) (OutputPattern.patternPt p)
      = Some head ->
    Qle_bool (round2 (OutputPattern.clamp (head - time))) 0 = true ->
    (S (OutputPattern.patternPt p) < length (OutputPattern.timePattern p))%nat ->
    reduceTimerSpec p time
      (OutputPattern.mk (OutputPattern.origTimePattern p)
         (list_set (OutputPattern.timePattern p) (OutputPattern.patternPt p)
                   (OutputPattern.clamp (head - time)))
         (OutputPattern.numReps p) (S (OutputPattern.patternPt p)) false false,
       Ok (Some (round2 (OutputPattern.clamp (head - time)))))
| RtFinish (head : Q) :
    OutputPattern.patternSpent p = false ->
    nth_error (OutputPattern.timePattern p) (OutputPattern.patternPt p)
      = Some head ->
    Qle_bool (round2 (OutputPattern.clamp (head - time))) 0 = true ->
    (length (OutputPattern.timePattern p) <= S (OutputPattern.patternPt p))%nat ->
    (OutputPattern.numReps p - 1 <= 0)%Z ->
    reduceTimerSpec p time
      (OutputPattern.mk (OutputPattern.origTimePattern p)
         (list_set (OutputPattern.timePattern p) (OutputPattern.patternPt p)
                   (OutputPattern.clamp (head - time)))
         (OutputPattern.numReps p - 1) (S (OutputPattern.patternPt p))
         true false,
       Ok None)
| RtRepeat (head : Q) :
    OutputPattern.patternSpent p = false ->
    nth_error (OutputPattern.timePattern p) (OutputPattern.patternPt p)
      = Some head ->
    Qle_bool (round2 (OutputPattern.clamp (head - time))) 0 = true ->
    (length (OutputPattern.timePattern p) <= S (OutputPattern.patternPt p))%nat ->
    (0 < OutputPattern.numReps p - 1)%Z ->
    reduceTimerSpec p time
      (OutputPattern.mk (OutputPattern.origTimePattern p)
         (OutputPattern.origTimePattern p)
         (OutputPattern.numReps p - 1) 0%nat false true,
       match nth_error (OutputPattern.origTimePattern p) 0 with
       | Some d => Ok (Some d)
       | None => Raise IndexError
       end).

(** Template and working copy have one length, and an unspent pattern has
    its head inside the working copy. *)
Definition wellFormed (p : OutputPattern.t) : Prop :=
  length (OutputPattern.origTimePattern p)
    = length (OutputPattern.timePattern p)
  /\ (OutputPattern.patternSpent p = false ->
      (OutputPattern.patternPt p < length (OutputPattern.timePattern p))%nat).

(** What holds of a pattern built with at most one repeat, as long as it
    lives: no repeat has begun, the count is untouched until the pattern
    is spent, and the pattern is spent exactly when the cursor is past the
    last duration. *)
Definition singlePass (l : list Q) (n : Z) (p : OutputPattern.t) : Prop :=
  OutputPattern.startOfRepeat p = false
  /\ length (OutputPattern.timePattern p) = length l
  /\ (OutputPattern.patternSpent p = false ->
      (OutputPattern.patternPt p < length l)%nat
      /\ OutputPattern.numReps p = n)
  /\ (OutputPattern.patternSpent p = true ->
      OutputPattern.patternPt p = length l).

(** Which slots of a pattern array hold a pattern. *)
Definition presence (patternArray : list (option OutputPattern.t))
  : list bool :=
  map (fun p : option OutputPattern.t =>
         match p with
         | None => false
         | Some _ => true
         end)
      patternArray.

(** The mask of turnIndicatorOn, from the presence of patterns alone. *)
Definition maskOf (pres : list bool) : list (option bool) :=
  map (fun b : bool => if b then Some true else None)
      (firstn (Nat.min NUM_LEDS (length pres)) pres).

(** What a running pulser keeps fixed: its kind, which slots hold a
    pattern, the number of LEDs, and the state of every LED whose slot
    holds no pattern. *)
Definition framed (ind0 : indicator) (pres0 leds0 : list bool)
    (self : SwitchPulser.t) (w : World) : Prop :=
  SwitchPulser.outputIndicator self = ind0
  /\ presence (SwitchPulser.patternArray self) = pres0
  /\ length (WIIMote.leds (wiimoteDevice w)) = length leds0
  /\ (forall i : nat,
         nth_error pres0 i <> Some true ->
         nth_error (WIIMote.leds (wiimoteDevice w)) i = nth_error leds0 i).

(** The state the finally block leaves: rumble off, or every LED whose
    slot holds a pattern off. *)
Definition switchedOff (ind0 : indicator) (pres0 : list bool) (w : World)
  : Prop :=
  match ind0 with
  | RUMBLE => WIIMote.rumble (wiimoteDevice w) = false
  | LED =>
    forall i : nat,
      (i < NUM_LEDS)%nat ->
      (i < length (WIIMote.leds (wiimoteDevice w)))%nat ->
      nth_error pres0 i = Some true ->
      nth_error (WIIMote.leds (wiimoteDevice w)) i = Some false
  end.

(** The invariant of the sweep itself: the frame, and for an LED pulser
    the mask that turnIndicatorOn left in self.LEDMask. *)
Definition sweeping (ind0 : indicator) (pres0 leds0 : list bool)
    (self : SwitchPulser.t) (w : World) : Prop :=
  framed ind0 pres0 leds0 self w
  /\ (ind0 = LED -> SwitchPulser.LEDMask self = maskOf pres0).

(** The invariant of a pulser started from [pres0] and [leds0]. *)
Definition pulserInv (ind0 : indicator) (pres0 leds0 : list bool)
    (self : SwitchPulser.t) (w : World) : Prop :=
  framed ind0 pres0 leds0 self w
  /\ match SwitchPulser.pc self with
     | SwitchPulser.Created =>
       ind0 = RUMBLE ->
       exists p, nth_error (SwitchPulser.patternArray self) 0 = Some (Some p)
     | SwitchPulser.LoopHead | SwitchPulser.Sleeping _ =>
       ind0 = LED -> SwitchPulser.LEDMask self = maskOf pres0
     | SwitchPulser.Finished _ => switchedOff ind0 pres0 w
     end.

(** The waits of a run, in order. *)
Fixpoint sleepsOf (tr : list event) : list Q :=
  match tr with
  | [] => []
  | EvSleep d :: rest => d :: sleepsOf rest
  | _ :: rest => sleepsOf rest
  end.

(** The states a channel was flipped to, in order. *)
Fixpoint flipsOf (index : nat) (tr : list event) : list bool :=
  match tr with
  | [] => []
  | EvFlip i b :: rest =>
    if (i =? index)%nat then b :: flipsOf index rest else flipsOf index rest
  | _ :: rest => flipsOf index rest
  end.

(** [k] states, alternating, the first being [b]. *)
Fixpoint alternation (k : nat) (b : bool) : list bool :=
  match k with
  | O => []
  | S k' => b :: alternation k' (negb b)
  end.

Definition Qsum (l : list Q) : Q := fold_right Qplus 0 l.

(** The state of channel 0 of the kind a pulser drives. *)
Definition channel (ind : indicator) (dev : WIIMote.t) : option bool :=
  match ind with
  | RUMBLE => Some (WIIMote.rumble dev)
  | LED => nth_error (WIIMote.leds dev) 0
  end.

(** What a pulser holding one pattern does with the durations still to
    come, the channel being in state [b]: wait out each, and flip the
    channel after each but the last. *)
Fixpoint pulse (durations : list Q) (b : bool) : list event :=
  match durations with
  | [] => []
  | d :: rest =>
    match rest with
    | [] => [EvSleep d]
    | _ :: _ => EvSleep d :: EvFlip 0 (negb b) :: pulse rest (negb b)
    end
  end.

(** A pulser at the loop head that holds the one pattern [p], nobody
    having asked it to stop, channel 0 being in state [b]. *)
Definition running (ind : indicator) (self : SwitchPulser.t) (w : World)
    (p : OutputPattern.t) (b : bool) : Prop :=
  SwitchPulser.patternArray self = [Some p]
  /\ SwitchPulser.outputIndicator self = ind
  /\ SwitchPulser.stop self = false
  /\ SwitchPulser.pc self = SwitchPulser.LoopHead
  /\ (ind = LED -> SwitchPulser.LEDMask self = [Some true])
  /\ is_shutdown w = false
  /\ channel ind (wiimoteDevice w) = Some b.

(** How often a run forced its channels on. *)
Fixpoint forcedOn (tr : list event) : nat :=
  match tr with
  | [] => 0%nat
  | EvOn :: rest => S (forcedOn rest)
  | _ :: rest => forcedOn rest
  end.

(** What a pulser holding one pattern does when a repeat begins: it
    forces the channel on, and flips it at once if the first duration of
    the pattern is zero. *)
Definition repeatStart (d0 : Q) : list event :=
  if Qeq_bool d0 0 then [EvOn; EvFlip 0 false] else [EvOn].

(** What a pulser holding one pattern [l], first duration [d0], does from
    the start of a pass with [more] repeats still to come, the channel
    being in state [b]. *)
Fixpoint passes (l : list Q) (d0 : Q) (more : nat) (b : bool) : list event :=
  match more with
  | O => pulse l b ++ [EvOff]
  | S more' =>
    pulse l b ++ repeatStart d0
    ++ passes l d0 more' (negb (Qeq_bool d0 0))
  end.

(** A slot that holds a pattern whose head is in range. *)
Definition ready (slot : option OutputPattern.t) : Prop :=
  exists p, slot = Some p /\ wellFormed p.

(** A pattern array of length [n] that the device can serve: a rumble
    array has its slot 0, an LED array has no more slots than flipLED's
    mask and than the device has LEDs. *)
Definition fits (ind : indicator) (n nleds : nat) : Prop :=
  match ind with
  | RUMBLE => (0 < n)%nat
  | LED => (n <= 4)%nat /\ (n <= nleds)%nat
  end.

(** A pulser left alone with patterns that are all ready: nobody stops
    it, and if it has ended, it ended by running out of patterns. *)
Definition unattended (ind : indicator) (self : SwitchPulser.t) (w : World)
  : Prop :=
  SwitchPulser.outputIndicator self = ind
  /\ SwitchPulser.stop self = false
  /\ is_shutdown w = false
  /\ Forall ready (SwitchPulser.patternArray self)
  /\ fits ind (length (SwitchPulser.patternArray self))
          (length (WIIMote.leds (wiimoteDevice w)))
  /\ (forall o,
         SwitchPulser.pc self = SwitchPulser.Finished o ->
         o = SwitchPulser.Raised SystemExit
         /\ forall i p,
              nth_error (SwitchPulser.patternArray self) i = Some (Some p) ->
              OutputPattern.patternSpent p = true).

(** The state of channel [i] of the kind a pulser drives: the one motor,
    or LED [i]. *)
Definition channelAt (ind : indicator) (i : nat) (dev : WIIMote.t)
  : option bool :=
  match ind with
  | RUMBLE => Some (WIIMote.rumble dev)
  | LED => nth_error (WIIMote.leds dev) i
  end.

(** Whether slot [i] of a pulser holds a pattern that is spent. *)
Definition spentAt (i : nat) (self : SwitchPulser.t) : bool :=
  match nth_error (SwitchPulser.patternArray self) i with
  | Some (Some p) => OutputPattern.patternSpent p
  | _ => false
  end.

(** The time a run has waited so far. *)
Definition elapsed (w : World) : Q := Qsum (sleepsOf (trace w)).

(** Whether the sweep flips the channel of [p] after a wait of [time]:
    reduceTimer returns 0.0. *)
Definition flipsAfter (p : OutputPattern.t) (time : Q) : bool :=
  match snd (OutputPattern.reduceTimer p time) with
  | Ok (Some reducedTime) => Qeq_bool reducedTime 0
  | _ => false
  end.

(** The sweep replayed for channel [index], from state [b]: forcing on
    sets the channel on, a flip of the channel inverts it. *)
Fixpoint stateAfter (index : nat) (tr : list event) (b : bool) : bool :=
  match tr with
  | [] => b
  | EvOn :: rest => stateAfter index rest true
  | EvFlip i _ :: rest =>
    stateAfter index rest (if (i =? index)%nat then negb b else b)
  | _ :: rest => stateAfter index rest b
  end.

(** The states the replayed sweep flips channel [index] to. *)
Fixpoint inverted (index : nat) (tr : list event) (b : bool) : list bool :=
  match tr with
  | [] => []
  | EvOn :: rest => inverted index rest true
  | EvFlip i _ :: rest =>
    if (i =? index)%nat
    then negb b :: inverted index rest (negb b)
    else inverted index rest b
  | _ :: rest => inverted index rest b
  end.

(** A slot whose pattern, if any, will not begin a repeat. *)
Definition quietSlot (slot : option OutputPattern.t) : Prop :=
  forall p, slot = Some p ->
            (OutputPattern.numReps p <= 1)%Z
            /\ OutputPattern.startOfRepeat p = false.

(** What holds at the loop head of the pattern of slot [i], built from
    [l] with repeat count 1, while it is unspent: the cursor counts the
    flips of its channel, the durations beyond the cursor are still
    those of [l], the channel is in the state the replay gives, and the
    time waited so far is the time of [l] up to the head, less than
    0.005 s having been dropped with each duration left behind, and
    nothing if the pattern is alone in the set. *)
Definition tracked (ind : indicator) (i : nat) (l : list Q)
    (self : SwitchPulser.t) (w : World) : Prop :=
  exists (p : OutputPattern.t) (h loss : Q),
    nth_error (SwitchPulser.patternArray self) i = Some (Some p)
    /\ singlePass l 1 p
    /\ OutputPattern.patternSpent p = false
    /\ nth_error (OutputPattern.timePattern p) (OutputPattern.patternPt p)
       = Some h
    /\ (forall j : nat,
           (OutputPattern.patternPt p < j)%nat ->
           nth_error (OutputPattern.timePattern p) j = nth_error l j)
    /\ length (flipsOf i (trace w)) = OutputPattern.patternPt p
    /\ flipsOf i (trace w) = inverted i (trace w) false
    /\ channelAt ind i (wiimoteDevice w)
       = Some (stateAfter i (trace w) false)
    /\ 0 <= loss
    /\ loss <= (1 # 200) * inject_Z (Z.of_nat (OutputPattern.patternPt p))
    /\ elapsed w + loss
       == Qsum (firstn (OutputPattern.patternPt p) l)
          + (nth (OutputPattern.patternPt p) l 0 - h)
    /\ (length (SwitchPulser.patternArray self) = 1%nat -> loss == 0).

(** What the IR loop is to leave in slot [i] of the two lists. *)
Definition irPosition (source : option WiiSender.IRSource)
  : WiiSender.Point :=
  match source with
  | Some {| WiiSender.pos := Some (pos0, pos1) |} =>
    WiiSender.mkPoint pos0 pos1 (-1)
  | _ => WiiSender.mkPoint (-1) (-1) (-1)
  end.

Definition irSize (source : option WiiSender.IRSource) (before : Q) : Q :=
  match source with
  | None => -1
  | Some {| WiiSender.pos := None |} => before
  | Some {| WiiSender.pos := Some _; WiiSender.size := None |} => -1
  | Some {| WiiSender.pos := Some _; WiiSender.size := Some size |} => size
  end.

(* ===================================================================== *)
(* Durations                                                              *)
(* ===================================================================== *)

Lemma Qltb_lt (x y : Q) : Qltb x y = true <-> x < y.
Proof.
  unfold Qltb. rewrite negb_true_iff. split.
  - intros H. apply Qnot_le_lt. intros Hle.
    apply Qle_bool_iff in Hle. congruence.
  - intros H. destruct (Qle_bool y x) eqn:E; [ | reflexivity ].
    apply Qle_bool_iff in E. exfalso. exact (Qlt_not_le _ _ H E).
Qed.

Lemma clamp_nonneg (q : Q) : 0 <= OutputPattern.clamp q.
Proof.
  unfold OutputPattern.clamp. destruct (Qltb q 0) eqn:E.
  - apply Qle_refl.
  - unfold Qltb in E. apply negb_false_iff in E.
    now apply Qle_bool_iff in E.
Qed.

Lemma clamp_zero (q : Q) : q == 0 -> OutputPattern.clamp q == 0.
Proof.
  intros H. unfold OutputPattern.clamp.
  destruct (Qltb q 0); [ reflexivity | exact H ].
Qed.

Lemma round2_nonneg (x : Q) : 0 <= x -> 0 <= round2 x.
Proof.
  intros H. unfold round2.
  apply Qle_bool_iff in H. rewrite H. apply Qle_bool_iff in H.
  assert (Hf : (0 <= Qfloor (x * 100 + (1 # 2)))%Z).
  { change 0%Z with (Qfloor 0). apply Qfloor_resp_le.
    apply Qle_trans with (0 * 100 + (1 # 2)).
    - discriminate.
    - apply Qplus_le_l. apply Qmult_le_compat_r; [ exact H | discriminate ]. }
  unfold Qle. cbn [Qnum Qden]. lia.
Qed.

Lemma round2_zero (x : Q) : x == 0 -> round2 x == 0.
Proof.
  intros H. unfold round2.
  assert (H0 : Qle_bool 0 x = true).
  { apply Qle_bool_iff. rewrite H. apply Qle_refl. }
  rewrite H0.
  assert (Hf : Qfloor (x * 100 + (1 # 2)) = 0%Z).
  { rewrite (Qfloor_comp (x * 100 + (1 # 2)) (1 # 2)).
    - reflexivity.
    - rewrite H. reflexivity. }
  rewrite Hf. reflexivity.
Qed.

(** Waiting out the head time exactly brings the head to zero. *)
Lemma head_waited_out (h : Q) :
  round2 (OutputPattern.clamp (h - h)) == 0.
Proof.
  apply round2_zero. apply clamp_zero. unfold Qminus. apply Qplus_opp_r.
Qed.

Lemma head_waited_out_le (h : Q) :
  Qle_bool (round2 (OutputPattern.clamp (h - h))) 0 = true.
Proof.
  apply Qle_bool_iff. rewrite head_waited_out. apply Qle_refl.
Qed.

Lemma head_waited_out_eq (h : Q) :
  Qeq_bool (round2 (OutputPattern.clamp (h - h))) 0 = true.
Proof. apply Qeq_bool_iff. apply head_waited_out. Qed.

(* ===================================================================== *)
(* Lists written by index                                                 *)
(* ===================================================================== *)

Lemma length_list_set {A : Type} (l : list A) (i : nat) (v : A) :
  length (list_set l i v) = length l.
Proof.
  revert i. induction l as [ | a l IH ]; intros [ | i ]; simpl; auto.
Qed.

Lemma nth_error_list_set_eq {A : Type} (l : list A) (i : nat) (v : A) :
  (i < length l)%nat -> nth_error (list_set l i v) i = Some v.
Proof.
  revert i. induction l as [ | a l IH ]; intros [ | i ] H; simpl in *;
    try lia; auto. apply IH. lia.
Qed.

Lemma nth_error_list_set_ne {A : Type} (l : list A) (i j : nat) (v : A) :
  i <> j -> nth_error (list_set l i v) j = nth_error l j.
Proof.
  revert i j. induction l as [ | a l IH ]; intros [ | i ] [ | j ] H; simpl;
    auto; try congruence.
Qed.

(* ===================================================================== *)
(* OutputPattern                                                           *)
(* ===================================================================== *)

Lemma reduceTimerP (p : OutputPattern.t) (time : Q) :
  reduceTimerSpec p time (OutputPattern.reduceTimer p time).
Proof.
  unfold OutputPattern.reduceTimer.
  destruct (OutputPattern.patternSpent p) eqn:Hs.
  { now constructor. }
  destruct (nth_error (OutputPattern.timePattern p) (OutputPattern.patternPt p))
    as [ head | ] eqn:Hh.
  2: { now constructor. }
  cbv zeta.
  destruct (Qle_bool (round2 (OutputPattern.clamp (head - time))) 0) eqn:Hr.
  2: { now apply RtContinue. }
  cbn [OutputPattern.patternPt OutputPattern.timePattern].
  rewrite length_list_set.
  destruct (Nat.ltb_spec (S (OutputPattern.patternPt p))
                         (length (OutputPattern.timePattern p))) as [ Hlt | Hge ].
  { now apply RtAdvance. }
  unfold OutputPattern.resetForRepeat.
  cbn [OutputPattern.patternSpent OutputPattern.numReps
       OutputPattern.origTimePattern OutputPattern.timePattern
       OutputPattern.patternPt OutputPattern.startOfRepeat].
  destruct (Z.leb_spec (OutputPattern.numReps p - 1) 0) as [ Hn | Hn ].
  - cbn [OutputPattern.patternSpent OutputPattern.numReps
         OutputPattern.origTimePattern OutputPattern.timePattern
         OutputPattern.patternPt OutputPattern.startOfRepeat].
    now apply RtFinish.
  - cbn [OutputPattern.patternSpent OutputPattern.numReps
         OutputPattern.origTimePattern OutputPattern.timePattern
         OutputPattern.patternPt OutputPattern.startOfRepeat].
    generalize (@RtRepeat p time head Hs Hh Hr Hge Hn).
    destruct (nth_error (OutputPattern.origTimePattern p) 0); auto.
Qed.

Close Scope Q_scope.

Lemma wellFormed_init (l : list Q) (n : Z) :
  l <> [] -> wellFormed (OutputPattern.init l n).
Proof.
  intros Hl. split; simpl; [ reflexivity | ].
  intros _. destruct l; [ congruence | simpl; lia ].
Qed.

Lemma wellFormed_reduceTimer (p : OutputPattern.t) (time : Q) :
  wellFormed p -> wellFormed (fst (OutputPattern.reduceTimer p time)).
Proof.
  intros [Hlen Hpt].
  destruct (reduceTimerP p time) as
    [ Hs | Hs Hh | head Hs Hh Hr | head Hs Hh Hr Hlt
    | head Hs Hh Hr Hge Hn | head Hs Hh Hr Hge Hn ];
    unfold wellFormed; simpl; rewrite ?length_list_set.
  - now split.
  - now split.
  - split; [ exact Hlen | intros _; exact (Hpt Hs) ].
  - split; [ exact Hlen | intros _; exact Hlt ].
  - split; [ exact Hlen | discriminate ].
  - split; [ reflexivity | ]. intros _. specialize (Hpt Hs). lia.
Qed.

Lemma wellFormed_reduceAll (times : list Q) (p : OutputPattern.t) :
  wellFormed p -> wellFormed (OutputPattern.reduceAll p times).
Proof.
  revert p. induction times as [ | time times IH ]; intros p Hp; simpl.
  - exact Hp.
  - apply IH. now apply wellFormed_reduceTimer.
Qed.

Lemma wellFormed_timeRemaining (p : OutputPattern.t) :
  wellFormed p ->
  OutputPattern.patternSpent p = false ->
  exists d, OutputPattern.timeRemaining p = Ok (Some d).
Proof.
  intros [_ Hpt] Hs. specialize (Hpt Hs).
  unfold OutputPattern.timeRemaining. rewrite Hs.
  destruct (nth_error (OutputPattern.timePattern p) (OutputPattern.patternPt p))
    as [ d | ] eqn:E.
  - now exists d.
  - apply nth_error_None in E. lia.
Qed.

Lemma wellFormed_reduceTimer_ok (p : OutputPattern.t) (time : Q) :
  wellFormed p ->
  exists r, snd (OutputPattern.reduceTimer p time) = Ok r.
Proof.
  intros [Hlen Hpt].
  destruct (reduceTimerP p time) as
    [ Hs | Hs Hh | head Hs Hh Hr | head Hs Hh Hr Hlt
    | head Hs Hh Hr Hge Hn | head Hs Hh Hr Hge Hn ];
    simpl; eauto.
  - apply nth_error_None in Hh. specialize (Hpt Hs). lia.
  - specialize (Hpt Hs).
    destruct (OutputPattern.origTimePattern p); simpl in *; eauto. lia.
Qed.

Lemma singlePass_init (l : list Q) (n : Z) :
  l <> [] -> singlePass l n (OutputPattern.init l n).
Proof.
  intros Hl. unfold singlePass. simpl. repeat split; try discriminate.
  destruct l; [ congruence | simpl; lia ].
Qed.

Lemma singlePass_reduceTimer (l : list Q) (n : Z) (p : OutputPattern.t)
    (time : Q) :
  (n <= 1)%Z ->
  singlePass l n p ->
  singlePass l n (fst (OutputPattern.reduceTimer p time))
  /\ (OutputPattern.patternPt p
      <= OutputPattern.patternPt (fst (OutputPattern.reduceTimer p time)))%nat.
Proof.
  intros Hn (Hsr & Hlen & Hlive & Hdead).
  destruct (reduceTimerP p time) as
    [ Hs | Hs Hh | head Hs Hh Hr | head Hs Hh Hr Hlt
    | head Hs Hh Hr Hge Hn' | head Hs Hh Hr Hge Hn' ];
    unfold singlePass; simpl; rewrite ?length_list_set;
    try (destruct (Hlive Hs) as [Hpt Hnr]);
    repeat split; auto; try congruence; try lia.
Qed.

Lemma singlePass_reduceAll (l : list Q) (n : Z) (times : list Q)
    (p : OutputPattern.t) :
  (n <= 1)%Z ->
  singlePass l n p ->
  singlePass l n (OutputPattern.reduceAll p times).
Proof.
  intros Hn. revert p.
  induction times as [ | time times IH ]; intros p Hp; simpl.
  - exact Hp.
  - apply IH. now apply singlePass_reduceTimer.
Qed.

(** A sweep of a pattern that is alone always moves its cursor on. *)
Lemma singlePass_sweepAlone (l : list Q) (n : Z) (p : OutputPattern.t) :
  (n <= 1)%Z ->
  singlePass l n p ->
  OutputPattern.patternSpent p = false ->
  singlePass l n (OutputPattern.sweepAlone p)
  /\ OutputPattern.patternPt (OutputPattern.sweepAlone p)
     = S (OutputPattern.patternPt p)
  /\ OutputPattern.patternSpent (OutputPattern.sweepAlone p)
     = (length l <=? S (OutputPattern.patternPt p))%nat.
Proof.
  intros Hn Hp Hs.
  pose proof Hp as (Hsr & Hlen & Hlive & Hdead).
  destruct (Hlive Hs) as [Hpt Hnr].
  unfold OutputPattern.sweepAlone, OutputPattern.timeRemaining. rewrite Hs.
  destruct (nth_error (OutputPattern.timePattern p) (OutputPattern.patternPt p))
    as [ h | ] eqn:Hh.
  2: { apply nth_error_None in Hh. lia. }
  split; [ now apply singlePass_reduceTimer | ].
  destruct (reduceTimerP p h) as
    [ Hs' | Hs' Hh' | head Hs' Hh' Hr | head Hs' Hh' Hr Hlt
    | head Hs' Hh' Hr Hge Hn' | head Hs' Hh' Hr Hge Hn' ];
    try congruence; simpl.
  - rewrite Hh in Hh'. injection Hh' as <-.
    rewrite head_waited_out_le in Hr. discriminate.
  - split; [ reflexivity | ]. symmetry. apply Nat.leb_gt. lia.
  - split; [ reflexivity | ]. symmetry. apply Nat.leb_le. lia.
  - lia.
Qed.

Lemma sweepAlone_spent (p : OutputPattern.t) :
  OutputPattern.patternSpent p = true -> OutputPattern.sweepAlone p = p.
Proof.
  intros Hs. unfold OutputPattern.sweepAlone, OutputPattern.timeRemaining.
  now rewrite Hs.
Qed.

Lemma singlePass_sweeps (l : list Q) (n : Z) (k : nat) :
  l <> [] -> (n <= 1)%Z ->
  let p := Nat.iter k OutputPattern.sweepAlone (OutputPattern.init l n) in
  singlePass l n p
  /\ OutputPattern.patternSpent p = (length l <=? k)%nat
  /\ (OutputPattern.patternSpent p = false -> OutputPattern.patternPt p = k).
Proof.
  intros Hl Hn. induction k as [ | k IH ].
  - simpl. split; [ now apply singlePass_init | ]. split; [ | reflexivity ].
    destruct l; [ congruence | reflexivity ].
  - rewrite Nat.iter_succ. cbv zeta in *.
    set (q := Nat.iter k OutputPattern.sweepAlone (OutputPattern.init l n)) in *.
    destruct IH as (Hq & Hspent & Hpt).
    destruct (OutputPattern.patternSpent q) eqn:Hs.
    + rewrite (sweepAlone_spent q Hs). split; [ exact Hq | ].
      rewrite Hs. split; [ | discriminate ].
      symmetry in Hspent. apply Nat.leb_le in Hspent.
      symmetry. apply Nat.leb_le. lia.
    + destruct (singlePass_sweepAlone l n q Hn Hq Hs) as (Hq' & Hpt' & Hs').
      specialize (Hpt eq_refl). rewrite Hpt in *.
      split; [ exact Hq' | ]. split; [ exact Hs' | ].
      intros _. exact Hpt'.
Qed.

(** C9. For an unspent pattern whose head, reduced by the elapsed time,
    clamped and rounded, is at most zero: if the advanced cursor is at the
    end of the sequence, reduceTimer decrements the repeat count; with a
    count still positive it puts the cursor back to 0, restores the working
    copy from the template, sets startOfRepeat and returns the first
    template duration; with no repeat left it marks the pattern spent and
    returns None.  If the advanced cursor is still inside the sequence it
    returns the rounded value, which is zero (never negative), and
    startOfRepeat is false. *)
Theorem reduceTimer_on_expiry (p : OutputPattern.t) (elapsed head : Q) :
  OutputPattern.patternSpent p = false ->
  length (OutputPattern.origTimePattern p)
    = length (OutputPattern.timePattern p) ->
  nth_error (OutputPattern.timePattern p) (OutputPattern.patternPt p)
    = Some head ->
  (round2 (OutputPattern.clamp (head - elapsed)) <= 0)%Q ->
  let p' := fst (OutputPattern.reduceTimer p elapsed) in
  let r := snd (OutputPattern.reduceTimer p elapsed) in
  ((length (OutputPattern.timePattern p) <= S (OutputPattern.patternPt p))%nat ->
   OutputPattern.numReps p' = (OutputPattern.numReps p - 1)%Z
   /\ ((0 < OutputPattern.numReps p')%Z ->
       OutputPattern.patternPt p' = 0%nat
       /\ OutputPattern.timePattern p' = OutputPattern.origTimePattern p
       /\ OutputPattern.origTimePattern p' = OutputPattern.origTimePattern p
       /\ OutputPattern.startOfRepeat p' = true
       /\ OutputPattern.patternSpent p' = false
       /\ exists d0,
            nth_error (OutputPattern.origTimePattern p) 0 = Some d0
            /\ r = Ok (Some d0))
   /\ ((OutputPattern.numReps p' <= 0)%Z ->
       OutputPattern.patternSpent p' = true /\ r = Ok None))
  /\ ((S (OutputPattern.patternPt p) < length (OutputPattern.timePattern p))%nat ->
      r = Ok (Some (round2 (OutputPattern.clamp (head - elapsed))))
      /\ (round2 (OutputPattern.clamp (head - elapsed)) == 0)%Q
      /\ OutputPattern.startOfRepeat p' = false
      /\ OutputPattern.patternPt p' = S (OutputPattern.patternPt p)
      /\ OutputPattern.patternSpent p' = false
      /\ OutputPattern.numReps p' = OutputPattern.numReps p).
Proof.
  intros Hs Hlen Hh Hle. cbv zeta.
  assert (Hz : (round2 (OutputPattern.clamp (head - elapsed)) == 0)%Q).
  { apply Qle_antisym; [ exact Hle | ].
    apply round2_nonneg, clamp_nonneg. }
  apply Qle_bool_iff in Hle.
  destruct (reduceTimerP p elapsed) as
    [ Hs' | Hs' Hh' | h Hs' Hh' Hr | h Hs' Hh' Hr Hlt
    | h Hs' Hh' Hr Hge Hn | h Hs' Hh' Hr Hge Hn ];
    try congruence;
    rewrite Hh in Hh'; injection Hh' as <-; simpl.
  - split; [ intros Hge; lia | ]. intros _. repeat split; auto.
  - split; [ | intros Hlt; lia ]. intros _.
    split; [ reflexivity | ]. split; [ intros Hpos; lia | ].
    intros _. split; reflexivity.
  - split; [ | intros Hlt; lia ]. intros _.
    split; [ reflexivity | ]. split; [ | intros Hneg; lia ].
    intros _. repeat split.
    destruct (OutputPattern.origTimePattern p) as [ | d0 rest ] eqn:E.
    + assert (Hin : (OutputPattern.patternPt p
                     < length (OutputPattern.timePattern p))%nat)
        by (apply nth_error_Some; congruence).
      simpl in Hlen. lia.
    + exists d0. split; reflexivity.
Qed.

Lemma reduceTimer_on_expiry_witness :
  let p := OutputPattern.init [(1 # 2)%Q; (1 # 2)%Q] 2 in
  let p' := fst (OutputPattern.reduceTimer p (1 # 2)%Q) in
  OutputPattern.patternPt p' = 1%nat
  /\ OutputPattern.startOfRepeat p' = false
  /\ OutputPattern.patternSpent p' = false.
Proof.
  pose proof
    (@reduceTimer_on_expiry
       (OutputPattern.init [(1 # 2)%Q; (1 # 2)%Q] 2) (1 # 2)%Q (1 # 2)%Q
       eq_refl eq_refl eq_refl) as H.
  assert (Hle : (round2 (OutputPattern.clamp ((1 # 2) - (1 # 2))) <= 0)%Q).
  { apply Qle_bool_iff. vm_compute. reflexivity. }
  destruct (H Hle) as [_ Hin].
  assert (Hlt : (S (OutputPattern.patternPt
                      (OutputPattern.init [(1 # 2)%Q; (1 # 2)%Q] 2))
                 < length (OutputPattern.timePattern
                      (OutputPattern.init [(1 # 2)%Q; (1 # 2)%Q] 2)))%nat).
  { simpl. lia. }
  destruct (Hin Hlt) as (_ & _ & Hsr & Hpt & Hsp & _).
  cbv zeta. repeat split; assumption.
Defined.

(** C10. A pattern built from a non-empty sequence with a repeat count of
    at most 1 (zero and negative counts included) makes exactly one pass:
    whatever times it is reduced by, no repeat ever begins and the cursor
    never goes back; it is spent exactly when the cursor has left the
    sequence; the call that moves the cursor past the last duration fails
    the repeat attempt and returns None; and swept alone, it is spent after
    exactly as many sweeps as the sequence has durations. *)
Theorem one_pass_when_reps_le_1 (l : list Q) (n : Z) :
  l <> [] ->
  (n <= 1)%Z ->
  (forall times : list Q,
      let p := OutputPattern.reduceAll (OutputPattern.init l n) times in
      OutputPattern.startOfRepeat p = false
      /\ (OutputPattern.patternSpent p = true
          <-> OutputPattern.patternPt p = length l)
      /\ (forall time : Q,
             (OutputPattern.patternPt p
              <= OutputPattern.patternPt
                   (fst (OutputPattern.reduceTimer p time)))%nat)
      /\ (forall time head : Q,
             OutputPattern.patternSpent p = false ->
             S (OutputPattern.patternPt p) = length l ->
             nth_error (OutputPattern.timePattern p)
                       (OutputPattern.patternPt p) = Some head ->
             (round2 (OutputPattern.clamp (head - time)) <= 0)%Q ->
             snd (OutputPattern.reduceTimer p time) = Ok None
             /\ OutputPattern.patternSpent
                  (fst (OutputPattern.reduceTimer p time)) = true
             /\ (OutputPattern.numReps
                   (fst (OutputPattern.reduceTimer p time)) <= 0)%Z))
  /\ (forall k : nat,
         OutputPattern.patternSpent
           (Nat.iter k OutputPattern.sweepAlone (OutputPattern.init l n))
         = (length l <=? k)%nat).
Proof.
  intros Hl Hn. split.
  - intros times p.
    assert (Hp : singlePass l n p).
    { apply singlePass_reduceAll; [ exact Hn | now apply singlePass_init ]. }
    pose proof Hp as (Hsr & Hlen & Hlive & Hdead).
    split; [ exact Hsr | ]. split; [ | split ].
    + split; [ exact Hdead | ]. intros Hpt.
      destruct (OutputPattern.patternSpent p) eqn:Hs; [ reflexivity | ].
      destruct (Hlive eq_refl). lia.
    + intros time. exact (proj2 (singlePass_reduceTimer l n p time Hn Hp)).
    + intros time head Hs Hlast Hh Hle.
      destruct (Hlive Hs) as [Hpt Hnr].
      apply Qle_bool_iff in Hle.
      destruct (reduceTimerP p time) as
        [ Hs' | Hs' Hh' | h Hs' Hh' Hr | h Hs' Hh' Hr Hlt
        | h Hs' Hh' Hr Hge Hn' | h Hs' Hh' Hr Hge Hn' ];
        try congruence;
        rewrite Hh in Hh'; injection Hh' as <-; simpl.
      * lia.
      * repeat split. lia.
      * lia.
  - intros k. now apply singlePass_sweeps.
Qed.

Lemma one_pass_when_reps_le_1_witness :
  OutputPattern.patternSpent
    (Nat.iter 2 OutputPattern.sweepAlone
       (OutputPattern.init [(1 # 2)%Q; (3 # 10)%Q] (-3)))
  = (length [(1 # 2)%Q; (3 # 10)%Q] <=? 2)%nat.
Proof.
  assert (Hl : [(1 # 2)%Q; (3 # 10)%Q] <> []) by discriminate.
  assert (Hn : (-3 <= 1)%Z) by lia.
  exact (proj2 (one_pass_when_reps_le_1 _ _ Hl Hn) 2%nat).
Defined.

(** C5, as the code has it.  The constructor checks nothing; but a
    pattern built from a non-empty sequence keeps its head defined:
    after any series of reduceTimer calls, timeRemaining returns a
    duration while the pattern is unspent and None once it is spent, and
    reduceTimer itself never raises. *)
Theorem nonempty_pattern_head_defined (l : list Q) (n : Z) (times : list Q) :
  l <> [] ->
  let p := OutputPattern.reduceAll (OutputPattern.init l n) times in
  (OutputPattern.patternSpent p = false ->
   exists d, OutputPattern.timeRemaining p = Ok (Some d))
  /\ (OutputPattern.patternSpent p = true ->
      OutputPattern.timeRemaining p = Ok None)
  /\ (forall time : Q,
         exists r, snd (OutputPattern.reduceTimer p time) = Ok r).
Proof.
  intros Hl p.
  assert (Hp : wellFormed p).
  { apply wellFormed_reduceAll. now apply wellFormed_init. }
  split; [ | split ].
  - now apply wellFormed_timeRemaining.
  - intros Hs. unfold OutputPattern.timeRemaining. now rewrite Hs.
  - intros time. now apply wellFormed_reduceTimer_ok.
Qed.

Lemma nonempty_pattern_head_defined_witness :
  exists d,
    OutputPattern.timeRemaining
      (OutputPattern.reduceAll
         (OutputPattern.init [(1 # 5)%Q; (3 # 10)%Q] 1) [(1 # 5)%Q])
    = Ok (Some d).
Proof.
  assert (Hl : [(1 # 5)%Q; (3 # 10)%Q] <> []) by discriminate.
  exact (proj1 (@nonempty_pattern_head_defined
                  [(1 # 5)%Q; (3 # 10)%Q] 1 [(1 # 5)%Q] Hl) eq_refl).
Defined.

(** C5 fails as stated: a zero-length sequence is accepted by the
    constructor, the pattern is unspent, and the failure shows only in the
    sweep, where timeRemaining raises IndexError. *)
Lemma empty_pattern_accepted :
  OutputPattern.patternSpent (OutputPattern.init [] 1) = false
  /\ OutputPattern.timeRemaining (OutputPattern.init [] 1) = Raise IndexError
  /\ SwitchPulser.pc
       (fst (SwitchPulser.steps 2
               (SwitchPulser.init [Some (OutputPattern.init [] 1)] LED)
               (mkWorld (WIIMote.mk false [false; false; false; false])
                        false [])))
     = SwitchPulser.Finished (SwitchPulser.Raised IndexError).
Proof. repeat split. Qed.

(* ===================================================================== *)
(* The device                                                              *)
(* ===================================================================== *)

Lemma length_applyMask (status : list bool) (mask : list (option bool)) :
  length (WIIMote.applyMask status mask) = length status.
Proof.
  revert mask. induction status as [ | b status IH ]; intros mask.
  - reflexivity.
  - destruct mask as [ | [ v | ] rest ]; simpl; auto.
Qed.

Lemma nth_error_applyMask (status : list bool) (mask : list (option bool))
    (i : nat) :
  nth_error (WIIMote.applyMask status mask) i
  = match nth_error status i with
    | None => None
    | Some b =>
      Some (match nth_error mask i with
            | Some (Some v) => v
            | _ => b
            end)
    end.
Proof.
  revert mask i. induction status as [ | b status IH ]; intros mask i.
  - simpl. now destruct i.
  - destruct mask as [ | [ v | ] rest ]; destruct i as [ | i ]; simpl; auto.
    destruct (nth_error status i); reflexivity.
Qed.

Lemma onMask_maskOf (pa : list (option OutputPattern.t)) :
  SwitchPulser.onMask pa = maskOf (presence pa).
Proof.
  unfold SwitchPulser.onMask, maskOf, presence.
  rewrite length_map, firstn_map, map_map.
  apply map_ext. now intros [ p | ].
Qed.

Lemma nth_error_maskOf (pres : list bool) (i : nat) :
  nth_error (maskOf pres) i
  = if (i <? NUM_LEDS)%nat
    then match nth_error pres i with
         | Some true => Some (Some true)
         | Some false => Some None
         | None => None
         end
    else None.
Proof.
  unfold maskOf. rewrite nth_error_map, nth_error_firstn.
  destruct (Nat.ltb_spec i NUM_LEDS) as [ Hi | Hi ].
  - destruct (Nat.ltb_spec i (Nat.min NUM_LEDS (length pres))) as [ Hj | Hj ].
    + destruct (nth_error pres i) as [ [ | ] | ]; reflexivity.
    + assert (Hn : nth_error pres i = None) by (apply nth_error_None; lia).
      now rewrite Hn.
  - destruct (Nat.ltb_spec i (Nat.min NUM_LEDS (length pres))) as [ Hj | Hj ].
    + lia.
    + reflexivity.
Qed.

Lemma presence_list_set (pa : list (option OutputPattern.t)) (i : nat)
    (p p' : OutputPattern.t) :
  nth_error pa i = Some (Some p) ->
  presence (list_set pa i (Some p')) = presence pa.
Proof.
  revert i. induction pa as [ | a pa IH ]; intros [ | i ] H; simpl in *;
    try discriminate.
  - injection H as ->. reflexivity.
  - f_equal. now apply IH.
Qed.

Lemma nth_error_presence (pa : list (option OutputPattern.t)) (i : nat) :
  nth_error (presence pa) i
  = option_map (fun p : option OutputPattern.t =>
                  match p with
                  | None => false
                  | Some _ => true
                  end)
               (nth_error pa i).
Proof. unfold presence. apply nth_error_map. Qed.

(* ===================================================================== *)
(* SwitchPulser: what a run never touches                                  *)
(* ===================================================================== *)

Section Frame.

Variable ind0 : indicator.
Variables pres0 leds0 : list bool.

Lemma sweeping_turnIndicatorOn (self self' : SwitchPulser.t)
    (w w' : World) (r : result unit) :
  framed ind0 pres0 leds0 self w ->
  SwitchPulser.turnIndicatorOn self (SwitchPulser.outputIndicator self) w
    = (self', w', r) ->
  framed ind0 pres0 leds0 self' w'
  /\ SwitchPulser.patternArray self' = SwitchPulser.patternArray self
  /\ (ind0 = LED ->
      r = Ok tt /\ SwitchPulser.LEDMask self' = maskOf pres0)
  /\ (ind0 = RUMBLE ->
      SwitchPulser.LEDMask self' = SwitchPulser.LEDMask self).
Proof.
  intros (Hind & Hpres & Hlen & Habs) H.
  unfold SwitchPulser.turnIndicatorOn in H. rewrite Hind in H.
  destruct ind0.
  - destruct (nth_error (SwitchPulser.patternArray self) 0)
      as [ [ p | ] | ]; injection H as <- <- <-;
      (split; [ now repeat split | ]); repeat split; discriminate.
  - injection H as <- <- <-.
    rewrite onMask_maskOf, Hpres.
    split; [ | repeat split; discriminate ].
    repeat split; simpl; auto.
    + now rewrite length_applyMask.
    + intros i Hi. rewrite nth_error_applyMask, nth_error_maskOf.
      rewrite <- (Habs i Hi).
      destruct (nth_error (WIIMote.leds (wiimoteDevice w)) i);
        [ | reflexivity ].
      destruct (i <? NUM_LEDS)%nat; [ | reflexivity ].
      destruct (nth_error pres0 i) as [ [ | ] | ]; congruence.
Qed.

Lemma framed_flip (self : SwitchPulser.t) (index : nat)
    (w w' : World) (r : result unit) :
  framed ind0 pres0 leds0 self w ->
  nth_error pres0 index = Some true ->
  SwitchPulser.flipRumbleOrLED self index w = (w', r) ->
  framed ind0 pres0 leds0 self w'.
Proof.
  intros (Hind & Hpres & Hlen & Habs) Hidx H.
  unfold SwitchPulser.flipRumbleOrLED in H. unfold framed.
  destruct (SwitchPulser.outputIndicator self) eqn:Ei.
  - injection H as <- <-. repeat split; simpl; auto.
  - unfold SwitchPulser.flipLED in H.
    destruct (nth_error (WIIMote.getLEDs (wiimoteDevice w)) index)
      as [ b | ]; [ | injection H as <- <-; repeat split; auto ].
    destruct (index <? length [@None bool; None; None; None])%nat;
      [ | injection H as <- <-; repeat split; auto ].
    injection H as <- <-.
    repeat split;
      cbn [wiimoteDevice emit withDevice WIIMote.leds WIIMote.setLEDs];
      auto.
    + now rewrite length_applyMask.
    + intros i Hi. rewrite nth_error_applyMask.
      rewrite <- (Habs i Hi).
      destruct (nth_error (WIIMote.leds (wiimoteDevice w)) i);
        [ | reflexivity ].
      f_equal.
      destruct index as [ | [ | [ | [ | index ] ] ] ];
        do 5 (try destruct i as [ | i ]);
        simpl; try reflexivity; congruence.
Qed.

Lemma sweeping_tickFrom (n : nat) :
  forall (patternIndex : nat) (self self' : SwitchPulser.t)
         (d : Q) (w w' : World) (r : result unit),
    sweeping ind0 pres0 leds0 self w ->
    SwitchPulser.tickFrom n patternIndex self d w = (self', w', r) ->
    sweeping ind0 pres0 leds0 self' w'
    /\ SwitchPulser.stop self' = SwitchPulser.stop self.
Proof.
  induction n as [ | n IH ]; intros idx self self' d w w' r Hs H.
  - injection H as <- <- <-. now split.
  - simpl in H.
    destruct (nth_error (SwitchPulser.patternArray self) idx)
      as [ [ pattern | ] | ] eqn:Hp;
      [ | injection H as <- <- <-; now split
        | injection H as <- <- <-; now split ].
    destruct (OutputPattern.reduceTimer pattern d)
      as [ pattern' reduced ] eqn:Hred.
    set (self1 := SwitchPulser.withPatternArray self
                    (list_set (SwitchPulser.patternArray self) idx
                              (Some pattern'))) in *.
    assert (Hs1 : sweeping ind0 pres0 leds0 self1 w).
    { destruct Hs as [(Hind & Hpres & Hlen & Habs) Hmask].
      repeat split; auto.
      simpl. rewrite (presence_list_set _ _ pattern); assumption. }
    assert (Hidx : nth_error pres0 idx = Some true).
    { destruct Hs as [(_ & Hpres & _) _]. rewrite <- Hpres.
      rewrite nth_error_presence, Hp. reflexivity. }
    destruct reduced as [ reduced | e ];
      [ | injection H as <- <- <-; now split ].
    assert (Hon :
      forall self2 w2 on,
        (if OutputPattern.startOfRepeat pattern'
         then SwitchPulser.turnIndicatorOn self1
                (SwitchPulser.outputIndicator self) w
         else (self1, w, Ok tt)) = (self2, w2, on) ->
        sweeping ind0 pres0 leds0 self2 w2
        /\ SwitchPulser.stop self2 = SwitchPulser.stop self).
    { intros self2 w2 on Hon.
      destruct (OutputPattern.startOfRepeat pattern').
      - destruct Hs1 as [Hf1 Hm1].
        destruct (sweeping_turnIndicatorOn self1 self2 w w2 on Hf1 Hon)
          as (Hf2 & Hpa & Hled & Hrum).
        split; [ split; [ exact Hf2 | ] | ].
        + intros Hi. now apply Hled.
        + unfold SwitchPulser.turnIndicatorOn in Hon.
          destruct (SwitchPulser.outputIndicator self);
            [ destruct (nth_error (SwitchPulser.patternArray self1) 0)
                as [ [ ? | ] | ] | ];
            injection Hon as <- _ _; reflexivity.
      - injection Hon as <- <- <-. now split. }
    destruct (if OutputPattern.startOfRepeat pattern'
              then SwitchPulser.turnIndicatorOn self1
                     (SwitchPulser.outputIndicator self) w
              else (self1, w, Ok tt)) as [[self2 w2] on] eqn:Eon.
    destruct (Hon _ _ _ eq_refl) as [Hs2 Hstop2].
    destruct on as [ [] | e ]; [ | injection H as <- <- <-; now split ].
    destruct reduced as [ rt | ].
    + destruct (Qeq_bool rt 0).
      * destruct (SwitchPulser.flipRumbleOrLED self2 idx w2)
          as [w3 rf] eqn:Hflip.
        assert (Hs3 : sweeping ind0 pres0 leds0 self2 w3).
        { destruct Hs2 as [Hf2 Hm2]. split; [ | exact Hm2 ].
          exact (framed_flip _ _ _ _ _ Hf2 Hidx Hflip). }
        destruct rf as [ [] | e ].
        -- destruct (IH _ _ _ _ _ _ _ Hs3 H) as [Hs' Hstop'].
           split; [ exact Hs' | congruence ].
        -- injection H as <- <- <-. now split.
      * destruct (IH _ _ _ _ _ _ _ Hs2 H) as [Hs' Hstop'].
        split; [ exact Hs' | congruence ].
    + destruct (IH _ _ _ _ _ _ _ Hs2 H) as [Hs' Hstop'].
      split; [ exact Hs' | congruence ].
Qed.

End Frame.

Section Invariant.

Variable ind0 : indicator.
Variables pres0 leds0 : list bool.

Lemma finally_switchedOff (self self' : SwitchPulser.t) (w w' : World)
    (pending : SwitchPulser.outcome) :
  sweeping ind0 pres0 leds0 self w ->
  SwitchPulser.finally self w pending = (self', w') ->
  framed ind0 pres0 leds0 self' w'
  /\ (exists o, SwitchPulser.pc self' = SwitchPulser.Finished o)
  /\ switchedOff ind0 pres0 w'.
Proof.
  intros [(Hind & Hpres & Hlen & Habs) Hmask] H.
  unfold SwitchPulser.finally in H. rewrite Hind in H.
  unfold framed, switchedOff.
  destruct ind0; injection H as <- <-;
    cbn [wiimoteDevice emit withDevice WIIMote.leds WIIMote.setLEDs
         WIIMote.rumble WIIMote.setRumble SwitchPulser.pc
         SwitchPulser.withPc SwitchPulser.withLEDMask
         SwitchPulser.outputIndicator SwitchPulser.patternArray].
  - repeat split; eauto.
  - rewrite (Hmask eq_refl), length_applyMask.
    repeat split; eauto.
    + intros i Hi. rewrite nth_error_applyMask, nth_error_map.
      rewrite nth_error_maskOf, <- (Habs i Hi).
      destruct (nth_error (WIIMote.leds (wiimoteDevice w)) i);
        [ | reflexivity ].
      destruct (i <? NUM_LEDS)%nat; [ | reflexivity ].
      destruct (nth_error pres0 i) as [ [ | ] | ]; simpl; congruence.
    + intros i Hi Hlt Hp.
      rewrite nth_error_applyMask, nth_error_map, nth_error_maskOf.
      destruct (nth_error (WIIMote.leds (wiimoteDevice w)) i) eqn:E.
      * apply Nat.ltb_lt in Hi. rewrite Hi, Hp. reflexivity.
      * apply nth_error_None in E. lia.
Qed.

Lemma pulserInv_step (self self' : SwitchPulser.t) (w w' : World) :
  pulserInv ind0 pres0 leds0 self w ->
  SwitchPulser.step self w = (self', w') ->
  pulserInv ind0 pres0 leds0 self' w'
  /\ SwitchPulser.stop self' = SwitchPulser.stop self.
Proof.
  intros [Hf Hpc] H. unfold SwitchPulser.step in H.
  destruct (SwitchPulser.pc self) as [ | | d | o ] eqn:Epc.
  - (* Created *)
    destruct (SwitchPulser.turnIndicatorOn self
                (SwitchPulser.outputIndicator self) w)
      as [[self1 w1] r] eqn:Eon.
    destruct (sweeping_turnIndicatorOn _ _ _ _ _ _ _ _ Hf Eon)
      as (Hf1 & Hpa & Hled & Hrum).
    assert (Hstop : SwitchPulser.stop self1 = SwitchPulser.stop self).
    { unfold SwitchPulser.turnIndicatorOn in Eon.
      destruct (SwitchPulser.outputIndicator self);
        [ destruct (nth_error (SwitchPulser.patternArray self) 0)
            as [ [ ? | ] | ] | ];
        injection Eon as <- _ _; reflexivity. }
    assert (Hr : r = Ok tt).
    { destruct ind0 eqn:Ei.
      - destruct (Hpc eq_refl) as [p Hp].
        unfold SwitchPulser.turnIndicatorOn in Eon.
        destruct Hf as (Hind & _). rewrite Hind, Hp in Eon.
        now injection Eon as _ _ <-.
      - now apply Hled. }
    subst r. injection H as <- <-.
    split; [ | exact Hstop ].
    split; [ exact Hf1 | ]. simpl. intros Hi. now apply Hled.
  - (* LoopHead *)
    assert (Hsw : sweeping ind0 pres0 leds0 self w) by (now split).
    assert (Hfin :
      forall pending,
        SwitchPulser.finally self w pending = (self', w') ->
        pulserInv ind0 pres0 leds0 self' w'
        /\ SwitchPulser.stop self' = SwitchPulser.stop self).
    { intros pending Hfin.
      destruct (finally_switchedOff _ _ _ _ _ Hsw Hfin)
        as (Hf' & [o Ho] & Hoff).
      split.
      - split; [ exact Hf' | ]. now rewrite Ho.
      - unfold SwitchPulser.finally in Hfin.
        destruct (SwitchPulser.outputIndicator self);
          injection Hfin as <- _; reflexivity. }
    destruct (is_shutdown w || SwitchPulser.stop self)%bool;
      [ now apply (Hfin SwitchPulser.Returned) | ].
    destruct (SwitchPulser.nextDurationFrom
                (SwitchPulser.patternArray self) None)
      as [ [ nd | ] | e ]; eauto.
    injection H as <- <-. split; [ | reflexivity ].
    split; [ exact Hf | exact Hpc ].
  - (* Sleeping *)
    assert (Hsw : sweeping ind0 pres0 leds0 self w) by (now split).
    assert (Hfin :
      forall s1 w1 pending,
        sweeping ind0 pres0 leds0 s1 w1 ->
        SwitchPulser.stop s1 = SwitchPulser.stop self ->
        SwitchPulser.finally s1 w1 pending = (self', w') ->
        pulserInv ind0 pres0 leds0 self' w'
        /\ SwitchPulser.stop self' = SwitchPulser.stop self).
    { intros s1 w1 pending Hs1 Hst Hfin.
      destruct (finally_switchedOff _ _ _ _ _ Hs1 Hfin)
        as (Hf' & [o Ho] & Hoff).
      split.
      - split; [ exact Hf' | ]. now rewrite Ho.
      - rewrite <- Hst. unfold SwitchPulser.finally in Hfin.
        destruct (SwitchPulser.outputIndicator s1);
          injection Hfin as <- _; reflexivity. }
    destruct (is_shutdown w);
      [ exact (Hfin self w SwitchPulser.Returned Hsw eq_refl H) | ].
    unfold SwitchPulser.tick in H.
    destruct (SwitchPulser.tickFrom
                (length (SwitchPulser.patternArray self)) 0 self d
                (emit w (EvSleep d))) as [[s1 w1] r] eqn:Et.
    assert (Hsw' : sweeping ind0 pres0 leds0 self (emit w (EvSleep d))).
    { exact Hsw. }
    destruct (sweeping_tickFrom _ _ _ _ _ _ _ _ _ _ _ Hsw' Et)
      as [Hs1 Hst].
    destruct r as [ [] | e ]; [ | exact (Hfin s1 w1 _ Hs1 Hst H) ].
    injection H as <- <-. split; [ | exact Hst ].
    destruct Hs1 as [Hf1 Hm1]. split; [ exact Hf1 | exact Hm1 ].
  - (* Finished *)
    injection H as <- <-. split; [ | reflexivity ].
    split; [ exact Hf | ]. now rewrite Epc.
Qed.

Lemma pulserInv_act (a : SwitchPulser.action)
    (self self' : SwitchPulser.t) (w w' : World) :
  pulserInv ind0 pres0 leds0 self w ->
  SwitchPulser.act a self w = (self', w') ->
  pulserInv ind0 pres0 leds0 self' w'.
Proof.
  intros Hinv H. destruct a; simpl in H.
  - now apply (pulserInv_step self self' w w').
  - injection H as <- <-. exact Hinv.
  - injection H as <- <-.
    destruct Hinv as [Hf Hpc]. split; [ exact Hf | ].
    destruct (SwitchPulser.pc self); exact Hpc.
Qed.

Lemma pulserInv_exec (schedule : list SwitchPulser.action) :
  forall (self self' : SwitchPulser.t) (w w' : World),
    pulserInv ind0 pres0 leds0 self w ->
    SwitchPulser.exec schedule self w = (self', w') ->
    pulserInv ind0 pres0 leds0 self' w'.
Proof.
  induction schedule as [ | a rest IH ]; intros self self' w w' Hinv H.
  - injection H as <- <-. exact Hinv.
  - simpl in H.
    destruct (SwitchPulser.act a self w) as [s1 w1] eqn:Ea.
    apply (IH s1 self' w1 w'); [ | exact H ].
    now apply (pulserInv_act a self s1 w w1).
Qed.

End Invariant.

(* ===================================================================== *)
(* SwitchPulser: every run ends                                            *)
(* ===================================================================== *)

Lemma owed_reduceTimer_le (p : OutputPattern.t) (time : Q) :
  (SwitchPulser.owed (fst (OutputPattern.reduceTimer p time))
   <= SwitchPulser.owed p)%nat.
Proof.
  destruct (reduceTimerP p time) as
    [ Hs | Hs Hh | head Hs Hh Hr | head Hs Hh Hr Hlt
    | head Hs Hh Hr Hge Hn | head Hs Hh Hr Hge Hn ];
    unfold SwitchPulser.owed; simpl; rewrite ?length_list_set, ?Hs;
    try lia.
  assert (Hin : (OutputPattern.patternPt p
                 < length (OutputPattern.timePattern p))%nat)
    by (apply nth_error_Some; congruence).
  replace (Z.to_nat (OutputPattern.numReps p - 1))
    with (S (Z.to_nat (OutputPattern.numReps p - 1 - 1))) by lia.
  simpl. lia.
Qed.

Lemma owed_reduceTimer_lt (p : OutputPattern.t) (h : Q) :
  OutputPattern.timeRemaining p = Ok (Some h) ->
  (SwitchPulser.owed (fst (OutputPattern.reduceTimer p h))
   < SwitchPulser.owed p)%nat.
Proof.
  unfold OutputPattern.timeRemaining. intros Ht.
  destruct (OutputPattern.patternSpent p) eqn:Hs0; [ discriminate | ].
  destruct (nth_error (OutputPattern.timePattern p) (OutputPattern.patternPt p))
    as [ h0 | ] eqn:Hh0; [ | discriminate ].
  injection Ht as ->.
  assert (Hin : (OutputPattern.patternPt p
                 < length (OutputPattern.timePattern p))%nat)
    by (apply nth_error_Some; congruence).
  destruct (reduceTimerP p h) as
    [ Hs | Hs Hh | head Hs Hh Hr | head Hs Hh Hr Hlt
    | head Hs Hh Hr Hge Hn | head Hs Hh Hr Hge Hn ];
    try congruence;
    unfold SwitchPulser.owed; simpl; rewrite ?length_list_set, ?Hs0.
  - rewrite Hh0 in Hh. injection Hh as <-.
    rewrite head_waited_out_le in Hr. discriminate.
  - lia.
  - lia.
  - replace (Z.to_nat (OutputPattern.numReps p - 1))
      with (S (Z.to_nat (OutputPattern.numReps p - 1 - 1))) by lia.
    simpl. lia.
Qed.

Lemma owedAll_map_le (f : OutputPattern.t -> OutputPattern.t)
    (pa : list (option OutputPattern.t)) :
  (forall p, (SwitchPulser.owed (f p) <= SwitchPulser.owed p)%nat) ->
  (SwitchPulser.owedAll (map (option_map f) pa)
   <= SwitchPulser.owedAll pa)%nat.
Proof.
  intros Hf. induction pa as [ | [ p | ] pa IH ]; simpl.
  - lia.
  - specialize (Hf p). lia.
  - exact IH.
Qed.

Lemma owedAll_map_lt (f : OutputPattern.t -> OutputPattern.t)
    (pa : list (option OutputPattern.t)) (i : nat) (p : OutputPattern.t) :
  (forall q, (SwitchPulser.owed (f q) <= SwitchPulser.owed q)%nat) ->
  nth_error pa i = Some (Some p) ->
  (SwitchPulser.owed (f p) < SwitchPulser.owed p)%nat ->
  (SwitchPulser.owedAll (map (option_map f) pa)
   < SwitchPulser.owedAll pa)%nat.
Proof.
  intros Hf. revert i.
  induction pa as [ | a pa IH ]; intros [ | i ] Hi Hlt; simpl in Hi;
    try discriminate.
  - injection Hi as ->. simpl.
    pose proof (owedAll_map_le f pa Hf). lia.
  - specialize (IH i Hi Hlt). destruct a as [ q | ]; simpl.
    + specialize (Hf q). lia.
    + exact IH.
Qed.

Lemma nextDurationFrom_head (pa : list (option OutputPattern.t)) :
  forall (acc : option Q) (d : Q),
    SwitchPulser.nextDurationFrom pa acc = Ok (Some d) ->
    acc = Some d
    \/ exists i p,
         nth_error pa i = Some (Some p)
         /\ OutputPattern.timeRemaining p = Ok (Some d).
Proof.
  induction pa as [ | [ p | ] pa IH ]; intros acc d H; simpl in H.
  - left. now injection H.
  - destruct (OutputPattern.timeRemaining p) as [ [ h | ] | e ] eqn:Et;
      [ | | discriminate ].
    + destruct (IH _ _ H) as [ Hacc | (i & q & Hi & Hq) ].
      * injection Hacc as Hacc.
        unfold SwitchPulser.pymin in Hacc.
        destruct acc as [ nd | ].
        -- destruct (Qltb h nd).
           ++ right. exists 0%nat, p. subst h. now split.
           ++ left. now subst.
        -- right. exists 0%nat, p. subst h. now split.
      * right. exists (S i), q. now split.
    + destruct (IH _ _ H) as [ Hacc | (i & q & Hi & Hq) ].
      * now left.
      * right. exists (S i), q. now split.
  - destruct (IH _ _ H) as [ Hacc | (i & q & Hi & Hq) ].
    + now left.
    + right. exists (S i), q. now split.
Qed.

Lemma turnIndicatorOn_patternArray (self self' : SwitchPulser.t)
    (ind : indicator) (w w' : World) (r : result unit) :
  SwitchPulser.turnIndicatorOn self ind w = (self', w', r) ->
  SwitchPulser.patternArray self' = SwitchPulser.patternArray self.
Proof.
  unfold SwitchPulser.turnIndicatorOn. intros H.
  destruct ind;
    [ destruct (nth_error (SwitchPulser.patternArray self) 0)
        as [ [ ? | ] | ] | ];
    injection H as <- _ _; reflexivity.
Qed.

(** A tick that does not raise has reduced every pattern once. *)
Lemma tickFrom_ok (n : nat) :
  forall (idx : nat) (self self' : SwitchPulser.t) (d : Q) (w w' : World),
    SwitchPulser.tickFrom n idx self d w = (self', w', Ok tt) ->
    (length (SwitchPulser.patternArray self) <= idx + n)%nat ->
    forall i : nat,
      nth_error (SwitchPulser.patternArray self') i
      = if (idx <=? i)%nat
        then option_map
               (option_map
                  (fun p => fst (OutputPattern.reduceTimer p d)))
               (nth_error (SwitchPulser.patternArray self) i)
        else nth_error (SwitchPulser.patternArray self) i.
Proof.
  induction n as [ | n IH ]; intros idx self self' d w w' H Hlen i.
  - injection H as <- <-.
    destruct (Nat.leb_spec idx i) as [ Hi | Hi ]; [ | reflexivity ].
    assert (E : nth_error (SwitchPulser.patternArray self) i = None)
      by (apply nth_error_None; lia).
    now rewrite E.
  - simpl in H.
    destruct (nth_error (SwitchPulser.patternArray self) idx)
      as [ [ pattern | ] | ] eqn:Hp; [ | discriminate | ].
    2: { injection H as <- <-.
         destruct (Nat.leb_spec idx i) as [ Hi | Hi ]; [ | reflexivity ].
         apply nth_error_None in Hp.
         assert (E : nth_error (SwitchPulser.patternArray self) i = None)
           by (apply nth_error_None; lia).
         now rewrite E. }
    destruct (OutputPattern.reduceTimer pattern d)
      as [ pattern' reduced ] eqn:Hred.
    set (self1 := SwitchPulser.withPatternArray self
                    (list_set (SwitchPulser.patternArray self) idx
                              (Some pattern'))) in *.
    destruct reduced as [ reduced | e ]; [ | discriminate ].
    destruct (if OutputPattern.startOfRepeat pattern'
              then SwitchPulser.turnIndicatorOn self1
                     (SwitchPulser.outputIndicator self) w
              else (self1, w, Ok tt)) as [[self2 w2] on] eqn:Eon.
    assert (Hpa2 : SwitchPulser.patternArray self2
                   = list_set (SwitchPulser.patternArray self) idx
                              (Some pattern')).
    { destruct (OutputPattern.startOfRepeat pattern').
      - now rewrite (turnIndicatorOn_patternArray _ _ _ _ _ _ Eon).
      - now injection Eon as <- _ _. }
    destruct on as [ [] | e ]; [ | discriminate ].
    assert (Hrec :
      forall w3,
        SwitchPulser.tickFrom n (S idx) self2 d w3 = (self', w', Ok tt) ->
        nth_error (SwitchPulser.patternArray self') i
        = if (idx <=? i)%nat
          then option_map
                 (option_map
                    (fun p => fst (OutputPattern.reduceTimer p d)))
                 (nth_error (SwitchPulser.patternArray self) i)
          else nth_error (SwitchPulser.patternArray self) i).
    { intros w3 Hrec.
      assert (Hlen2 : (length (SwitchPulser.patternArray self2)
                       <= S idx + n)%nat).
      { rewrite Hpa2, length_list_set. lia. }
      rewrite (IH _ _ _ _ _ _ Hrec Hlen2 i), Hpa2.
      assert (Hin : (idx < length (SwitchPulser.patternArray self))%nat)
        by (apply nth_error_Some; congruence).
      destruct (Nat.eq_dec idx i) as [ <- | Hne ].
      - rewrite nth_error_list_set_eq by exact Hin.
        rewrite Hp.
        destruct (Nat.leb_spec (S idx) idx) as [ Hx | _ ]; [ lia | ].
        destruct (Nat.leb_spec idx idx) as [ _ | Hx ]; [ | lia ].
        cbn [option_map]. now rewrite Hred.
      - rewrite nth_error_list_set_ne by exact Hne.
        destruct (Nat.leb_spec (S idx) i), (Nat.leb_spec idx i);
          try reflexivity; lia. }
    destruct reduced as [ rt | ]; [ | now apply (Hrec w2) ].
    destruct (Qeq_bool rt 0); [ | now apply (Hrec w2) ].
    destruct (SwitchPulser.flipRumbleOrLED self2 idx w2) as [w3 [ [] | e ]];
      [ now apply (Hrec w3) | discriminate ].
Qed.

Lemma tick_ok (self self' : SwitchPulser.t) (d : Q) (w w' : World) :
  SwitchPulser.tick self d w = (self', w', Ok tt) ->
  SwitchPulser.patternArray self'
  = map (option_map (fun p => fst (OutputPattern.reduceTimer p d)))
        (SwitchPulser.patternArray self).
Proof.
  intros H. apply nth_error_ext. intros i.
  rewrite (tickFrom_ok _ _ _ _ _ _ _ H (Nat.le_refl _) i).
  now rewrite nth_error_map.
Qed.

Lemma finally_pc (self : SwitchPulser.t) (w : World)
    (pending : SwitchPulser.outcome) :
  exists o,
    SwitchPulser.pc (fst (SwitchPulser.finally self w pending))
    = SwitchPulser.Finished o.
Proof.
  unfold SwitchPulser.finally.
  destruct (SwitchPulser.outputIndicator self); simpl; eauto.
Qed.

Lemma steps_Finished (n : nat) (self : SwitchPulser.t) (w : World)
    (o : SwitchPulser.outcome) :
  SwitchPulser.pc self = SwitchPulser.Finished o ->
  SwitchPulser.steps n self w = (self, w).
Proof.
  intros H. induction n as [ | n IH ]; simpl; [ reflexivity | ].
  unfold SwitchPulser.step. rewrite H. exact IH.
Qed.

Lemma steps_add (a b : nat) :
  forall (self : SwitchPulser.t) (w : World),
    SwitchPulser.steps (a + b) self w
    = SwitchPulser.steps b (fst (SwitchPulser.steps a self w))
                           (snd (SwitchPulser.steps a self w)).
Proof.
  induction a as [ | a IH ]; intros self w; simpl; [ reflexivity | ].
  destruct (SwitchPulser.step self w) as [s1 w1]. apply IH.
Qed.

Lemma finished_later (a b : nat) (self : SwitchPulser.t) (w : World) :
  (a <= b)%nat ->
  (exists o, SwitchPulser.pc (fst (SwitchPulser.steps a self w))
             = SwitchPulser.Finished o) ->
  SwitchPulser.steps b self w = SwitchPulser.steps a self w.
Proof.
  intros Hab [o Ho].
  replace b with (a + (b - a))%nat by lia.
  rewrite steps_add.
  destruct (SwitchPulser.steps a self w) as [s1 w1]; simpl in *.
  now apply (steps_Finished _ _ _ o).
Qed.

Lemma finally_then_steps (pending : SwitchPulser.outcome)
    (s1 : SwitchPulser.t) (w1 : World) (k : nat) :
  exists o,
    SwitchPulser.pc
      (fst (let (s', w') := SwitchPulser.finally s1 w1 pending in
            SwitchPulser.steps k s' w'))
    = SwitchPulser.Finished o.
Proof.
  destruct (finally_pc s1 w1 pending) as [o Ho].
  destruct (SwitchPulser.finally s1 w1 pending) as [s' w'].
  simpl in Ho. rewrite (steps_Finished _ _ _ _ Ho). eauto.
Qed.

Lemma owed_le_owedAll (pa : list (option OutputPattern.t)) :
  forall (i : nat) (p : OutputPattern.t),
    nth_error pa i = Some (Some p) ->
    (SwitchPulser.owed p <= SwitchPulser.owedAll pa)%nat.
Proof.
  induction pa as [ | a pa IH ]; intros [ | i ] p H; simpl in H;
    try discriminate.
  - injection H as ->. simpl. lia.
  - specialize (IH i p H). destruct a; simpl; lia.
Qed.

(** From the loop head the thread ends within two steps per owed pass,
    and one more. *)
Lemma loop_terminates (m : nat) :
  forall (self : SwitchPulser.t) (w : World),
    SwitchPulser.pc self = SwitchPulser.LoopHead ->
    (SwitchPulser.owedAll (SwitchPulser.patternArray self) <= m)%nat ->
    exists o,
      SwitchPulser.pc (fst (SwitchPulser.steps (2 * m + 1) self w))
      = SwitchPulser.Finished o.
Proof.
  induction m as [ | m IH ]; intros self w Hpc Hm.
  - (* nothing owed: the first step ends the run *)
    simpl. unfold SwitchPulser.step. rewrite Hpc.
    destruct (is_shutdown w || SwitchPulser.stop self)%bool;
      [ exact (finally_then_steps _ _ _ 0%nat) | ].
    destruct (SwitchPulser.nextDurationFrom
                (SwitchPulser.patternArray self) None)
      as [ [ nd | ] | e ] eqn:End;
      try exact (finally_then_steps _ _ _ 0%nat).
    destruct (nextDurationFrom_head _ _ _ End)
      as [ Hacc | (i & p & Hi & Hp) ]; [ discriminate | ].
    pose proof (owed_le_owedAll _ _ _ Hi).
    pose proof (owed_reduceTimer_lt _ _ Hp). lia.
  - replace (2 * S m + 1)%nat with (S (S (2 * m + 1))) by lia.
    cbn [SwitchPulser.steps].
    unfold SwitchPulser.step at 1. rewrite Hpc.
    pose proof finally_then_steps as Hdone.
    destruct (is_shutdown w || SwitchPulser.stop self)%bool eqn:Estop;
      [ exact (Hdone _ _ _ (S (2 * m + 1))) | ].
    destruct (SwitchPulser.nextDurationFrom
                (SwitchPulser.patternArray self) None)
      as [ [ nd | ] | e ] eqn:End;
      try exact (Hdone _ _ _ (S (2 * m + 1))).
    apply orb_false_iff in Estop. destruct Estop as [Hshut _].
    unfold SwitchPulser.step at 1.
    cbn [SwitchPulser.pc SwitchPulser.withPc]. rewrite Hshut.
    destruct (SwitchPulser.tick (SwitchPulser.withPc self
                                   (SwitchPulser.Sleeping nd)) nd
                                (emit w (EvSleep nd)))
      as [[s2 w2] [ [] | e ]] eqn:Et;
      [ | exact (Hdone _ _ _ (2 * m + 1)%nat) ].
    apply IH; [ reflexivity | ].
    cbn [SwitchPulser.patternArray SwitchPulser.withPc].
    rewrite (tick_ok _ _ _ _ _ Et).
    cbn [SwitchPulser.patternArray SwitchPulser.withPc].
    destruct (nextDurationFrom_head _ _ _ End)
      as [ Hacc | (i & p & Hi & Hp) ]; [ discriminate | ].
    pose proof (owedAll_map_lt
                  (fun p => fst (OutputPattern.reduceTimer p nd))
                  _ i p (fun q => owed_reduceTimer_le q nd) Hi
                  (owed_reduceTimer_lt _ _ Hp)).
    lia.
Qed.

(** join() returns: every pulser thread ends, whatever its patterns and
    wherever it stands. *)
Lemma join_terminates (self : SwitchPulser.t) (w : World) :
  exists o,
    SwitchPulser.pc (fst (SwitchPulser.join self w))
    = SwitchPulser.Finished o.
Proof.
  unfold SwitchPulser.join, SwitchPulser.enoughSteps.
  set (m := SwitchPulser.owedAll (SwitchPulser.patternArray self)).
  replace (2 * m + 3)%nat with (S (S (2 * m + 1))) by lia.
  cbn [SwitchPulser.steps].
  assert (Hloop :
    forall s1 w1 k,
      SwitchPulser.pc s1 = SwitchPulser.LoopHead ->
      (SwitchPulser.owedAll (SwitchPulser.patternArray s1) <= m)%nat ->
      (2 * m + 1 <= k)%nat ->
      exists o,
        SwitchPulser.pc (fst (SwitchPulser.steps k s1 w1))
        = SwitchPulser.Finished o).
  { intros s1 w1 k Hpc Hm Hk.
    pose proof (loop_terminates m s1 w1 Hpc Hm) as Hfin.
    rewrite (finished_later _ _ _ _ Hk Hfin). exact Hfin. }
  assert (Hdone :
    forall s1 w1 k,
      (exists o, SwitchPulser.pc s1 = SwitchPulser.Finished o) ->
      exists o,
        SwitchPulser.pc (fst (SwitchPulser.steps k s1 w1))
        = SwitchPulser.Finished o).
  { intros s1 w1 k [o Ho]. rewrite (steps_Finished _ _ _ _ Ho). eauto. }
  destruct (SwitchPulser.step self w) as [s1 w1] eqn:E1.
  unfold SwitchPulser.step in E1.
  destruct (SwitchPulser.pc self) as [ | | nd | o ] eqn:Epc.
  - (* Created *)
    destruct (SwitchPulser.turnIndicatorOn self
                (SwitchPulser.outputIndicator self) w)
      as [[s0 w0] r] eqn:Eon.
    pose proof (turnIndicatorOn_patternArray _ _ _ _ _ _ Eon) as Hpa.
    destruct r as [ [] | e ]; injection E1 as <- <-.
    + destruct (SwitchPulser.step (SwitchPulser.withPc s0 SwitchPulser.LoopHead)
                                  w0) as [s2 w2] eqn:E2.
      pose proof (Hloop (SwitchPulser.withPc s0 SwitchPulser.LoopHead) w0
                        (S (2 * m + 1)) eq_refl) as Hl.
      cbn [SwitchPulser.steps] in Hl. rewrite E2 in Hl.
      apply Hl; [ | lia ].
      cbn [SwitchPulser.patternArray SwitchPulser.withPc].
      rewrite Hpa. unfold m. lia.
    + destruct (SwitchPulser.step
                  (SwitchPulser.withPc s0
                     (SwitchPulser.Finished (SwitchPulser.Raised e))) w0)
        as [s2 w2] eqn:E2.
      unfold SwitchPulser.step in E2. simpl in E2. injection E2 as <- <-.
      apply Hdone. simpl. eauto.
  - (* LoopHead *)
    pose proof (Hloop self w (S (S (2 * m + 1))) Epc (Nat.le_refl _)) as Hl.
    cbn [SwitchPulser.steps] in Hl.
    unfold SwitchPulser.step at 1 in Hl. rewrite Epc, E1 in Hl.
    apply Hl. lia.
  - (* Sleeping *)
    destruct (SwitchPulser.step s1 w1) as [s2 w2] eqn:E2.
    assert (Hend :
      forall pending s w0,
        SwitchPulser.finally s w0 pending = (s1, w1) ->
        exists o,
          SwitchPulser.pc (fst (SwitchPulser.steps (2 * m + 1) s2 w2))
          = SwitchPulser.Finished o).
    { intros pending s w0 Hf.
      destruct (finally_pc s w0 pending) as [o Ho].
      rewrite Hf in Ho. simpl in Ho.
      unfold SwitchPulser.step in E2. rewrite Ho in E2.
      injection E2 as <- <-. apply Hdone. eauto. }
    destruct (is_shutdown w); [ now apply (Hend _ _ _ E1) | ].
    destruct (SwitchPulser.tick self nd (emit w (EvSleep nd)))
      as [[s0 w0] [ [] | e ]] eqn:Et; [ | now apply (Hend _ _ _ E1) ].
    injection E1 as <- <-.
    pose proof (Hloop (SwitchPulser.withPc s0 SwitchPulser.LoopHead) w0
                      (S (2 * m + 1)) eq_refl) as Hl.
    cbn [SwitchPulser.steps] in Hl. rewrite E2 in Hl.
    apply Hl; [ | lia ].
    cbn [SwitchPulser.patternArray SwitchPulser.withPc].
    rewrite (tick_ok _ _ _ _ _ Et).
    pose proof (owedAll_map_le
                  (fun p => fst (OutputPattern.reduceTimer p nd))
                  (SwitchPulser.patternArray self)
                  (fun q => owed_reduceTimer_le q nd)).
    unfold m. lia.
  - (* Finished *)
    injection E1 as <- <-.
    destruct (SwitchPulser.step self w) as [s2 w2] eqn:E2.
    unfold SwitchPulser.step in E2. rewrite Epc in E2.
    injection E2 as <- <-. apply Hdone. eauto.
Qed.

Lemma step_leaves_loop_head_or_ends (self : SwitchPulser.t) (w : World) :
  SwitchPulser.pc self <> SwitchPulser.LoopHead ->
  SwitchPulser.pc (fst (SwitchPulser.step self w)) = SwitchPulser.LoopHead
  \/ exists o,
       SwitchPulser.pc (fst (SwitchPulser.step self w))
       = SwitchPulser.Finished o.
Proof.
  intros Hne. unfold SwitchPulser.step.
  destruct (SwitchPulser.pc self) as [ | | nd | o ] eqn:Epc.
  - destruct (SwitchPulser.turnIndicatorOn self
                (SwitchPulser.outputIndicator self) w)
      as [[s1 w1] [ [] | e ]]; simpl; eauto.
  - congruence.
  - destruct (is_shutdown w); [ right; apply finally_pc | ].
    destruct (SwitchPulser.tick self nd (emit w (EvSleep nd)))
      as [[s1 w1] [ [] | e ]]; simpl; [ now left | ].
    right. apply finally_pc.
  - right. simpl. rewrite Epc. eauto.
Qed.

Lemma stopped_at_loop_head (self : SwitchPulser.t) (w : World) :
  SwitchPulser.pc self = SwitchPulser.LoopHead ->
  SwitchPulser.stop self = true ->
  exists o,
    SwitchPulser.pc (fst (SwitchPulser.step self w))
    = SwitchPulser.Finished o.
Proof.
  intros Hpc Hstop. unfold SwitchPulser.step.
  rewrite Hpc, Hstop, orb_true_r. apply finally_pc.
Qed.

(** Once stop is set, the thread ends within two steps. *)
Lemma stopped_ends (ind0 : indicator) (pres0 leds0 : list bool)
    (self : SwitchPulser.t) (w : World) :
  pulserInv ind0 pres0 leds0 self w ->
  SwitchPulser.stop self = true ->
  exists o,
    SwitchPulser.pc (fst (SwitchPulser.steps 2 self w))
    = SwitchPulser.Finished o.
Proof.
  intros Hinv Hstop. cbn [SwitchPulser.steps].
  destruct (SwitchPulser.step self w) as [s1 w1] eqn:E1.
  destruct (pulserInv_step _ _ _ _ _ _ _ Hinv E1) as [_ Hstop1].
  assert (Hlast :
    forall s w0,
      (exists o, SwitchPulser.pc s = SwitchPulser.Finished o) ->
      exists o,
        SwitchPulser.pc
          (fst (let (s', w') := SwitchPulser.step s w0 in (s', w')))
        = SwitchPulser.Finished o).
  { intros s w0 [o Ho]. unfold SwitchPulser.step. rewrite Ho. simpl. eauto. }
  destruct (SwitchPulser.pc self) as [ | | nd | o ] eqn:Epc.
  - destruct (step_leaves_loop_head_or_ends self w) as [ Hl | Hf ];
      [ congruence | | ]; rewrite E1 in *; simpl in *.
    + destruct (stopped_at_loop_head s1 w1 Hl) as [o Ho]; [ congruence | ].
      destruct (SwitchPulser.step s1 w1). eauto.
    + now apply Hlast.
  - destruct (stopped_at_loop_head self w Epc Hstop) as [o Ho].
    rewrite E1 in Ho. apply Hlast. eauto.
  - destruct (step_leaves_loop_head_or_ends self w) as [ Hl | Hf ];
      [ congruence | | ]; rewrite E1 in *; simpl in *.
    + destruct (stopped_at_loop_head s1 w1 Hl) as [o Ho]; [ congruence | ].
      destruct (SwitchPulser.step s1 w1). eauto.
    + now apply Hlast.
  - unfold SwitchPulser.step in E1. rewrite Epc in E1.
    injection E1 as <- <-. apply Hlast. eauto.
Qed.

Lemma pulserInv_init (patterns : list (option OutputPattern.t))
    (ind : indicator) (w : World) :
  (ind = RUMBLE -> exists p, nth_error patterns 0 = Some (Some p)) ->
  pulserInv ind (presence patterns) (WIIMote.leds (wiimoteDevice w))
            (SwitchPulser.init patterns ind) w.
Proof.
  intros H. split; [ now repeat split | exact H ].
Qed.

(** C2. On every way out of a started pulser (the patterns running out,
    stop being set, the node being shut down, or an exception raised in
    the sweep) the finally block has run: rumble is off, or every LED
    whose slot holds a pattern is off while every LED whose slot holds
    none is as it was.  And a way out is always taken: left alone the
    thread ends, and once stop is set it ends within two steps. *)
Theorem cleanup_on_every_exit (patterns : list (option OutputPattern.t))
    (ind : indicator) (w : World) (schedule : list SwitchPulser.action) :
  (ind = RUMBLE -> exists p, nth_error patterns 0 = Some (Some p)) ->
  let self' :=
    fst (SwitchPulser.exec schedule (SwitchPulser.init patterns ind) w) in
  let w' :=
    snd (SwitchPulser.exec schedule (SwitchPulser.init patterns ind) w) in
  (forall o,
      SwitchPulser.pc self' = SwitchPulser.Finished o ->
      match ind with
      | RUMBLE => WIIMote.rumble (wiimoteDevice w') = false
      | LED =>
        forall i : nat,
          (i < NUM_LEDS)%nat ->
          (i < length (WIIMote.leds (wiimoteDevice w)))%nat ->
          match nth_error patterns i with
          | Some (Some _) =>
            nth_error (WIIMote.leds (wiimoteDevice w')) i = Some false
          | _ =>
            nth_error (WIIMote.leds (wiimoteDevice w')) i
            = nth_error (WIIMote.leds (wiimoteDevice w)) i
          end
      end)
  /\ (exists o,
         SwitchPulser.pc (fst (SwitchPulser.join self' w'))
         = SwitchPulser.Finished o)
  /\ (exists o,
         SwitchPulser.pc
           (fst (SwitchPulser.steps 2 (SwitchPulser.withStop self' true) w'))
         = SwitchPulser.Finished o).
Proof.
  intros Hstart self' w'.
  assert (Hinv : pulserInv ind (presence patterns)
                           (WIIMote.leds (wiimoteDevice w)) self' w').
  { apply (pulserInv_exec _ _ _ schedule (SwitchPulser.init patterns ind)
                          self' w w').
    - now apply pulserInv_init.
    - unfold self', w'.
      now destruct (SwitchPulser.exec schedule
                      (SwitchPulser.init patterns ind) w). }
  split; [ | split ].
  - intros o Ho. destruct Hinv as [(Hind & Hpres & Hlen & Habs) Hpc].
    rewrite Ho in Hpc. unfold switchedOff in Hpc.
    destruct ind; [ exact Hpc | ].
    intros i Hi Hlt.
    pose proof (nth_error_presence patterns i) as Hp.
    destruct (nth_error patterns i) as [ [ p | ] | ]; simpl in Hp.
    + apply Hpc; [ exact Hi | lia | exact Hp ].
    + apply Habs. rewrite Hp. discriminate.
    + apply Habs. rewrite Hp. discriminate.
  - apply join_terminates.
  - apply (stopped_ends ind (presence patterns)
                        (WIIMote.leds (wiimoteDevice w))).
    + destruct Hinv as [Hf Hpc]. split; [ exact Hf | exact Hpc ].
    + reflexivity.
Qed.

Lemma cleanup_on_every_exit_witness :
  WIIMote.rumble
    (wiimoteDevice
       (snd (SwitchPulser.exec
               [SwitchPulser.ThreadStep; SwitchPulser.ThreadStep;
                SwitchPulser.SetStop; SwitchPulser.ThreadStep;
                SwitchPulser.ThreadStep]
               (SwitchPulser.init
                  [Some (OutputPattern.init [(1 # 2)%Q; (1 # 2)%Q] 2)]
                  RUMBLE)
               (mkWorld (WIIMote.mk false [false; false; false; false])
                        false []))))
  = false.
Proof.
  assert (Hstart :
    RUMBLE = RUMBLE ->
    exists p,
      nth_error [Some (OutputPattern.init [(1 # 2)%Q; (1 # 2)%Q] 2)] 0
      = Some (Some p)).
  { intros _. eexists. reflexivity. }
  exact (proj1 (cleanup_on_every_exit
                  [Some (OutputPattern.init [(1 # 2)%Q; (1 # 2)%Q] 2)]
                  RUMBLE
                  (mkWorld (WIIMote.mk false [false; false; false; false])
                           false [])
                  [SwitchPulser.ThreadStep; SwitchPulser.ThreadStep;
                   SwitchPulser.SetStop; SwitchPulser.ThreadStep;
                   SwitchPulser.ThreadStep]
                  Hstart)
               (SwitchPulser.Raised SystemExit) eq_refl).
Defined.

(* ===================================================================== *)
(* SwitchPulser: a pattern that runs alone                                 *)
(* ===================================================================== *)

Lemma reduceTimer_advance (p : OutputPattern.t) (h : Q) :
  OutputPattern.patternSpent p = false ->
  nth_error (OutputPattern.timePattern p) (OutputPattern.patternPt p)
    = Some h ->
  (S (OutputPattern.patternPt p) < length (OutputPattern.timePattern p))%nat ->
  OutputPattern.reduceTimer p h
  = (OutputPattern.mk (OutputPattern.origTimePattern p)
       (list_set (OutputPattern.timePattern p) (OutputPattern.patternPt p)
                 (OutputPattern.clamp (h - h)))
       (OutputPattern.numReps p) (S (OutputPattern.patternPt p)) false false,
     Ok (Some (round2 (OutputPattern.clamp (h - h))))).
Proof.
  intros Hs Hh Hlt.
  destruct (reduceTimerP p h) as
    [ Hs' | Hs' Hh' | head Hs' Hh' Hr | head Hs' Hh' Hr Hlt'
    | head Hs' Hh' Hr Hge Hn | head Hs' Hh' Hr Hge Hn ];
    try congruence; try lia;
    rewrite Hh in Hh'; injection Hh' as <-;
    try reflexivity;
    rewrite head_waited_out_le in Hr; discriminate.
Qed.

Lemma reduceTimer_finish (p : OutputPattern.t) (h : Q) :
  OutputPattern.patternSpent p = false ->
  nth_error (OutputPattern.timePattern p) (OutputPattern.patternPt p)
    = Some h ->
  (length (OutputPattern.timePattern p) <= S (OutputPattern.patternPt p))%nat ->
  (OutputPattern.numReps p <= 1)%Z ->
  OutputPattern.reduceTimer p h
  = (OutputPattern.mk (OutputPattern.origTimePattern p)
       (list_set (OutputPattern.timePattern p) (OutputPattern.patternPt p)
                 (OutputPattern.clamp (h - h)))
       (OutputPattern.numReps p - 1) (S (OutputPattern.patternPt p))
       true false,
     Ok None).
Proof.
  intros Hs Hh Hge Hn.
  destruct (reduceTimerP p h) as
    [ Hs' | Hs' Hh' | head Hs' Hh' Hr | head Hs' Hh' Hr Hlt'
    | head Hs' Hh' Hr Hge' Hn' | head Hs' Hh' Hr Hge' Hn' ];
    try congruence; try lia;
    rewrite Hh in Hh'; injection Hh' as <-;
    try reflexivity;
    rewrite head_waited_out_le in Hr; discriminate.
Qed.

Lemma step_to_sleep (ind : indicator) (self : SwitchPulser.t) (w : World)
    (p : OutputPattern.t) (b : bool) (h : Q) :
  running ind self w p b ->
  OutputPattern.timeRemaining p = Ok (Some h) ->
  SwitchPulser.step self w
  = (SwitchPulser.withPc self (SwitchPulser.Sleeping h), w).
Proof.
  intros (Hpa & Hind & Hstop & Hpc & Hmask & Hshut & Hch) Ht.
  unfold SwitchPulser.step. rewrite Hpc, Hshut, Hstop, Hpa. simpl.
  rewrite Ht. reflexivity.
Qed.

Lemma flip_channel (ind : indicator) (self : SwitchPulser.t) (w : World)
    (b : bool) :
  SwitchPulser.outputIndicator self = ind ->
  channel ind (wiimoteDevice w) = Some b ->
  exists w',
    SwitchPulser.flipRumbleOrLED self 0 w = (w', Ok tt)
    /\ channel ind (wiimoteDevice w') = Some (negb b)
    /\ is_shutdown w' = is_shutdown w
    /\ trace w' = trace w ++ [EvFlip 0 (negb b)].
Proof.
  intros Hind Hch. unfold SwitchPulser.flipRumbleOrLED. rewrite Hind.
  destruct w as [[rum leds] shut tr].
  destruct ind; cbn [channel wiimoteDevice WIIMote.rumble WIIMote.leds] in Hch.
  - injection Hch as Hb. eexists. split; [ reflexivity | ].
    unfold SwitchPulser.flipRumble, WIIMote.getRumble.
    cbn [wiimoteDevice WIIMote.rumble]. rewrite Hb.
    repeat split.
  - destruct leds as [ | b0 leds ]; [ discriminate | ].
    injection Hch as ->.
    eexists. split; [ reflexivity | ]. repeat split.
Qed.

Lemma sweep_advance (ind : indicator) (self : SwitchPulser.t) (w : World)
    (p : OutputPattern.t) (b : bool) (h : Q) :
  running ind self w p b ->
  OutputPattern.patternSpent p = false ->
  nth_error (OutputPattern.timePattern p) (OutputPattern.patternPt p)
    = Some h ->
  (S (OutputPattern.patternPt p) < length (OutputPattern.timePattern p))%nat ->
  exists self' w',
    SwitchPulser.steps 2 self w = (self', w')
    /\ running ind self' w'
         (OutputPattern.mk (OutputPattern.origTimePattern p)
            (list_set (OutputPattern.timePattern p)
                      (OutputPattern.patternPt p)
                      (OutputPattern.clamp (h - h)))
            (OutputPattern.numReps p) (S (OutputPattern.patternPt p))
            false false)
         (negb b)
    /\ trace w' = trace w ++ [EvSleep h; EvFlip 0 (negb b)].
Proof.
  intros Hrun Hs Hh Hlt.
  assert (Ht : OutputPattern.timeRemaining p = Ok (Some h)).
  { unfold OutputPattern.timeRemaining. now rewrite Hs, Hh. }
  cbn [SwitchPulser.steps].
  rewrite (step_to_sleep _ _ _ _ _ _ Hrun Ht).
  destruct Hrun as (Hpa & Hind & Hstop & Hpc & Hmask & Hshut & Hch).
  unfold SwitchPulser.step.
  cbn [SwitchPulser.pc SwitchPulser.withPc]. rewrite Hshut.
  unfold SwitchPulser.tick.
  cbn [SwitchPulser.patternArray SwitchPulser.withPc]. rewrite Hpa.
  cbn [length SwitchPulser.tickFrom SwitchPulser.patternArray
       SwitchPulser.withPc nth_error].
  rewrite Hpa. cbn [nth_error].
  rewrite (reduceTimer_advance _ _ Hs Hh Hlt).
  cbn [OutputPattern.startOfRepeat]. rewrite head_waited_out_eq.
  match goal with
  | |- context [SwitchPulser.flipRumbleOrLED ?s 0 ?w0] =>
    destruct (flip_channel ind s w0 b) as (w' & Hf & Hch' & Hshut' & Htr');
      [ exact Hind | exact Hch | ]
  end.
  rewrite Hf.
  eexists. eexists. split; [ reflexivity | ].
  split.
  - repeat split; auto. simpl in Hshut'. congruence.
  - rewrite Htr'. simpl. now rewrite <- app_assoc.
Qed.

Lemma sweep_finish (ind : indicator) (self : SwitchPulser.t) (w : World)
    (p : OutputPattern.t) (b : bool) (h : Q) :
  running ind self w p b ->
  OutputPattern.patternSpent p = false ->
  nth_error (OutputPattern.timePattern p) (OutputPattern.patternPt p)
    = Some h ->
  (length (OutputPattern.timePattern p) <= S (OutputPattern.patternPt p))%nat ->
  (OutputPattern.numReps p <= 1)%Z ->
  exists self' w',
    SwitchPulser.steps 3 self w = (self', w')
    /\ SwitchPulser.pc self' = SwitchPulser.Finished (SwitchPulser.Raised SystemExit)
    /\ (exists p', SwitchPulser.patternArray self' = [Some p']
                   /\ OutputPattern.patternSpent p' = true)
    /\ trace w' = trace w ++ [EvSleep h; EvOff]
    /\ channel ind (wiimoteDevice w') = Some false.
Proof.
  intros Hrun Hs Hh Hge Hn.
  assert (Ht : OutputPattern.timeRemaining p = Ok (Some h)).
  { unfold OutputPattern.timeRemaining. now rewrite Hs, Hh. }
  cbn [SwitchPulser.steps].
  rewrite (step_to_sleep _ _ _ _ _ _ Hrun Ht).
  destruct Hrun as (Hpa & Hind & Hstop & Hpc & Hmask & Hshut & Hch).
  unfold SwitchPulser.step at 1.
  cbn [SwitchPulser.pc SwitchPulser.withPc]. rewrite Hshut.
  unfold SwitchPulser.tick.
  cbn [SwitchPulser.patternArray SwitchPulser.withPc]. rewrite Hpa.
  cbn [length SwitchPulser.tickFrom SwitchPulser.patternArray
       SwitchPulser.withPc nth_error].
  rewrite Hpa. cbn [nth_error].
  rewrite (reduceTimer_finish _ _ Hs Hh Hge Hn).
  cbn [OutputPattern.startOfRepeat].
  unfold SwitchPulser.step.
  cbn [SwitchPulser.pc SwitchPulser.withPc SwitchPulser.withPatternArray
       SwitchPulser.patternArray SwitchPulser.stop is_shutdown emit
       SwitchPulser.nextDurationFrom list_set].
  rewrite Hshut, Hstop.
  cbn [orb OutputPattern.timeRemaining OutputPattern.patternSpent].
  unfold SwitchPulser.finally.
  cbn [SwitchPulser.outputIndicator SwitchPulser.withPatternArray
       SwitchPulser.withPc].
  rewrite Hind.
  destruct w as [[rum leds] shut tr].
  destruct ind; cbn [channel wiimoteDevice WIIMote.rumble WIIMote.leds] in Hch.
  - eexists. eexists. split; [ reflexivity | ].
    split; [ reflexivity | ]. split; [ eexists; split; reflexivity | ].
    split; [ | reflexivity ].
    simpl. now rewrite <- app_assoc.
  - destruct leds as [ | b0 leds ]; [ discriminate | ].
    cbn [SwitchPulser.LEDMask SwitchPulser.withPatternArray
         SwitchPulser.withPc SwitchPulser.withLEDMask].
    rewrite (Hmask eq_refl).
    eexists. eexists. split; [ reflexivity | ].
    split; [ reflexivity | ]. split; [ eexists; split; reflexivity | ].
    split; [ | reflexivity ].
    simpl. now rewrite <- app_assoc.
Qed.

Lemma skipn_nth_error {A : Type} (l : list A) :
  forall (c : nat) (h : A),
    nth_error l c = Some h -> skipn c l = h :: skipn (S c) l.
Proof.
  induction l as [ | a l IH ]; intros [ | c ] h H; simpl in H;
    try discriminate.
  - now injection H as ->.
  - simpl. now apply IH.
Qed.

Lemma skipn_list_set {A : Type} (l : list A) :
  forall (c : nat) (v : A), skipn (S c) (list_set l c v) = skipn (S c) l.
Proof.
  induction l as [ | a l IH ]; intros [ | c ] v; try reflexivity.
  simpl. apply (IH c v).
Qed.

(** The sweep of a pulser that holds one pattern with no repeat left
    after this pass, from any cursor position to the end of run(). *)
Lemma lone_loop (ind : indicator) (k : nat) :
  forall (self : SwitchPulser.t) (w : World) (p : OutputPattern.t)
         (b : bool),
    running ind self w p b ->
    OutputPattern.patternSpent p = false ->
    (OutputPattern.numReps p <= 1)%Z ->
    (length (OutputPattern.timePattern p) - OutputPattern.patternPt p
     = S k)%nat ->
    exists self' w',
      SwitchPulser.steps (2 * k + 3) self w = (self', w')
      /\ SwitchPulser.pc self'
         = SwitchPulser.Finished (SwitchPulser.Raised SystemExit)
      /\ (exists p', SwitchPulser.patternArray self' = [Some p']
                     /\ OutputPattern.patternSpent p' = true)
      /\ trace w'
         = trace w
           ++ pulse (skipn (OutputPattern.patternPt p)
                           (OutputPattern.timePattern p)) b
           ++ [EvOff]
      /\ channel ind (wiimoteDevice w') = Some false.
Proof.
  induction k as [ | k IH ]; intros self w p b Hrun Hs Hn Hlen.
  - destruct (nth_error (OutputPattern.timePattern p)
                        (OutputPattern.patternPt p)) as [ h | ] eqn:Hh.
    2: { apply nth_error_None in Hh. lia. }
    destruct (sweep_finish _ _ _ _ _ _ Hrun Hs Hh) as
      (self' & w' & Hsteps & Hpc & Hp' & Htr & Hch); [ lia | exact Hn | ].
    exists self', w'. split; [ exact Hsteps | ].
    split; [ exact Hpc | ]. split; [ exact Hp' | ].
    split; [ | exact Hch ].
    rewrite Htr, (skipn_nth_error _ _ _ Hh).
    assert (Hnil : skipn (S (OutputPattern.patternPt p))
                         (OutputPattern.timePattern p) = []).
    { apply skipn_all2. lia. }
    rewrite Hnil. reflexivity.
  - destruct (nth_error (OutputPattern.timePattern p)
                        (OutputPattern.patternPt p)) as [ h | ] eqn:Hh.
    2: { apply nth_error_None in Hh. lia. }
    destruct (sweep_advance _ _ _ _ _ _ Hrun Hs Hh) as
      (s1 & w1 & Hsteps & Hrun1 & Htr1); [ lia | ].
    replace (2 * S k + 3)%nat with (2 + (2 * k + 3))%nat by lia.
    rewrite steps_add, Hsteps. cbn [fst snd].
    destruct (IH _ _ _ _ Hrun1 eq_refl) as
      (self' & w' & Hsteps' & Hpc & Hp' & Htr & Hch).
    { exact Hn. }
    { cbn [OutputPattern.timePattern OutputPattern.patternPt].
      rewrite length_list_set. lia. }
    exists self', w'. split; [ exact Hsteps' | ].
    split; [ exact Hpc | ]. split; [ exact Hp' | ].
    split; [ | exact Hch ].
    rewrite Htr, Htr1.
    cbn [OutputPattern.timePattern OutputPattern.patternPt].
    rewrite skipn_list_set, (skipn_nth_error _ _ _ Hh).
    destruct (skipn (S (OutputPattern.patternPt p))
                    (OutputPattern.timePattern p)) as [ | d rest ] eqn:Hrest.
    { apply (f_equal (@length Q)) in Hrest.
      rewrite length_skipn in Hrest. simpl in Hrest. lia. }
    cbn [pulse]. rewrite <- app_assoc. reflexivity.
Qed.

Lemma sleepsOf_app (a b : list event) :
  sleepsOf (a ++ b) = sleepsOf a ++ sleepsOf b.
Proof.
  induction a as [ | [ | d | i s | ] a IH ]; simpl; auto. now rewrite IH.
Qed.

Lemma flipsOf_app (index : nat) (a b : list event) :
  flipsOf index (a ++ b) = flipsOf index a ++ flipsOf index b.
Proof.
  induction a as [ | [ | d | i s | ] a IH ]; simpl; auto.
  destruct (i =? index)%nat; simpl; now rewrite IH.
Qed.

Lemma sleepsOf_pulse (l : list Q) : forall b, sleepsOf (pulse l b) = l.
Proof.
  induction l as [ | d l IH ]; intros b; [ reflexivity | ].
  destruct l as [ | d' l ]; [ reflexivity | ].
  change (d :: sleepsOf (pulse (d' :: l) (negb b)) = d :: d' :: l).
  now rewrite IH.
Qed.

Lemma flipsOf_pulse (l : list Q) :
  forall b, flipsOf 0 (pulse l b) = alternation (length l - 1) (negb b).
Proof.
  induction l as [ | d l IH ]; intros b; [ reflexivity | ].
  destruct l as [ | d' l ]; [ reflexivity | ].
  change (negb b :: flipsOf 0 (pulse (d' :: l) (negb b))
          = alternation (length (d :: d' :: l) - 1) (negb b)).
  rewrite IH. simpl. now rewrite Nat.sub_0_r.
Qed.

Lemma lone_start (l : list Q) (n : Z) (ind : indicator) (dev : WIIMote.t) :
  (ind = LED -> WIIMote.leds dev <> []) ->
  exists self1 w1,
    SwitchPulser.step
      (SwitchPulser.init [Some (OutputPattern.init l n)] ind)
      (mkWorld dev false [])
    = (self1, w1)
    /\ running ind self1 w1 (OutputPattern.init l n) true
    /\ trace w1 = [EvOn].
Proof.
  intros Hleds. destruct dev as [rum leds]. destruct ind.
  - eexists. eexists. split; [ reflexivity | ].
    split; [ | reflexivity ]. repeat split. discriminate.
  - destruct leds as [ | b0 leds ]; [ now specialize (Hleds eq_refl) | ].
    eexists. eexists. split; [ reflexivity | ].
    split; [ | reflexivity ]. repeat split.
Qed.

(** A pattern with repeat count 1 and durations d0 .. dn-1 that a pulser
    runs alone: the whole record of the run.  It is forced on, waits out
    d0 .. dn-1 with a flip after every duration but the last, and is
    switched off by the finally block. *)
Lemma lone_single_pass (l : list Q) (ind : indicator)
    (dev : WIIMote.t) :
  l <> [] ->
  (ind = LED -> WIIMote.leds dev <> []) ->
  let r :=
    SwitchPulser.join
      (SwitchPulser.init [Some (OutputPattern.init l 1)] ind)
      (mkWorld dev false []) in
  SwitchPulser.pc (fst r)
  = SwitchPulser.Finished (SwitchPulser.Raised SystemExit)
  /\ (exists p', SwitchPulser.patternArray (fst r) = [Some p']
                 /\ OutputPattern.patternSpent p' = true)
  /\ trace (snd r) = EvOn :: pulse l true ++ [EvOff]
  /\ sleepsOf (trace (snd r)) = l
  /\ (Qsum (sleepsOf (trace (snd r))) == Qsum l)%Q
  /\ flipsOf 0 (trace (snd r)) = alternation (length l - 1) false
  /\ channel ind (wiimoteDevice (snd r)) = Some false.
Proof.
  intros Hl Hleds r.
  destruct (lone_start l 1 ind dev Hleds) as (s1 & w1 & Hstep & Hrun & Htr1).
  assert (Hk : (length (OutputPattern.timePattern (OutputPattern.init l 1))
                - OutputPattern.patternPt (OutputPattern.init l 1)
                = S (length l - 1))%nat).
  { simpl. destruct l; [ congruence | simpl; lia ]. }
  destruct (lone_loop ind (length l - 1) s1 w1 (OutputPattern.init l 1) true
                      Hrun eq_refl) as
    (self' & w' & Hsteps & Hpc & Hp' & Htr & Hch);
    [ simpl; lia | exact Hk | ].
  assert (Hall :
    SwitchPulser.steps (S (2 * (length l - 1) + 3))
      (SwitchPulser.init [Some (OutputPattern.init l 1)] ind)
      (mkWorld dev false [])
    = (self', w')).
  { cbn [SwitchPulser.steps]. rewrite Hstep. exact Hsteps. }
  assert (Hr : r = (self', w')).
  { unfold r, SwitchPulser.join. rewrite <- Hall.
    apply finished_later.
    - assert (Hpos : (1 <= length l)%nat)
        by (destruct l; [ congruence | simpl; lia ]).
      unfold SwitchPulser.enoughSteps, SwitchPulser.owedAll,
        SwitchPulser.owed. simpl. lia.
    - rewrite Hall. simpl. eauto. }
  rewrite Hr. cbn [fst snd].
  assert (Htrace : trace w' = EvOn :: pulse l true ++ [EvOff]).
  { rewrite Htr, Htr1. reflexivity. }
  split; [ exact Hpc | ]. split; [ exact Hp' | ].
  split; [ exact Htrace | ].
  assert (Hsl : sleepsOf (trace w') = l).
  { rewrite Htrace. cbn [sleepsOf].
    rewrite sleepsOf_app, sleepsOf_pulse. simpl. apply app_nil_r. }
  split; [ exact Hsl | ]. split; [ rewrite Hsl; reflexivity | ].
  split; [ | exact Hch ].
  rewrite Htrace. cbn [flipsOf].
  rewrite flipsOf_app, flipsOf_pulse. simpl. apply app_nil_r.
Qed.

(** C3 fails as stated.  A rumble pattern [0.5, 0.5] with repeat count 1
    is flipped once, not twice; a pattern [0.503, 0.503, 0.503, 0.503]
    with repeat count 1 that shares the sweep with [0.5, 0.5, 0.5, 0.5] is
    spent after 2.0 s of waits, 0.012 s short of the sum of its
    durations; and the LED of a pattern [1.0, 1.0, 1.0] with repeat
    count 1 that shares the sweep with [0.5] repeated 10 times is
    flipped to off twice in a row, the repeats of its neighbour having
    forced it on in between. *)
Lemma flips_and_elapsed_differ :
  (let r :=
     SwitchPulser.join
       (SwitchPulser.init
          [Some (OutputPattern.init [(1 # 2)%Q; (1 # 2)%Q] 1)] RUMBLE)
       (mkWorld (WIIMote.mk false [false; false; false; false]) false []) in
   SwitchPulser.pc (fst r)
   = SwitchPulser.Finished (SwitchPulser.Raised SystemExit)
   /\ length (flipsOf 0 (trace (snd r))) = 1%nat
   /\ length (flipsOf 0 (trace (snd r)))
      <> length [(1 # 2)%Q; (1 # 2)%Q])
  /\ (let short := [(503 # 1000)%Q; (503 # 1000)%Q;
                    (503 # 1000)%Q; (503 # 1000)%Q] in
      let r :=
        SwitchPulser.join
          (SwitchPulser.init
             [Some (OutputPattern.init
                      [(1 # 2)%Q; (1 # 2)%Q; (1 # 2)%Q; (1 # 2)%Q] 1);
              Some (OutputPattern.init short 1)]
             LED)
          (mkWorld (WIIMote.mk false [false; false; false; false])
                   false []) in
      option_map (option_map OutputPattern.patternSpent)
                 (nth_error (SwitchPulser.patternArray (fst r)) 1)
      = Some (Some true)
      /\ (Qsum (sleepsOf (trace (snd r))) == 2)%Q
      /\ (1 # 100 < Qsum short - Qsum (sleepsOf (trace (snd r))))%Q)
  /\ (let r :=
        SwitchPulser.join
          (SwitchPulser.init
             [Some (OutputPattern.init [1%Q; 1%Q; 1%Q] 1);
              Some (OutputPattern.init [(1 # 2)%Q] 10)]
             LED)
          (mkWorld (WIIMote.mk false [false; false; false; false])
                   false []) in
      flipsOf 0 (trace (snd r)) = [false; false]
      /\ flipsOf 0 (trace (snd r)) <> alternation 2 false).
Proof.
  split; [ | split ].
  - vm_compute. repeat split. discriminate.
  - vm_compute. repeat split.
  - vm_compute. split; [ reflexivity | discriminate ].
Qed.

(* ===================================================================== *)
(* SwitchPulser: the stop attribute                                        *)
(* ===================================================================== *)

Lemma turnIndicatorOn_withStop (self : SwitchPulser.t) (ind : indicator)
    (w : World) (b : bool) :
  SwitchPulser.turnIndicatorOn (SwitchPulser.withStop self b) ind w
  = (SwitchPulser.withStop
       (fst (fst (SwitchPulser.turnIndicatorOn self ind w))) b,
     snd (fst (SwitchPulser.turnIndicatorOn self ind w)),
     snd (SwitchPulser.turnIndicatorOn self ind w)).
Proof.
  unfold SwitchPulser.turnIndicatorOn.
  cbn [SwitchPulser.patternArray SwitchPulser.withStop].
  destruct ind; [ | reflexivity ].
  destruct (nth_error (SwitchPulser.patternArray self) 0) as [ [ p | ] | ];
    reflexivity.
Qed.

Lemma turnIndicatorOn_trace (self : SwitchPulser.t) (ind : indicator)
    (w : World) :
  exists mid,
    trace (snd (fst (SwitchPulser.turnIndicatorOn self ind w)))
    = trace w ++ mid.
Proof.
  unfold SwitchPulser.turnIndicatorOn.
  destruct ind.
  - destruct (nth_error (SwitchPulser.patternArray self) 0) as [ [ p | ] | ];
      simpl; [ now exists [EvOn] | | ]; exists []; now rewrite app_nil_r.
  - simpl. now exists [EvOn].
Qed.

Lemma flipRumbleOrLED_trace (self : SwitchPulser.t) (index : nat)
    (w : World) :
  exists mid,
    trace (fst (SwitchPulser.flipRumbleOrLED self index w)) = trace w ++ mid.
Proof.
  unfold SwitchPulser.flipRumbleOrLED, SwitchPulser.flipLED.
  destruct (SwitchPulser.outputIndicator self).
  - simpl. eexists. reflexivity.
  - destruct (nth_error (WIIMote.getLEDs (wiimoteDevice w)) index);
      [ | exists []; simpl; now rewrite app_nil_r ].
    destruct (index <? length [@None bool; None; None; None])%nat;
      simpl; [ eexists; reflexivity | ].
    exists []. now rewrite app_nil_r.
Qed.

(** The tick neither reads nor writes the stop attribute, and it only
    adds to the record of what happened. *)
Lemma tickFrom_withStop (n : nat) :
  forall (idx : nat) (self : SwitchPulser.t) (d : Q) (w : World) (b : bool),
    SwitchPulser.tickFrom n idx (SwitchPulser.withStop self b) d w
    = (SwitchPulser.withStop
         (fst (fst (SwitchPulser.tickFrom n idx self d w))) b,
       snd (fst (SwitchPulser.tickFrom n idx self d w)),
       snd (SwitchPulser.tickFrom n idx self d w))
    /\ exists mid,
         trace (snd (fst (SwitchPulser.tickFrom n idx self d w)))
         = trace w ++ mid.
Proof.
  induction n as [ | n IH ]; intros idx self d w b.
  { split; [ reflexivity | ]. exists []. simpl. now rewrite app_nil_r. }
  cbn [SwitchPulser.tickFrom SwitchPulser.patternArray SwitchPulser.withStop].
  destruct (nth_error (SwitchPulser.patternArray self) idx)
    as [ [ pattern | ] | ];
    try (split; [ reflexivity | ]; exists []; simpl; now rewrite app_nil_r).
  destruct (OutputPattern.reduceTimer pattern d) as [ pattern' reduced ].
  destruct reduced as [ reduced | e ];
    [ | split; [ reflexivity | ]; exists []; simpl; now rewrite app_nil_r ].
  cbn [SwitchPulser.outputIndicator SwitchPulser.withPatternArray
       SwitchPulser.withStop].
  set (self1 := SwitchPulser.withPatternArray self
                  (list_set (SwitchPulser.patternArray self) idx
                            (Some pattern'))).
  change (SwitchPulser.withPatternArray (SwitchPulser.withStop self b)
            (list_set (SwitchPulser.patternArray self) idx (Some pattern')))
    with (SwitchPulser.withStop self1 b).
  assert (Hon :
    exists self2 w2 on mid,
      (if OutputPattern.startOfRepeat pattern'
       then SwitchPulser.turnIndicatorOn self1
              (SwitchPulser.outputIndicator self) w
       else (self1, w, Ok tt)) = (self2, w2, on)
      /\ (if OutputPattern.startOfRepeat pattern'
          then SwitchPulser.turnIndicatorOn (SwitchPulser.withStop self1 b)
                 (SwitchPulser.outputIndicator self) w
          else (SwitchPulser.withStop self1 b, w, Ok tt))
         = (SwitchPulser.withStop self2 b, w2, on)
      /\ trace w2 = trace w ++ mid).
  { destruct (OutputPattern.startOfRepeat pattern').
    - rewrite turnIndicatorOn_withStop.
      destruct (turnIndicatorOn_trace self1
                  (SwitchPulser.outputIndicator self) w) as [mid Hmid].
      destruct (SwitchPulser.turnIndicatorOn self1
                  (SwitchPulser.outputIndicator self) w) as [[s2 w2] on].
      exists s2, w2, on, mid. now repeat split.
    - exists self1, w, (Ok tt), []. repeat split. now rewrite app_nil_r. }
  destruct Hon as (self2 & w2 & on & mid & Eon & Eon' & Hmid).
  rewrite Eon, Eon'.
  destruct on as [ [] | e ]; [ | split; [ reflexivity | now exists mid ] ].
  assert (Hrec :
    forall w3 mid3,
      trace w3 = trace w ++ mid3 ->
      SwitchPulser.tickFrom n (S idx) (SwitchPulser.withStop self2 b) d w3
      = (SwitchPulser.withStop
           (fst (fst (SwitchPulser.tickFrom n (S idx) self2 d w3))) b,
         snd (fst (SwitchPulser.tickFrom n (S idx) self2 d w3)),
         snd (SwitchPulser.tickFrom n (S idx) self2 d w3))
      /\ exists mid',
           trace (snd (fst (SwitchPulser.tickFrom n (S idx) self2 d w3)))
           = trace w ++ mid').
  { intros w3 mid3 H3. destruct (IH (S idx) self2 d w3 b) as [E [mid4 H4]].
    split; [ exact E | ]. exists (mid3 ++ mid4).
    now rewrite H4, H3, app_assoc. }
  destruct reduced as [ rt | ]; [ | exact (Hrec w2 mid Hmid) ].
  destruct (Qeq_bool rt 0); [ | exact (Hrec w2 mid Hmid) ].
  change (SwitchPulser.flipRumbleOrLED (SwitchPulser.withStop self2 b) idx w2)
    with (SwitchPulser.flipRumbleOrLED self2 idx w2).
  destruct (flipRumbleOrLED_trace self2 idx w2) as [mid3 H3].
  destruct (SwitchPulser.flipRumbleOrLED self2 idx w2) as [w3 [ [] | e ]];
    simpl in H3.
  - apply (Hrec w3 (mid ++ mid3)). now rewrite H3, Hmid, app_assoc.
  - split; [ reflexivity | ]. exists (mid ++ mid3). simpl.
    now rewrite H3, Hmid, app_assoc.
Qed.

Lemma finally_withStop (self : SwitchPulser.t) (w : World)
    (pending : SwitchPulser.outcome) (b : bool) :
  SwitchPulser.finally (SwitchPulser.withStop self b) w pending
  = (SwitchPulser.withStop (fst (SwitchPulser.finally self w pending)) b,
     snd (SwitchPulser.finally self w pending)).
Proof.
  unfold SwitchPulser.finally.
  cbn [SwitchPulser.outputIndicator SwitchPulser.withStop].
  destruct (SwitchPulser.outputIndicator self); reflexivity.
Qed.

Lemma finally_trace (self : SwitchPulser.t) (w : World)
    (pending : SwitchPulser.outcome) :
  trace (snd (SwitchPulser.finally self w pending)) = trace w ++ [EvOff].
Proof.
  unfold SwitchPulser.finally.
  destruct (SwitchPulser.outputIndicator self); reflexivity.
Qed.

Lemma sleeping_step_withStop (self : SwitchPulser.t) (w : World) (d : Q) :
  SwitchPulser.pc self = SwitchPulser.Sleeping d ->
  is_shutdown w = false ->
  SwitchPulser.step (SwitchPulser.withStop self true) w
  = (SwitchPulser.withStop (fst (SwitchPulser.step self w)) true,
     snd (SwitchPulser.step self w))
  /\ exists mid,
       trace (snd (SwitchPulser.step self w)) = trace w ++ EvSleep d :: mid
       /\ (SwitchPulser.pc (fst (SwitchPulser.step self w))
           = SwitchPulser.LoopHead
           \/ exists o mid',
                SwitchPulser.pc (fst (SwitchPulser.step self w))
                = SwitchPulser.Finished o
                /\ mid = mid' ++ [EvOff]).
Proof.
  intros Hpc Hshut.
  unfold SwitchPulser.step.
  cbn [SwitchPulser.pc SwitchPulser.withStop]. rewrite Hpc, Hshut.
  unfold SwitchPulser.tick.
  cbn [SwitchPulser.patternArray SwitchPulser.withStop].
  destruct (tickFrom_withStop (length (SwitchPulser.patternArray self)) 0
                              self d (emit w (EvSleep d)) true)
    as [E [mid Hmid]].
  rewrite E.
  destruct (SwitchPulser.tickFrom (length (SwitchPulser.patternArray self)) 0
                                  self d (emit w (EvSleep d)))
    as [[s1 w1] r].
  cbn [fst snd] in *. cbn [trace emit] in Hmid.
  rewrite <- app_assoc in Hmid. cbn [app] in Hmid.
  destruct r as [ [] | e ].
  - cbn [fst snd]. split; [ reflexivity | ].
    exists mid. split; [ exact Hmid | now left ].
  - rewrite finally_withStop. split; [ reflexivity | ].
    destruct (finally_pc s1 w1 (SwitchPulser.Raised e)) as [o Ho].
    pose proof (finally_trace s1 w1 (SwitchPulser.Raised e)) as Htr.
    destruct (SwitchPulser.finally s1 w1 (SwitchPulser.Raised e))
      as [s2 w2].
    cbn [fst snd] in *. exists (mid ++ [EvOff]). split.
    + rewrite Htr, Hmid, <- app_assoc. reflexivity.
    + right. exists o, mid. now split.
Qed.

(** C4, as the code has it.  Setting stop while the thread is inside
    rospy.sleep changes nothing of what the thread does next: the wait
    runs its full length and the tick after it is applied as if stop had
    not been set.  The flag is seen at the next test of the while
    condition; the thread then leaves the loop through the finally
    block, so it has ended two steps after the request at the latest. *)
Theorem stop_seen_only_at_loop_head (self : SwitchPulser.t) (w : World)
    (d : Q) :
  SwitchPulser.pc self = SwitchPulser.Sleeping d ->
  is_shutdown w = false ->
  SwitchPulser.step (SwitchPulser.withStop self true) w
  = (SwitchPulser.withStop (fst (SwitchPulser.step self w)) true,
     snd (SwitchPulser.step self w))
  /\ (exists mid,
         trace (snd (SwitchPulser.step (SwitchPulser.withStop self true) w))
         = trace w ++ EvSleep d :: mid)
  /\ (exists o mid,
         SwitchPulser.pc
           (fst (SwitchPulser.steps 2 (SwitchPulser.withStop self true) w))
         = SwitchPulser.Finished o
         /\ trace
              (snd (SwitchPulser.steps 2 (SwitchPulser.withStop self true) w))
            = trace w ++ EvSleep d :: mid ++ [EvOff]).
Proof.
  intros Hpc Hshut.
  destruct (sleeping_step_withStop self w d Hpc Hshut)
    as (E & mid & Hmid & Hnext).
  split; [ exact E | ].
  cbn [SwitchPulser.steps]. rewrite E. cbn [fst snd].
  split; [ now exists mid | ].
  destruct (SwitchPulser.step self w) as [s1 w1]. cbn [fst snd] in *.
  unfold SwitchPulser.step.
  cbn [SwitchPulser.pc SwitchPulser.withStop SwitchPulser.stop].
  destruct Hnext as [ Hl | (o & mid' & Ho & Hm) ].
  - rewrite Hl, orb_true_r.
    destruct (finally_pc (SwitchPulser.withStop s1 true) w1
                         SwitchPulser.Returned) as [o Ho].
    pose proof (finally_trace (SwitchPulser.withStop s1 true) w1
                              SwitchPulser.Returned) as Htr.
    destruct (SwitchPulser.finally (SwitchPulser.withStop s1 true) w1
                                   SwitchPulser.Returned) as [s2 w2].
    cbn [fst snd] in *. exists o, mid. split; [ exact Ho | ].
    rewrite Htr, Hmid, <- app_assoc. reflexivity.
  - rewrite Ho. cbn [fst snd SwitchPulser.pc SwitchPulser.withStop].
    exists o, mid'. split; [ exact Ho | ].
    rewrite Hmid, Hm. reflexivity.
Qed.

Lemma stop_seen_only_at_loop_head_witness :
  exists mid,
    trace
      (snd (SwitchPulser.step
              (SwitchPulser.withStop
                 (fst (SwitchPulser.steps 2
                         (SwitchPulser.init
                            [Some (OutputPattern.init
                                     [(1 # 2)%Q; (1 # 2)%Q] 2)]
                            RUMBLE)
                         (mkWorld
                            (WIIMote.mk false [false; false; false; false])
                            false [])))
                 true)
              (snd (SwitchPulser.steps 2
                      (SwitchPulser.init
                         [Some (OutputPattern.init
                                  [(1 # 2)%Q; (1 # 2)%Q] 2)]
                         RUMBLE)
                      (mkWorld
                         (WIIMote.mk false [false; false; false; false])
                         false [])))))
    = [EvOn] ++ EvSleep (1 # 2)%Q :: mid.
Proof.
  exact (proj1 (proj2
    (stop_seen_only_at_loop_head
       (fst (SwitchPulser.steps 2
               (SwitchPulser.init
                  [Some (OutputPattern.init [(1 # 2)%Q; (1 # 2)%Q] 2)]
                  RUMBLE)
               (mkWorld (WIIMote.mk false [false; false; false; false])
                        false [])))
       (snd (SwitchPulser.steps 2
               (SwitchPulser.init
                  [Some (OutputPattern.init [(1 # 2)%Q; (1 # 2)%Q] 2)]
                  RUMBLE)
               (mkWorld (WIIMote.mk false [false; false; false; false])
                        false [])))
       (1 # 2)%Q eq_refl eq_refl))).
Defined.

(** C4 fails as stated.  Rumble pattern [0.5, 0.5] with two repeats;
    stop is set while the thread is in its first wait.  The next thing
    the thread does is finish the 0.5 s wait and apply the tick (the
    flip to off); it is then at the loop head, not yet out of run(). *)
Lemma stop_during_wait_is_waited_out :
  let w0 := mkWorld (WIIMote.mk false [false; false; false; false])
                    false [] in
  let pulser :=
    SwitchPulser.init
      [Some (OutputPattern.init [(1 # 2)%Q; (1 # 2)%Q] 2)] RUMBLE in
  SwitchPulser.pc
    (fst (SwitchPulser.exec
            [SwitchPulser.ThreadStep; SwitchPulser.ThreadStep;
             SwitchPulser.SetStop] pulser w0))
  = SwitchPulser.Sleeping (1 # 2)%Q
  /\ SwitchPulser.pc
       (fst (SwitchPulser.exec
               [SwitchPulser.ThreadStep; SwitchPulser.ThreadStep;
                SwitchPulser.SetStop; SwitchPulser.ThreadStep] pulser w0))
     = SwitchPulser.LoopHead
  /\ trace
       (snd (SwitchPulser.exec
               [SwitchPulser.ThreadStep; SwitchPulser.ThreadStep;
                SwitchPulser.SetStop; SwitchPulser.ThreadStep] pulser w0))
     = [EvOn; EvSleep (1 # 2)%Q; EvFlip 0 false].
Proof. vm_compute. repeat split. Qed.

(* ===================================================================== *)
(* SwitchPulser: slots without a pattern                                   *)
(* ===================================================================== *)

(** The second for loop of run() calls reduceTimer on every slot: a tick
    that reaches a slot holding None raises, so a tick over an array with
    such a slot never completes. *)
Lemma tickFrom_absent (n : nat) :
  forall (idx : nat) (self : SwitchPulser.t) (d : Q) (w : World) (j : nat),
    (idx <= j)%nat ->
    (j < idx + n)%nat ->
    nth_error (SwitchPulser.patternArray self) j = Some None ->
    exists e, snd (SwitchPulser.tickFrom n idx self d w) = Raise e.
Proof.
  induction n as [ | n IH ]; intros idx self d w j Hle Hlt Hj; [ lia | ].
  cbn [SwitchPulser.tickFrom].
  destruct (nth_error (SwitchPulser.patternArray self) idx)
    as [ [ pattern | ] | ] eqn:Hp.
  - assert (Hne : idx <> j) by congruence.
    destruct (OutputPattern.reduceTimer pattern d) as [ pattern' reduced ].
    destruct reduced as [ reduced | e ]; [ | simpl; eauto ].
    set (self1 := SwitchPulser.withPatternArray self
                    (list_set (SwitchPulser.patternArray self) idx
                              (Some pattern'))).
    destruct (if OutputPattern.startOfRepeat pattern'
              then SwitchPulser.turnIndicatorOn self1
                     (SwitchPulser.outputIndicator self1) w
              else (self1, w, Ok tt)) as [[self2 w2] on] eqn:Eon.
    assert (Hj2 : nth_error (SwitchPulser.patternArray self2) j = Some None).
    { assert (Hpa : SwitchPulser.patternArray self2
                    = SwitchPulser.patternArray self1).
      { destruct (OutputPattern.startOfRepeat pattern').
        - exact (turnIndicatorOn_patternArray _ _ _ _ _ _ Eon).
        - now injection Eon as <- _ _. }
      rewrite Hpa. unfold self1.
      cbn [SwitchPulser.patternArray SwitchPulser.withPatternArray].
      now rewrite nth_error_list_set_ne. }
    destruct on as [ [] | e ]; [ | simpl; eauto ].
    assert (Hrec :
      forall w3,
        exists e,
          snd (SwitchPulser.tickFrom n (S idx) self2 d w3) = Raise e).
    { intros w3. apply (IH (S idx) self2 d w3 j); [ lia | lia | exact Hj2 ]. }
    destruct reduced as [ rt | ]; [ | apply Hrec ].
    destruct (Qeq_bool rt 0); [ | apply Hrec ].
    destruct (SwitchPulser.flipRumbleOrLED self2 idx w2) as [w3 [ [] | e ]];
      [ apply Hrec | simpl; eauto ].
  - simpl. eauto.
  - apply nth_error_None in Hp.
    assert (Hnone : nth_error (SwitchPulser.patternArray self) j = None)
      by (apply nth_error_None; lia).
    congruence.
Qed.

(** C1 on the code.  LED pattern set [{[0.2, 0.3], 1}, None, {[1.0], 3},
    None]: LED1 and LED3 are left as they were, but the first tick raises
    AttributeError at the None slot; the finally block switches LED0 and
    LED2 off and the thread ends after one wait of 0.2 s, the pattern of
    LED2 unspent and none of its durations waited for. *)
Theorem absent_slot_aborts_sweep :
  let r :=
    SwitchPulser.join
      (SwitchPulser.init
         [Some (OutputPattern.init [(2 # 10)%Q; (3 # 10)%Q] 1);
          None;
          Some (OutputPattern.init [1%Q] 3);
          None]
         LED)
      (mkWorld (WIIMote.mk false [false; true; false; true]) false []) in
  SwitchPulser.pc (fst r)
  = SwitchPulser.Finished (SwitchPulser.Raised AttributeError)
  /\ trace (snd r) = [EvOn; EvSleep (2 # 10)%Q; EvFlip 0 false; EvOff]
  /\ option_map (option_map OutputPattern.patternSpent)
                (nth_error (SwitchPulser.patternArray (fst r)) 2)
     = Some (Some false)
  /\ WIIMote.leds (wiimoteDevice (snd r)) = [false; true; false; true].
Proof. vm_compute. repeat split. Qed.

(* ===================================================================== *)
(* WiimoteListeners                                                        *)
(* ===================================================================== *)

(** The rumble callback does stop and wait for a running pulser before
    anything else. *)
Lemma rumbleSwitchCallback_stops_first (SWITCH_ON SWITCH_OFF
    SWITCH_PULSE_PATTERN : Z) (th : SwitchPulser.t)
    (msg : WiimoteListeners.TimedSwitch) (w : World) :
  exists rest,
    snd (WiimoteListeners.rumbleSwitchCallback
           SWITCH_ON SWITCH_OFF SWITCH_PULSE_PATTERN
           (WiimoteListeners.mk (Some th)) msg w)
    = WiimoteListeners.CallStop :: WiimoteListeners.CallJoin :: rest.
Proof.
  unfold WiimoteListeners.rumbleSwitchCallback, WiimoteListeners.stopPulser.
  cbn [WiimoteListeners.pulserThread].
  destruct (SwitchPulser.join (SwitchPulser.withStop th true) w) as [th' w'].
  destruct (WiimoteListeners.switch_mode msg =? SWITCH_ON)%Z;
    [ simpl; eauto | ].
  destruct (WiimoteListeners.switch_mode msg =? SWITCH_OFF)%Z;
    [ simpl; eauto | ].
  destruct (negb (WiimoteListeners.switch_mode msg =? SWITCH_PULSE_PATTERN)%Z);
    [ simpl; eauto | ].
  destruct (WiimoteListeners.num_cycles msg =? 0)%Z; [ simpl; eauto | ].
  destruct (SwitchPulser.join _ w'). simpl. eauto.
Qed.

(** C7 on the code.  An LED pulser is in its wait, LED0 on, when an LED
    request arrives.  A direct request writes the LEDs at once: the
    callback neither sets stop nor joins, and the pulser is still in its
    wait, stop unset.  A pattern request starts and joins a new pulser
    and overwrites the reference to the old one, again without stopping
    or joining it. *)
Theorem ledControlCallback_never_stops :
  let w0 := mkWorld (WIIMote.mk false [false; false; false; false])
                    false [] in
  let started :=
    SwitchPulser.steps 2
      (SwitchPulser.init [Some (OutputPattern.init [1%Q] 3)] LED) w0 in
  let old := fst started in
  let listeners := WiimoteListeners.mk (Some old) in
  SwitchPulser.pc old = SwitchPulser.Sleeping 1%Q
  /\ SwitchPulser.stop old = false
  /\ WiimoteListeners.ledControlCallback listeners
       (WiimoteListeners.mkLEDControl [1%Z; 0%Z; 0%Z; 1%Z] [])
       (snd started)
     = Ok (listeners,
           mkWorld (WIIMote.mk false [true; false; false; true]) false [EvOn],
           [WiimoteListeners.CallSetLEDs
              [Some true; Some false; Some false; Some true]])
  /\ match WiimoteListeners.ledControlCallback listeners
             (WiimoteListeners.mkLEDControl
                [(-1)%Z; 0%Z; 0%Z; 0%Z]
                [WiimoteListeners.mkTimedSwitch 0 1 [(1 # 2)%Q]])
             (snd started) with
     | Ok (_, _, calls) =>
       calls = [WiimoteListeners.CallStart; WiimoteListeners.CallJoin]
     | Raise _ => False
     end.
Proof. vm_compute. repeat split. Qed.

(** C8, as the code has it.  A rumble request whose mode is none of the
    three known ones writes nothing to the device itself and starts no
    pulser; it is logged.  But the callback has by then told a running
    pulser to stop and waited for it: what is left is exactly the state
    after that, and nothing at all has changed only when no pulser was
    running. *)
Theorem illegal_mode_after_stop (SWITCH_ON SWITCH_OFF SWITCH_PULSE_PATTERN : Z)
    (self : WiimoteListeners.t) (msg : WiimoteListeners.TimedSwitch)
    (w : World) :
  WiimoteListeners.switch_mode msg <> SWITCH_ON ->
  WiimoteListeners.switch_mode msg <> SWITCH_OFF ->
  WiimoteListeners.switch_mode msg <> SWITCH_PULSE_PATTERN ->
  WiimoteListeners.rumbleSwitchCallback
    SWITCH_ON SWITCH_OFF SWITCH_PULSE_PATTERN self msg w
  = (fst (fst (WiimoteListeners.stopPulser self w)),
     snd (fst (WiimoteListeners.stopPulser self w)),
     snd (WiimoteListeners.stopPulser self w) ++ [WiimoteListeners.CallLoginfo])
  /\ (WiimoteListeners.pulserThread self = None ->
      WiimoteListeners.rumbleSwitchCallback
        SWITCH_ON SWITCH_OFF SWITCH_PULSE_PATTERN self msg w
      = (self, w, [WiimoteListeners.CallLoginfo]))
  /\ (forall th,
         WiimoteListeners.pulserThread self = Some th ->
         WiimoteListeners.stopPulser self w
         = (WiimoteListeners.mk None,
            snd (SwitchPulser.join (SwitchPulser.withStop th true) w),
            [WiimoteListeners.CallStop; WiimoteListeners.CallJoin])
         /\ exists o,
              SwitchPulser.pc
                (fst (SwitchPulser.join (SwitchPulser.withStop th true) w))
              = SwitchPulser.Finished o).
Proof.
  intros Hon Hoff Hpp.
  apply Z.eqb_neq in Hon, Hoff, Hpp.
  assert (E :
    WiimoteListeners.rumbleSwitchCallback
      SWITCH_ON SWITCH_OFF SWITCH_PULSE_PATTERN self msg w
    = (fst (fst (WiimoteListeners.stopPulser self w)),
       snd (fst (WiimoteListeners.stopPulser self w)),
       snd (WiimoteListeners.stopPulser self w)
       ++ [WiimoteListeners.CallLoginfo])).
  { unfold WiimoteListeners.rumbleSwitchCallback.
    destruct (WiimoteListeners.stopPulser self w) as [[self1 w1] calls].
    now rewrite Hon, Hoff, Hpp. }
  split; [ exact E | ]. split.
  - intros Hnone. rewrite E. unfold WiimoteListeners.stopPulser.
    now rewrite Hnone.
  - intros th Hth. split.
    + unfold WiimoteListeners.stopPulser. rewrite Hth.
      now destruct (SwitchPulser.join (SwitchPulser.withStop th true) w).
    + apply join_terminates.
Qed.

Lemma illegal_mode_after_stop_witness :
  WiimoteListeners.rumbleSwitchCallback 1 0 (-1)
    (WiimoteListeners.mk None)
    (WiimoteListeners.mkTimedSwitch 7 2 [(1 # 2)%Q])
    (mkWorld (WIIMote.mk true [false; false; false; false]) false [])
  = (WiimoteListeners.mk None,
     mkWorld (WIIMote.mk true [false; false; false; false]) false [],
     [WiimoteListeners.CallLoginfo]).
Proof.
  assert (H1 : WiimoteListeners.switch_mode
                 (WiimoteListeners.mkTimedSwitch 7 2 [(1 # 2)%Q]) <> 1%Z)
    by (simpl; lia).
  assert (H2 : WiimoteListeners.switch_mode
                 (WiimoteListeners.mkTimedSwitch 7 2 [(1 # 2)%Q]) <> 0%Z)
    by (simpl; lia).
  assert (H3 : WiimoteListeners.switch_mode
                 (WiimoteListeners.mkTimedSwitch 7 2 [(1 # 2)%Q]) <> (-1)%Z)
    by (simpl; lia).
  exact (proj1 (proj2
    (illegal_mode_after_stop 1 0 (-1)
       (WiimoteListeners.mk None)
       (WiimoteListeners.mkTimedSwitch 7 2 [(1 # 2)%Q])
       (mkWorld (WIIMote.mk true [false; false; false; false]) false [])
       H1 H2 H3)) eq_refl).
Defined.

(** C8 fails as stated.  With SWITCH_ON, SWITCH_OFF, SWITCH_PULSE_PATTERN
    = 1, 0, -1: a rumble pulser is in its first wait, rumble on, when a
    request with mode 7 arrives.  Afterwards rumble is off, and the
    listener holds no pulser any more. *)
Lemma illegal_mode_stops_pulser :
  let w0 := mkWorld (WIIMote.mk false [false; false; false; false])
                    false [] in
  let started :=
    SwitchPulser.steps 2
      (SwitchPulser.init
         [Some (OutputPattern.init [(1 # 2)%Q; (1 # 2)%Q] 2)] RUMBLE) w0 in
  let r :=
    WiimoteListeners.rumbleSwitchCallback 1 0 (-1)
      (WiimoteListeners.mk (Some (fst started)))
      (WiimoteListeners.mkTimedSwitch 7 2 [(1 # 2)%Q])
      (snd started) in
  SwitchPulser.pc (fst started) = SwitchPulser.Sleeping (1 # 2)%Q
  /\ WIIMote.rumble (wiimoteDevice (snd started)) = true
  /\ WIIMote.rumble (wiimoteDevice (snd (fst r))) = false
  /\ WiimoteListeners.pulserThread (fst (fst r)) = None
  /\ snd r = [WiimoteListeners.CallStop; WiimoteListeners.CallJoin;
              WiimoteListeners.CallLoginfo].
Proof. vm_compute. repeat split. Qed.

(** C6, as the code has it.  A pattern built with repeat count 0 is
    accepted and unspent, and its first timeRemaining() is its first
    duration.  That a count of 0 does nothing is decided in the rumble
    callback: a PULSE_PATTERN request with num_cycles 0 builds no pattern
    and starts no pulser; what the callback leaves is the state after a
    running pulser was stopped, and the state it found when none was
    running. *)
Theorem zero_repeat_policy (SWITCH_ON SWITCH_OFF SWITCH_PULSE_PATTERN : Z)
    (self : WiimoteListeners.t) (msg : WiimoteListeners.TimedSwitch)
    (w : World) :
  WiimoteListeners.switch_mode msg <> SWITCH_ON ->
  WiimoteListeners.switch_mode msg <> SWITCH_OFF ->
  WiimoteListeners.switch_mode msg = SWITCH_PULSE_PATTERN ->
  WiimoteListeners.num_cycles msg = 0%Z ->
  (forall (d0 : Q) (l : list Q),
      OutputPattern.patternSpent (OutputPattern.init (d0 :: l) 0) = false
      /\ OutputPattern.timeRemaining (OutputPattern.init (d0 :: l) 0)
         = Ok (Some d0))
  /\ WiimoteListeners.rumbleSwitchCallback
       SWITCH_ON SWITCH_OFF SWITCH_PULSE_PATTERN self msg w
     = WiimoteListeners.stopPulser self w
  /\ (WiimoteListeners.pulserThread self = None ->
      WiimoteListeners.rumbleSwitchCallback
        SWITCH_ON SWITCH_OFF SWITCH_PULSE_PATTERN self msg w
      = (self, w, [])).
Proof.
  intros Hon Hoff Hpp Hzero.
  apply Z.eqb_neq in Hon, Hoff. apply Z.eqb_eq in Hpp, Hzero.
  assert (E :
    WiimoteListeners.rumbleSwitchCallback
      SWITCH_ON SWITCH_OFF SWITCH_PULSE_PATTERN self msg w
    = WiimoteListeners.stopPulser self w).
  { unfold WiimoteListeners.rumbleSwitchCallback.
    destruct (WiimoteListeners.stopPulser self w) as [[self1 w1] calls].
    now rewrite Hon, Hoff, Hpp, Hzero. }
  split; [ intros d0 l; split; reflexivity | ].
  split; [ exact E | ].
  intros Hnone. rewrite E. unfold WiimoteListeners.stopPulser.
  now rewrite Hnone.
Qed.

Lemma zero_repeat_policy_witness :
  WiimoteListeners.rumbleSwitchCallback 1 0 (-1)
    (WiimoteListeners.mk None)
    (WiimoteListeners.mkTimedSwitch (-1) 0 [(1 # 2)%Q; (1 # 2)%Q])
    (mkWorld (WIIMote.mk false [false; false; false; false]) false [])
  = (WiimoteListeners.mk None,
     mkWorld (WIIMote.mk false [false; false; false; false]) false [],
     []).
Proof.
  assert (H1 : WiimoteListeners.switch_mode
                 (WiimoteListeners.mkTimedSwitch (-1) 0
                    [(1 # 2)%Q; (1 # 2)%Q]) <> 1%Z)
    by (simpl; lia).
  assert (H2 : WiimoteListeners.switch_mode
                 (WiimoteListeners.mkTimedSwitch (-1) 0
                    [(1 # 2)%Q; (1 # 2)%Q]) <> 0%Z)
    by (simpl; lia).
  exact (proj2 (proj2
    (zero_repeat_policy 1 0 (-1)
       (WiimoteListeners.mk None)
       (WiimoteListeners.mkTimedSwitch (-1) 0 [(1 # 2)%Q; (1 # 2)%Q])
       (mkWorld (WIIMote.mk false [false; false; false; false]) false [])
       H1 H2 eq_refl eq_refl)) eq_refl).
Defined.

(** C6 fails as stated.  A pattern [0.5] built with repeat count 0 is
    accepted, its first timeRemaining() is 0.5, not None, and an LED
    pulser given it waits the 0.5 s out. *)
Lemma zero_repeat_pattern_runs :
  OutputPattern.patternSpent (OutputPattern.init [(1 # 2)%Q] 0) = false
  /\ OutputPattern.timeRemaining (OutputPattern.init [(1 # 2)%Q] 0)
     = Ok (Some (1 # 2)%Q)
  /\ OutputPattern.timeRemaining (OutputPattern.init [(1 # 2)%Q] 0)
     <> Ok None
  /\ match WiimoteListeners.ledControlCallback
             (WiimoteListeners.mk None)
             (WiimoteListeners.mkLEDControl
                [(-1)%Z; 0%Z; 0%Z; 0%Z]
                [WiimoteListeners.mkTimedSwitch 0 0 [(1 # 2)%Q]])
             (mkWorld (WIIMote.mk false [false; false; false; false])
                      false []) with
     | Ok (_, w', _) => sleepsOf (trace w') = [(1 # 2)%Q]
     | Raise _ => False
     end.
Proof. vm_compute. repeat split. discriminate. Qed.

(* ===================================================================== *)
(* OutputPattern: what every constructed pattern keeps                     *)
(* ===================================================================== *)

Lemma Forall_list_set {A : Type} (P : A -> Prop) (l : list A) :
  forall (i : nat) (v : A),
    Forall P l -> P v -> Forall P (list_set l i v).
Proof.
  induction l as [ | a l IH ]; intros i v Hl Hv; [ constructor | ].
  inversion Hl as [ | ? ? Ha Hl' ]; subst.
  destruct i as [ | i ]; simpl; constructor; auto.
Qed.

Lemma nonneg_reduceTimer (p : OutputPattern.t) (time : Q) :
  Forall (fun d => (0 <= d)%Q) (OutputPattern.origTimePattern p) ->
  Forall (fun d => (0 <= d)%Q) (OutputPattern.timePattern p) ->
  Forall (fun d => (0 <= d)%Q)
         (OutputPattern.origTimePattern (fst (OutputPattern.reduceTimer p time)))
  /\ Forall (fun d => (0 <= d)%Q)
            (OutputPattern.timePattern (fst (OutputPattern.reduceTimer p time)))
  /\ forall r,
       snd (OutputPattern.reduceTimer p time) = Ok (Some r) -> (0 <= r)%Q.
Proof.
  intros Ho Ht.
  assert (Hset :
    forall h,
      Forall (fun d => (0 <= d)%Q)
             (list_set (OutputPattern.timePattern p)
                       (OutputPattern.patternPt p)
                       (OutputPattern.clamp (h - time)))).
  { intros h. apply Forall_list_set; [ exact Ht | apply clamp_nonneg ]. }
  destruct (reduceTimerP p time) as
    [ Hs | Hs Hh | head Hs Hh Hr | head Hs Hh Hr Hlt
    | head Hs Hh Hr Hge Hn | head Hs Hh Hr Hge Hn ];
    simpl; (split; [ exact Ho | ]);
    (split; [ solve [ exact Ht | apply Hset | exact Ho ] | ]);
    intros r Hr'; try discriminate.
  - injection Hr' as <-. apply round2_nonneg, clamp_nonneg.
  - injection Hr' as <-. apply round2_nonneg, clamp_nonneg.
  - destruct (OutputPattern.origTimePattern p) as [ | d0 rest ];
      [ discriminate | ].
    injection Hr' as <-. now inversion Ho.
Qed.

(** Durations that are not negative stay so: whatever times are
    subtracted from a pattern built from non-negative durations, no entry
    of its working copy goes below zero, and neither timeRemaining nor
    reduceTimer ever returns a negative value. *)
Theorem reduceTimer_never_negative (l : list Q) (n : Z) (times : list Q)
    (time : Q) :
  Forall (fun d => (0 <= d)%Q) l ->
  let p := OutputPattern.reduceAll (OutputPattern.init l n) times in
  Forall (fun d => (0 <= d)%Q) (OutputPattern.timePattern p)
  /\ (forall d, OutputPattern.timeRemaining p = Ok (Some d) -> (0 <= d)%Q)
  /\ (forall r,
         snd (OutputPattern.reduceTimer p time) = Ok (Some r) -> (0 <= r)%Q).
Proof.
  intros Hl p.
  assert (Hinv :
    Forall (fun d => (0 <= d)%Q) (OutputPattern.origTimePattern p)
    /\ Forall (fun d => (0 <= d)%Q) (OutputPattern.timePattern p)).
  { unfold p. generalize (OutputPattern.init l n) (conj Hl Hl : 
      Forall (fun d => (0 <= d)%Q)
             (OutputPattern.origTimePattern (OutputPattern.init l n))
      /\ Forall (fun d => (0 <= d)%Q)
                (OutputPattern.timePattern (OutputPattern.init l n))).
    induction times as [ | t times IH ]; intros q [Hqo Hqt]; simpl.
    - now split.
    - apply IH.
      destruct (nonneg_reduceTimer q t Hqo Hqt) as (H1 & H2 & _).
      now split. }
  destruct Hinv as [Ho Ht].
  split; [ exact Ht | ]. split.
  - intros d Hd. unfold OutputPattern.timeRemaining in Hd.
    destruct (OutputPattern.patternSpent p); [ discriminate | ].
    destruct (nth_error (OutputPattern.timePattern p)
                        (OutputPattern.patternPt p)) as [ h | ] eqn:Hh;
      [ | discriminate ].
    injection Hd as <-. apply nth_error_In in Hh.
    rewrite Forall_forall in Ht. now apply Ht.
  - exact (proj2 (proj2 (nonneg_reduceTimer p time Ho Ht))).
Qed.

Lemma reduceTimer_never_negative_witness :
  Forall (fun d => (0 <= d)%Q)
    (OutputPattern.timePattern
       (OutputPattern.reduceAll
          (OutputPattern.init [(1 # 5)%Q; (3 # 10)%Q] 2) [(1 # 2)%Q])).
Proof.
  assert (Hl : Forall (fun d => (0 <= d)%Q) [(1 # 5)%Q; (3 # 10)%Q]).
  { repeat constructor; discriminate. }
  exact (proj1
    (reduceTimer_never_negative [(1 # 5)%Q; (3 # 10)%Q] 2 [(1 # 2)%Q]
                                (7 # 10)%Q Hl)).
Defined.

(** Spent is final: on a spent pattern every reduceTimer call returns
    None and changes nothing, so no series of calls brings it back. *)
Theorem spent_is_final (p : OutputPattern.t) (times : list Q) :
  OutputPattern.patternSpent p = true ->
  OutputPattern.reduceAll p times = p
  /\ OutputPattern.timeRemaining (OutputPattern.reduceAll p times) = Ok None
  /\ forall time, OutputPattern.reduceTimer p time = (p, Ok None).
Proof.
  intros Hs.
  assert (Hstep : forall time, OutputPattern.reduceTimer p time = (p, Ok None)).
  { intros time. unfold OutputPattern.reduceTimer. now rewrite Hs. }
  assert (Hall : OutputPattern.reduceAll p times = p).
  { induction times as [ | t times IH ]; [ reflexivity | ].
    simpl. rewrite Hstep. exact IH. }
  split; [ exact Hall | ]. split; [ | exact Hstep ].
  rewrite Hall. unfold OutputPattern.timeRemaining. now rewrite Hs.
Qed.

Lemma spent_is_final_witness :
  let p :=
    OutputPattern.reduceAll (OutputPattern.init [(1 # 2)%Q] 1) [(1 # 2)%Q] in
  OutputPattern.reduceAll p [(1 # 2)%Q; (3 # 1)%Q] = p.
Proof.
  exact (proj1 (spent_is_final
                  (OutputPattern.reduceAll
                     (OutputPattern.init [(1 # 2)%Q] 1) [(1 # 2)%Q])
                  [(1 # 2)%Q; (3 # 1)%Q] eq_refl)).
Defined.

(** Whatever times a constructed pattern is reduced by: its template is
    the sequence it was built from, its working copy keeps that length,
    the cursor never passes the end of the sequence, and the repeat count
    never grows. *)
Theorem constructed_pattern_bounds (l : list Q) (n : Z) (times : list Q) :
  let p := OutputPattern.reduceAll (OutputPattern.init l n) times in
  OutputPattern.origTimePattern p = l
  /\ length (OutputPattern.timePattern p) = length l
  /\ (OutputPattern.patternPt p <= length l)%nat
  /\ (OutputPattern.numReps p <= n)%Z.
Proof.
  intros p. unfold p.
  assert (Hinit :
    OutputPattern.origTimePattern (OutputPattern.init l n) = l
    /\ length (OutputPattern.timePattern (OutputPattern.init l n)) = length l
    /\ (OutputPattern.patternPt (OutputPattern.init l n) <= length l)%nat
    /\ (OutputPattern.numReps (OutputPattern.init l n) <= n)%Z).
  { simpl. repeat split; lia. }
  revert Hinit. generalize (OutputPattern.init l n).
  induction times as [ | t times IH ]; intros q Hq; [ exact Hq | ].
  simpl. apply IH. destruct Hq as (Ho & Hlen & Hpt & Hn).
  destruct (reduceTimerP q t) as
    [ Hs | Hs Hh | head Hs Hh Hr | head Hs Hh Hr Hlt
    | head Hs Hh Hr Hge Hn' | head Hs Hh Hr Hge Hn' ];
    simpl; rewrite ?length_list_set;
    try (assert (Hin : (OutputPattern.patternPt q
                        < length (OutputPattern.timePattern q))%nat)
           by (apply nth_error_Some; congruence));
    repeat split; auto; try lia; try congruence.
Qed.

Lemma round2_expired (x : Q) :
  (0 <= x)%Q -> (Qle_bool (round2 x) 0 = true <-> (x < 1 # 200)%Q).
Proof.
  intros Hx. unfold round2.
  assert (H0 : Qle_bool 0 x = true) by now apply Qle_bool_iff.
  rewrite H0. rewrite Qle_bool_iff.
  pose proof (Qfloor_le (x * 100 + (1 # 2))) as Hfl.
  pose proof (Qlt_floor (x * 100 + (1 # 2))) as Hlt.
  set (z := Qfloor (x * 100 + (1 # 2))) in *.
  assert (Hq : (Qmake z 100 <= 0)%Q <-> (z <= 0)%Z).
  { unfold Qle. simpl. lia. }
  rewrite Hq. split.
  - intros Hz.
    assert (Hz' : (inject_Z (z + 1) <= 1)%Q).
    { change 1%Q with (inject_Z 1). rewrite <- Zle_Qle. lia. }
    lra.
  - intros Hsmall.
    assert (Hz' : (inject_Z z < inject_Z 1)%Q).
    { apply Qle_lt_trans with (x * 100 + (1 # 2))%Q; [ exact Hfl | ].
      change (inject_Z 1) with 1%Q. lra. }
    rewrite <- Zlt_Qlt in Hz'. lia.
Qed.

(** The head is taken as run out when less than 0.005 s of it are left
    after the subtraction (a negative rest counts as zero): reduceTimer
    then moves the cursor on, or begins a repeat, or marks the pattern
    spent.  With 0.005 s or more left the cursor stays, and the rest,
    rounded to hundredths, is returned and is positive. *)
Theorem head_expiry_threshold (p : OutputPattern.t) (time head : Q) :
  OutputPattern.patternSpent p = false ->
  nth_error (OutputPattern.timePattern p) (OutputPattern.patternPt p)
    = Some head ->
  let p' := fst (OutputPattern.reduceTimer p time) in
  let r := snd (OutputPattern.reduceTimer p time) in
  ((head - time < 1 # 200)%Q ->
   OutputPattern.patternPt p' = S (OutputPattern.patternPt p)
   \/ OutputPattern.startOfRepeat p' = true)
  /\ ((1 # 200 <= head - time)%Q ->
      OutputPattern.patternPt p' = OutputPattern.patternPt p
      /\ OutputPattern.patternSpent p' = false
      /\ OutputPattern.startOfRepeat p' = false
      /\ nth_error (OutputPattern.timePattern p') (OutputPattern.patternPt p)
         = Some (head - time)%Q
      /\ r = Ok (Some (round2 (head - time)))
      /\ (0 < round2 (head - time))%Q).
Proof.
  intros Hs Hh. cbv zeta.
  assert (Hin : (OutputPattern.patternPt p
                 < length (OutputPattern.timePattern p))%nat)
    by (apply nth_error_Some; congruence).
  assert (Hexp :
    Qle_bool (round2 (OutputPattern.clamp (head - time))) 0 = true
    <-> (head - time < 1 # 200)%Q).
  { rewrite (round2_expired _ (clamp_nonneg _)).
    unfold OutputPattern.clamp.
    destruct (Qltb (head - time) 0) eqn:E.
    - apply Qltb_lt in E. split; intros; lra.
    - reflexivity. }
  destruct (reduceTimerP p time) as
    [ Hs' | Hs' Hh' | h Hs' Hh' Hr | h Hs' Hh' Hr Hlt
    | h Hs' Hh' Hr Hge Hn | h Hs' Hh' Hr Hge Hn ];
    try congruence;
    rewrite Hh in Hh'; injection Hh' as <-; simpl.
  - (* the cursor stays *)
    assert (Hbig : (1 # 200 <= head - time)%Q).
    { apply Qnot_lt_le. intros Hc. apply Hexp in Hc. congruence. }
    assert (Hcl : OutputPattern.clamp (head - time) = (head - time)%Q).
    { unfold OutputPattern.clamp.
      destruct (Qltb (head - time) 0) eqn:E; [ | reflexivity ].
      apply Qltb_lt in E. lra. }
    split; [ intros Hc; lra | ]. intros _.
    rewrite Hcl in *.
    repeat split; auto.
    + now apply nth_error_list_set_eq.
    + apply Qnot_le_lt. intros Hc. apply Qle_bool_iff in Hc. congruence.
  - apply Hexp in Hr. split; [ now left | intros Hc; lra ].
  - apply Hexp in Hr. split; [ now left | intros Hc; lra ].
  - apply Hexp in Hr. split; [ now right | intros Hc; lra ].
Qed.

Lemma head_expiry_threshold_witness :
  OutputPattern.patternPt
    (fst (OutputPattern.reduceTimer
            (OutputPattern.init [(503 # 1000)%Q; (1 # 2)%Q] 1) (1 # 2)%Q))
  = 1%nat
  \/ OutputPattern.startOfRepeat
       (fst (OutputPattern.reduceTimer
               (OutputPattern.init [(503 # 1000)%Q; (1 # 2)%Q] 1) (1 # 2)%Q))
     = true.
Proof.
  assert (Hsmall : ((503 # 1000) - (1 # 2) < 1 # 200)%Q) by reflexivity.
  exact (proj1 (head_expiry_threshold
                  (OutputPattern.init [(503 # 1000)%Q; (1 # 2)%Q] 1)
                  (1 # 2)%Q (503 # 1000)%Q eq_refl eq_refl) Hsmall).
Defined.

(* ===================================================================== *)
(* SwitchPulser: a pattern that runs alone, with repeats                   *)
(* ===================================================================== *)

Lemma reduceTimer_repeat (p : OutputPattern.t) (h d0 : Q) :
  OutputPattern.patternSpent p = false ->
  nth_error (OutputPattern.timePattern p) (OutputPattern.patternPt p)
    = Some h ->
  (length (OutputPattern.timePattern p) <= S (OutputPattern.patternPt p))%nat ->
  (1 < OutputPattern.numReps p)%Z ->
  nth_error (OutputPattern.origTimePattern p) 0 = Some d0 ->
  OutputPattern.reduceTimer p h
  = (OutputPattern.mk (OutputPattern.origTimePattern p)
       (OutputPattern.origTimePattern p)
       (OutputPattern.numReps p - 1) 0%nat false true,
     Ok (Some d0)).
Proof.
  intros Hs Hh Hge Hn Hd0.
  destruct (reduceTimerP p h) as
    [ Hs' | Hs' Hh' | head Hs' Hh' Hr | head Hs' Hh' Hr Hlt'
    | head Hs' Hh' Hr Hge' Hn' | head Hs' Hh' Hr Hge' Hn' ];
    try congruence; try lia;
    rewrite Hh in Hh'; injection Hh' as <-.
  - rewrite head_waited_out_le in Hr. discriminate.
  - now rewrite Hd0.
Qed.

Lemma on_channel (ind : indicator) (self : SwitchPulser.t) (w : World)
    (q : OutputPattern.t) (b : bool) :
  SwitchPulser.patternArray self = [Some q] ->
  SwitchPulser.outputIndicator self = ind ->
  channel ind (wiimoteDevice w) = Some b ->
  exists w',
    SwitchPulser.turnIndicatorOn self ind w
    = (match ind with
       | RUMBLE => self
       | LED => SwitchPulser.withLEDMask self [Some true]
       end, w', Ok tt)
    /\ channel ind (wiimoteDevice w') = Some true
    /\ is_shutdown w' = is_shutdown w
    /\ trace w' = trace w ++ [EvOn].
Proof.
  intros Hpa Hind Hch. unfold SwitchPulser.turnIndicatorOn. rewrite Hpa.
  destruct w as [[rum leds] shut tr].
  destruct ind; cbn [channel wiimoteDevice WIIMote.rumble WIIMote.leds] in Hch.
  - eexists. split; [ reflexivity | ]. repeat split.
  - destruct leds as [ | b0 leds ]; [ discriminate | ].
    eexists. split; [ reflexivity | ]. repeat split.
Qed.

Lemma sweep_repeat (ind : indicator) (self : SwitchPulser.t) (w : World)
    (p : OutputPattern.t) (b : bool) (h d0 : Q) :
  running ind self w p b ->
  OutputPattern.patternSpent p = false ->
  nth_error (OutputPattern.timePattern p) (OutputPattern.patternPt p)
    = Some h ->
  (length (OutputPattern.timePattern p) <= S (OutputPattern.patternPt p))%nat ->
  (1 < OutputPattern.numReps p)%Z ->
  nth_error (OutputPattern.origTimePattern p) 0 = Some d0 ->
  exists self' w',
    SwitchPulser.steps 2 self w = (self', w')
    /\ running ind self' w'
         (OutputPattern.mk (OutputPattern.origTimePattern p)
            (OutputPattern.origTimePattern p)
            (OutputPattern.numReps p - 1) 0%nat false true)
         (negb (Qeq_bool d0 0))
    /\ trace w' = trace w ++ EvSleep h :: repeatStart d0.
Proof.
  intros Hrun Hs Hh Hge Hn Hd0.
  assert (Ht : OutputPattern.timeRemaining p = Ok (Some h)).
  { unfold OutputPattern.timeRemaining. now rewrite Hs, Hh. }
  cbn [SwitchPulser.steps].
  rewrite (step_to_sleep _ _ _ _ _ _ Hrun Ht).
  destruct Hrun as (Hpa & Hind & Hstop & Hpc & Hmask & Hshut & Hch).
  unfold SwitchPulser.step.
  cbn [SwitchPulser.pc SwitchPulser.withPc]. rewrite Hshut.
  unfold SwitchPulser.tick.
  cbn [SwitchPulser.patternArray SwitchPulser.withPc]. rewrite Hpa.
  cbn [length SwitchPulser.tickFrom SwitchPulser.patternArray
       SwitchPulser.withPc nth_error].
  rewrite Hpa. cbn [nth_error].
  rewrite (reduceTimer_repeat _ _ _ Hs Hh Hge Hn Hd0).
  cbn [OutputPattern.startOfRepeat list_set SwitchPulser.outputIndicator
       SwitchPulser.withPc SwitchPulser.withPatternArray].
  rewrite Hind.
  match goal with
  | |- context [SwitchPulser.turnIndicatorOn ?s ind ?w0] =>
    destruct (on_channel ind s w0 _ b eq_refl Hind Hch)
      as (w1 & Hon & Hch1 & Hshut1 & Htr1);
    rewrite Hon
  end.
  cbn [trace emit] in Htr1. cbn [is_shutdown emit] in Hshut1.
  unfold repeatStart.
  destruct (Qeq_bool d0 0) eqn:Ez.
  - match goal with
    | |- context [SwitchPulser.flipRumbleOrLED ?s 0 ?w0] =>
      destruct (flip_channel ind s w0 true) as (w2 & Hf & Hch2 & Hshut2 & Htr2);
        [ destruct ind; exact Hind | exact Hch1 | ]
    end.
    rewrite Hf.
    cbn [SwitchPulser.tickFrom].
    eexists. eexists. split; [ reflexivity | ].
    split.
    + destruct ind; repeat split; auto; try congruence.
    + rewrite Htr2, Htr1. rewrite <- !app_assoc. reflexivity.
  - cbn [SwitchPulser.tickFrom].
    eexists. eexists. split; [ reflexivity | ].
    split.
    + destruct ind; repeat split; auto; try congruence.
    + rewrite Htr1. rewrite <- !app_assoc. reflexivity.
Qed.

Lemma lone_pass (ind : indicator) (j : nat) :
  forall (self : SwitchPulser.t) (w : World) (p : OutputPattern.t)
         (b : bool) (d0 : Q),
    running ind self w p b ->
    OutputPattern.patternSpent p = false ->
    (1 < OutputPattern.numReps p)%Z ->
    nth_error (OutputPattern.origTimePattern p) 0 = Some d0 ->
    (length (OutputPattern.timePattern p) - OutputPattern.patternPt p
     = S j)%nat ->
    exists self' w',
      SwitchPulser.steps (2 * S j) self w = (self', w')
      /\ running ind self' w'
           (OutputPattern.mk (OutputPattern.origTimePattern p)
              (OutputPattern.origTimePattern p)
              (OutputPattern.numReps p - 1) 0%nat false true)
           (negb (Qeq_bool d0 0))
      /\ trace w'
         = trace w
           ++ pulse (skipn (OutputPattern.patternPt p)
                           (OutputPattern.timePattern p)) b
           ++ repeatStart d0.
Proof.
  induction j as [ | j IH ]; intros self w p b d0 Hrun Hs Hn Hd0 Hlen.
  - destruct (nth_error (OutputPattern.timePattern p)
                        (OutputPattern.patternPt p)) as [ h | ] eqn:Hh.
    2: { apply nth_error_None in Hh. lia. }
    assert (Hge : (length (OutputPattern.timePattern p)
                   <= S (OutputPattern.patternPt p))%nat) by lia.
    destruct (sweep_repeat ind self w p b h d0 Hrun Hs Hh Hge Hn Hd0) as
      (self' & w' & Hsteps & Hrun' & Htr).
    exists self', w'. split; [ exact Hsteps | ]. split; [ exact Hrun' | ].
    rewrite Htr, (skipn_nth_error _ _ _ Hh).
    assert (Hnil : skipn (S (OutputPattern.patternPt p))
                         (OutputPattern.timePattern p) = []).
    { apply skipn_all2. lia. }
    rewrite Hnil. reflexivity.
  - destruct (nth_error (OutputPattern.timePattern p)
                        (OutputPattern.patternPt p)) as [ h | ] eqn:Hh.
    2: { apply nth_error_None in Hh. lia. }
    destruct (sweep_advance _ _ _ _ _ _ Hrun Hs Hh) as
      (s1 & w1 & Hsteps & Hrun1 & Htr1); [ lia | ].
    replace (2 * S (S j))%nat with (2 + 2 * S j)%nat by lia.
    rewrite steps_add, Hsteps. cbn [fst snd].
    destruct (IH _ _ _ _ d0 Hrun1 eq_refl) as
      (self' & w' & Hsteps' & Hrun' & Htr).
    { exact Hn. }
    { exact Hd0. }
    { cbn [OutputPattern.timePattern OutputPattern.patternPt].
      rewrite length_list_set. lia. }
    exists self', w'. split; [ exact Hsteps' | ].
    split; [ exact Hrun' | ].
    rewrite Htr, Htr1.
    cbn [OutputPattern.timePattern OutputPattern.patternPt].
    rewrite skipn_list_set, (skipn_nth_error _ _ _ Hh).
    destruct (skipn (S (OutputPattern.patternPt p))
                    (OutputPattern.timePattern p)) as [ | d rest ] eqn:Hrest.
    { apply (f_equal (@length Q)) in Hrest.
      rewrite length_skipn in Hrest. simpl in Hrest. lia. }
    cbn [pulse]. rewrite <- !app_assoc. reflexivity.
Qed.

Lemma lone_run (ind : indicator) (l : list Q) (d0 : Q) (more : nat) :
  forall (self : SwitchPulser.t) (w : World) (p : OutputPattern.t)
         (b : bool),
    running ind self w p b ->
    OutputPattern.patternSpent p = false ->
    OutputPattern.patternPt p = 0%nat ->
    OutputPattern.timePattern p = l ->
    OutputPattern.origTimePattern p = l ->
    nth_error l 0 = Some d0 ->
    OutputPattern.numReps p = Z.of_nat (S more) ->
    exists self' w',
      SwitchPulser.steps (2 * length l * S more + 1) self w = (self', w')
      /\ SwitchPulser.pc self'
         = SwitchPulser.Finished (SwitchPulser.Raised SystemExit)
      /\ (exists p', SwitchPulser.patternArray self' = [Some p']
                     /\ OutputPattern.patternSpent p' = true)
      /\ trace w' = trace w ++ passes l d0 more b
      /\ channel ind (wiimoteDevice w') = Some false.
Proof.
  induction more as [ | more IH ];
    intros self w p b Hrun Hs Hpt Htp Horig Hd0 Hn.
  - assert (Hpos : (1 <= length l)%nat).
    { destruct l; [ discriminate | simpl; lia ]. }
    destruct (lone_loop ind (length l - 1) self w p b Hrun Hs) as
      (self' & w' & Hsteps & Hpc & Hp' & Htr & Hch).
    { rewrite Hn. simpl. lia. }
    { rewrite Htp, Hpt. lia. }
    exists self', w'.
    replace (2 * length l * 1 + 1)%nat with (2 * (length l - 1) + 3)%nat
      by lia.
    split; [ exact Hsteps | ]. split; [ exact Hpc | ].
    split; [ exact Hp' | ]. split; [ | exact Hch ].
    rewrite Htr, Hpt, Htp. reflexivity.
  - assert (Hpos : (1 <= length l)%nat).
    { destruct l; [ discriminate | simpl; lia ]. }
    destruct (lone_pass ind (length l - 1) self w p b d0 Hrun Hs) as
      (s1 & w1 & Hsteps1 & Hrun1 & Htr1).
    { rewrite Hn. lia. }
    { now rewrite Horig. }
    { rewrite Htp, Hpt. lia. }
    destruct (IH _ _ _ _ Hrun1 eq_refl eq_refl) as
      (self' & w' & Hsteps & Hpc & Hp' & Htr & Hch).
    { exact Horig. }
    { exact Horig. }
    { exact Hd0. }
    { cbn [OutputPattern.numReps]. rewrite Hn. lia. }
    exists self', w'.
    replace (2 * length l * S (S more) + 1)%nat
      with (2 * S (length l - 1) + (2 * length l * S more + 1))%nat by nia.
    rewrite steps_add, Hsteps1. cbn [fst snd].
    split; [ exact Hsteps | ]. split; [ exact Hpc | ].
    split; [ exact Hp' | ]. split; [ | exact Hch ].
    rewrite Htr, Htr1, Hpt, Htp. cbn [skipn passes].
    rewrite <- !app_assoc. reflexivity.
Qed.

Lemma sleepsOf_repeatStart (d0 : Q) : sleepsOf (repeatStart d0) = [].
Proof. unfold repeatStart. now destruct (Qeq_bool d0 0). Qed.

Lemma forcedOn_app (a b : list event) :
  forcedOn (a ++ b) = (forcedOn a + forcedOn b)%nat.
Proof.
  induction a as [ | [ | d | i s | ] a IH ]; simpl; auto.
Qed.

Lemma forcedOn_repeatStart (d0 : Q) : forcedOn (repeatStart d0) = 1%nat.
Proof. unfold repeatStart. now destruct (Qeq_bool d0 0). Qed.

Lemma forcedOn_pulse (l : list Q) : forall b, forcedOn (pulse l b) = 0%nat.
Proof.
  induction l as [ | d l IH ]; intros b; [ reflexivity | ].
  destruct l as [ | d' l ]; [ reflexivity | ].
  change (forcedOn (pulse (d' :: l) (negb b)) = 0%nat). apply IH.
Qed.

Lemma sleepsOf_passes (l : list Q) (d0 : Q) (more : nat) :
  forall b, sleepsOf (passes l d0 more b) = concat (repeat l (S more)).
Proof.
  induction more as [ | more IH ]; intros b; cbn [passes].
  - rewrite sleepsOf_app, sleepsOf_pulse. reflexivity.
  - rewrite !sleepsOf_app, sleepsOf_pulse, sleepsOf_repeatStart, IH.
    reflexivity.
Qed.

Lemma forcedOn_passes (l : list Q) (d0 : Q) (more : nat) :
  forall b, forcedOn (passes l d0 more b) = more.
Proof.
  induction more as [ | more IH ]; intros b; cbn [passes].
  - rewrite forcedOn_app, forcedOn_pulse. reflexivity.
  - rewrite !forcedOn_app, forcedOn_pulse, forcedOn_repeatStart, IH.
    reflexivity.
Qed.

(** A pattern with durations d0 .. dn-1 and repeat count k >= 1 that a
    pulser runs alone: the run ends by itself with the pattern spent; its
    waits are d0 .. dn-1, k times over, so the time to spent is k times
    the sum of the durations; the channel is forced on k times, once at
    the start and once as each repeat begins; and the channel is off at
    the end. *)
Theorem lone_pattern_with_repeats (d0 : Q) (rest : list Q) (more : nat)
    (ind : indicator) (dev : WIIMote.t) :
  (ind = LED -> WIIMote.leds dev <> []) ->
  let l := d0 :: rest in
  let r :=
    SwitchPulser.join
      (SwitchPulser.init
         [Some (OutputPattern.init l (Z.of_nat (S more)))] ind)
      (mkWorld dev false []) in
  SwitchPulser.pc (fst r)
  = SwitchPulser.Finished (SwitchPulser.Raised SystemExit)
  /\ (exists p', SwitchPulser.patternArray (fst r) = [Some p']
                 /\ OutputPattern.patternSpent p' = true)
  /\ trace (snd r) = EvOn :: passes l d0 more true
  /\ sleepsOf (trace (snd r)) = concat (repeat l (S more))
  /\ forcedOn (trace (snd r)) = S more
  /\ channel ind (wiimoteDevice (snd r)) = Some false.
Proof.
  intros Hleds l r.
  destruct (lone_start l (Z.of_nat (S more)) ind dev Hleds)
    as (s1 & w1 & Hstep & Hrun & Htr1).
  destruct (lone_run ind l d0 more s1 w1
                     (OutputPattern.init l (Z.of_nat (S more))) true
                     Hrun eq_refl eq_refl eq_refl eq_refl eq_refl eq_refl)
    as (self' & w' & Hsteps & Hpc & Hp' & Htr & Hch).
  assert (Hall :
    SwitchPulser.steps (S (2 * length l * S more + 1))
      (SwitchPulser.init
         [Some (OutputPattern.init l (Z.of_nat (S more)))] ind)
      (mkWorld dev false [])
    = (self', w')).
  { cbn [SwitchPulser.steps]. rewrite Hstep. exact Hsteps. }
  assert (Hr : r = (self', w')).
  { unfold r, SwitchPulser.join. rewrite <- Hall.
    apply finished_later.
    - unfold SwitchPulser.enoughSteps, SwitchPulser.owedAll,
        SwitchPulser.owed.
      cbn [SwitchPulser.patternArray SwitchPulser.init fold_right
           OutputPattern.patternSpent OutputPattern.init
           OutputPattern.numReps OutputPattern.origTimePattern
           OutputPattern.timePattern OutputPattern.patternPt].
      replace (Z.to_nat (Z.of_nat (S more) - 1)) with more by lia.
      nia.
    - rewrite Hall. simpl. eauto. }
  rewrite Hr. cbn [fst snd].
  assert (Htrace : trace w' = EvOn :: passes l d0 more true).
  { rewrite Htr, Htr1. reflexivity. }
  split; [ exact Hpc | ]. split; [ exact Hp' | ].
  split; [ exact Htrace | ].
  split; [ rewrite Htrace; cbn [sleepsOf]; apply sleepsOf_passes | ].
  split; [ | exact Hch ].
  rewrite Htrace. cbn [forcedOn]. now rewrite forcedOn_passes.
Qed.

Lemma lone_pattern_with_repeats_witness :
  forcedOn
    (trace (snd (SwitchPulser.join
                   (SwitchPulser.init
                      [Some (OutputPattern.init
                               [(1 # 2)%Q; (1 # 2)%Q] (Z.of_nat 2))]
                      LED)
                   (mkWorld (WIIMote.mk false [false; true; false; true])
                            false []))))
  = 2%nat.
Proof.
  assert (Hleds :
    LED = LED ->
    WIIMote.leds (WIIMote.mk false [false; true; false; true]) <> [])
    by (intros _; discriminate).
  exact (proj1 (proj2 (proj2 (proj2 (proj2
           (lone_pattern_with_repeats (1 # 2)%Q [(1 # 2)%Q] 1 LED
              (WIIMote.mk false [false; true; false; true]) Hleds)))))).
Defined.

(* ===================================================================== *)
(* SwitchPulser: the next wait                                             *)
(* ===================================================================== *)

Lemma pymin_le (acc : option Q) (h : Q) :
  (SwitchPulser.pymin acc h <= h)%Q
  /\ (forall a, acc = Some a -> (SwitchPulser.pymin acc h <= a)%Q).
Proof.
  unfold SwitchPulser.pymin. destruct acc as [ nd | ].
  - destruct (Qltb h nd) eqn:E.
    + apply Qltb_lt in E. split; [ apply Qle_refl | ].
      intros a Ha. injection Ha as <-. now apply Qlt_le_weak.
    + split.
      * apply Qnot_lt_le. intros Hc. apply Qltb_lt in Hc. congruence.
      * intros a Ha. injection Ha as <-. apply Qle_refl.
  - split; [ apply Qle_refl | discriminate ].
Qed.

Lemma nextDurationFrom_spec (pa : list (option OutputPattern.t)) :
  forall acc : option Q,
    match SwitchPulser.nextDurationFrom pa acc with
    | Ok (Some d) =>
      (forall a, acc = Some a -> (d <= a)%Q)
      /\ (forall i p h,
             nth_error pa i = Some (Some p) ->
             OutputPattern.timeRemaining p = Ok (Some h) ->
             (d <= h)%Q)
    | Ok None =>
      acc = None
      /\ (forall i p,
             nth_error pa i = Some (Some p) ->
             OutputPattern.timeRemaining p = Ok None)
    | Raise e =>
      e = IndexError
      /\ exists i p,
           nth_error pa i = Some (Some p)
           /\ OutputPattern.timeRemaining p = Raise IndexError
    end.
Proof.
  induction pa as [ | [ p | ] pa IH ]; intros acc; simpl.
  - destruct acc as [ a | ].
    + split.
      * intros a' Ha. injection Ha as <-. apply Qle_refl.
      * intros [ | i ] p h Hi; discriminate.
    + split; [ reflexivity | ]. intros [ | i ] p Hi; discriminate.
  - destruct (OutputPattern.timeRemaining p) as [ [ h | ] | e ] eqn:Et.
    + specialize (IH (Some (SwitchPulser.pymin acc h))).
      destruct (SwitchPulser.nextDurationFrom pa
                  (Some (SwitchPulser.pymin acc h))) as [ [ d | ] | e ].
      * destruct IH as [Hacc Hall].
        destruct (pymin_le acc h) as [Hh Ha].
        specialize (Hacc _ eq_refl).
        split.
        -- intros a Hacc'. apply Qle_trans with (SwitchPulser.pymin acc h);
             [ exact Hacc | now apply Ha ].
        -- intros [ | i ] q hq Hi Hq; simpl in Hi.
           ++ injection Hi as <-. rewrite Et in Hq. injection Hq as <-.
              now apply Qle_trans with (SwitchPulser.pymin acc h).
           ++ now apply (Hall i q hq).
      * destruct IH as [Hc _]. discriminate.
      * destruct IH as [He (i & q & Hi & Hq)].
        split; [ exact He | ]. now exists (S i), q.
    + specialize (IH acc).
      destruct (SwitchPulser.nextDurationFrom pa acc) as [ [ d | ] | e ].
      * destruct IH as [Hacc Hall]. split; [ exact Hacc | ].
        intros [ | i ] q hq Hi Hq; simpl in Hi.
        -- injection Hi as <-. congruence.
        -- now apply (Hall i q hq).
      * destruct IH as [Hacc Hall]. split; [ exact Hacc | ].
        intros [ | i ] q Hi; simpl in Hi.
        -- now injection Hi as <-.
        -- now apply (Hall i q).
      * destruct IH as [He (i & q & Hi & Hq)].
        split; [ exact He | ]. now exists (S i), q.
    + assert (He : e = IndexError).
      { unfold OutputPattern.timeRemaining in Et.
        destruct (OutputPattern.patternSpent p); [ discriminate | ].
        destruct (nth_error (OutputPattern.timePattern p)
                            (OutputPattern.patternPt p));
          [ discriminate | ].
        now injection Et as <-. }
      subst e. split; [ reflexivity | ].
      exists 0%nat, p. now split.
  - specialize (IH acc).
    destruct (SwitchPulser.nextDurationFrom pa acc) as [ [ d | ] | e ].
    + destruct IH as [Hacc Hall]. split; [ exact Hacc | ].
      intros [ | i ] q hq Hi Hq; simpl in Hi; [ discriminate | ].
      now apply (Hall i q hq).
    + destruct IH as [Hacc Hall]. split; [ exact Hacc | ].
      intros [ | i ] q Hi; simpl in Hi; [ discriminate | ].
      now apply (Hall i q).
    + destruct IH as [He (i & q & Hi & Hq)].
      split; [ exact He | ]. now exists (S i), q.
Qed.

(** The wait the sweep chooses is the least head time: it is the head of
    some slot's unspent pattern and no unspent head is smaller.  The
    sweep finds nothing to wait for exactly when every pattern there is
    is spent, and the only way the search fails is IndexError, at a
    pattern whose cursor is outside its sequence. *)
Theorem nextDuration_is_least_head (pa : list (option OutputPattern.t)) :
  match SwitchPulser.nextDurationFrom pa None with
  | Ok (Some d) =>
    (exists i p,
        nth_error pa i = Some (Some p)
        /\ OutputPattern.timeRemaining p = Ok (Some d))
    /\ (forall i p h,
           nth_error pa i = Some (Some p) ->
           OutputPattern.timeRemaining p = Ok (Some h) ->
           (d <= h)%Q)
  | Ok None =>
    forall i p,
      nth_error pa i = Some (Some p) -> OutputPattern.patternSpent p = true
  | Raise e =>
    e = IndexError
    /\ exists i p,
         nth_error pa i = Some (Some p)
         /\ OutputPattern.patternSpent p = false
         /\ (length (OutputPattern.timePattern p)
             <= OutputPattern.patternPt p)%nat
  end.
Proof.
  pose proof (nextDurationFrom_spec pa None) as Hspec.
  pose proof (nextDurationFrom_head pa None) as Hhead.
  destruct (SwitchPulser.nextDurationFrom pa None) as [ [ d | ] | e ].
  - destruct Hspec as [_ Hall]. split; [ | exact Hall ].
    destruct (Hhead d eq_refl) as [ Hc | H ]; [ discriminate | exact H ].
  - destruct Hspec as [_ Hall]. intros i p Hi.
    specialize (Hall i p Hi). unfold OutputPattern.timeRemaining in Hall.
    destruct (OutputPattern.patternSpent p); [ reflexivity | ].
    destruct (nth_error (OutputPattern.timePattern p)
                        (OutputPattern.patternPt p)); discriminate.
  - destruct Hspec as [He (i & p & Hi & Hp)]. split; [ exact He | ].
    exists i, p. split; [ exact Hi | ].
    unfold OutputPattern.timeRemaining in Hp.
    destruct (OutputPattern.patternSpent p); [ discriminate | ].
    split; [ reflexivity | ].
    destruct (nth_error (OutputPattern.timePattern p)
                        (OutputPattern.patternPt p)) eqn:Eh;
      [ discriminate | ].
    now apply nth_error_None.
Qed.

(* ===================================================================== *)
(* SwitchPulser: flipping a channel                                        *)
(* ===================================================================== *)

Lemma nth_error_flip_mask (index j : nat) (v : bool) (b : bool) :
  (index < 4)%nat ->
  match nth_error (list_set [@None bool; None; None; None] index (Some v)) j
  with
  | Some (Some x) => x
  | _ => b
  end = if (j =? index)%nat then v else b.
Proof.
  intros Hi.
  destruct index as [ | [ | [ | [ | index ] ] ] ]; try lia;
    destruct j as [ | [ | [ | [ | [ | j ] ] ] ] ]; reflexivity.
Qed.

Lemma applyMask_flip (leds : list bool) (index : nat) (v : bool) :
  (index < 4)%nat ->
  WIIMote.applyMask leds
    (list_set [@None bool; None; None; None] index (Some v))
  = list_set leds index v.
Proof.
  intros Hi. apply nth_error_ext. intros j.
  rewrite nth_error_applyMask.
  destruct (nth_error leds j) as [ b | ] eqn:Ej.
  - rewrite (nth_error_flip_mask index j v b Hi).
    destruct (Nat.eqb_spec j index) as [ -> | Hne ].
    + rewrite nth_error_list_set_eq; [ reflexivity | ].
      apply nth_error_Some. congruence.
    + rewrite nth_error_list_set_ne by congruence. now rewrite Ej.
  - symmetry. apply nth_error_None. rewrite length_list_set.
    now apply nth_error_None.
Qed.

Lemma list_set_twice {A : Type} (l : list A) :
  forall (i : nat) (u v : A),
    list_set (list_set l i u) i v = list_set l i v.
Proof.
  induction l as [ | a l IH ]; intros [ | i ] u v; simpl; auto.
  now rewrite IH.
Qed.

Lemma list_set_same {A : Type} (l : list A) :
  forall (i : nat) (v : A), nth_error l i = Some v -> list_set l i v = l.
Proof.
  induction l as [ | a l IH ]; intros [ | i ] v H; simpl in *;
    try discriminate.
  - now injection H as ->.
  - now rewrite IH.
Qed.

(** flipLED raises IndexError for an index that is not below 4 or not
    below the number of LEDs the device reports, and writes nothing
    then.  Otherwise it sets exactly that LED to the opposite of its
    state and leaves rumble and the other LEDs alone; and flipping the
    same LED once more brings the device back to where it was. *)
Theorem flipLED_flips_one (index : nat) (w : World) :
  ((4 <= index)%nat \/ (length (WIIMote.leds (wiimoteDevice w)) <= index)%nat ->
   SwitchPulser.flipLED index w = (w, Raise IndexError))
  /\ (forall b,
         (index < 4)%nat ->
         nth_error (WIIMote.leds (wiimoteDevice w)) index = Some b ->
         let w1 := fst (SwitchPulser.flipLED index w) in
         snd (SwitchPulser.flipLED index w) = Ok tt
         /\ WIIMote.leds (wiimoteDevice w1)
            = list_set (WIIMote.leds (wiimoteDevice w)) index (negb b)
         /\ WIIMote.rumble (wiimoteDevice w1)
            = WIIMote.rumble (wiimoteDevice w)
         /\ snd (SwitchPulser.flipLED index w1) = Ok tt
         /\ wiimoteDevice (fst (SwitchPulser.flipLED index w1))
            = wiimoteDevice w).
Proof.
  split.
  - intros Hout. unfold SwitchPulser.flipLED, WIIMote.getLEDs.
    destruct (nth_error (WIIMote.leds (wiimoteDevice w)) index) eqn:E;
      [ | reflexivity ].
    destruct (Nat.ltb_spec index (length [@None bool; None; None; None]))
      as [ Hlt | Hge ]; [ | reflexivity ].
    simpl in Hlt. destruct Hout as [ H4 | Hlen ]; [ lia | ].
    apply nth_error_None in Hlen. congruence.
  - intros b Hi Hb.
    assert (Hlt : (index <? length [@None bool; None; None; None])%nat = true).
    { apply Nat.ltb_lt. simpl. exact Hi. }
    assert (Hin : (index < length (WIIMote.leds (wiimoteDevice w)))%nat).
    { apply nth_error_Some. congruence. }
    assert (E1 :
      SwitchPulser.flipLED index w
      = (emit (withDevice w
                 (WIIMote.setLEDs (wiimoteDevice w)
                    (list_set [@None bool; None; None; None] index
                              (Some (negb b)))))
              (EvFlip index (negb b)), Ok tt)).
    { unfold SwitchPulser.flipLED, WIIMote.getLEDs. rewrite Hb, Hlt.
      reflexivity. }
    rewrite E1. cbn [fst snd].
    cbn [wiimoteDevice emit withDevice WIIMote.leds WIIMote.rumble
         WIIMote.setLEDs].
    rewrite (applyMask_flip _ _ _ Hi).
    split; [ reflexivity | ]. split; [ reflexivity | ].
    split; [ reflexivity | ].
    unfold SwitchPulser.flipLED, WIIMote.getLEDs.
    cbn [wiimoteDevice emit withDevice WIIMote.leds WIIMote.rumble
         WIIMote.setLEDs].
    rewrite (applyMask_flip _ _ _ Hi).
    rewrite (nth_error_list_set_eq _ _ _ Hin), Hlt.
    cbn [fst snd wiimoteDevice emit withDevice WIIMote.leds WIIMote.rumble
         WIIMote.setLEDs].
    split; [ reflexivity | ].
    unfold WIIMote.setLEDs. cbn [WIIMote.leds WIIMote.rumble].
    rewrite !(applyMask_flip _ _ _ Hi), list_set_twice, negb_involutive.
    rewrite (list_set_same _ _ _ Hb).
    now destruct (wiimoteDevice w).
Qed.

Lemma flipLED_flips_one_witness :
  WIIMote.leds
    (wiimoteDevice
       (fst (SwitchPulser.flipLED 2
               (mkWorld (WIIMote.mk false [false; true; false; true])
                        false []))))
  = list_set [false; true; false; true] 2 (negb false).
Proof.
  assert (H4 : (2 < 4)%nat) by lia.
  exact (proj1 (proj2
    (proj2 (flipLED_flips_one 2
              (mkWorld (WIIMote.mk false [false; true; false; true])
                       false []))
           false H4 eq_refl))).
Defined.

(* ===================================================================== *)
(* SwitchPulser: how run() ends                                            *)
(* ===================================================================== *)

Lemma pulserInv_steps (ind0 : indicator) (pres0 leds0 : list bool)
    (n : nat) :
  forall (self : SwitchPulser.t) (w : World),
    pulserInv ind0 pres0 leds0 self w ->
    pulserInv ind0 pres0 leds0 (fst (SwitchPulser.steps n self w))
                               (snd (SwitchPulser.steps n self w)).
Proof.
  induction n as [ | n IH ]; intros self w Hinv; [ exact Hinv | ].
  cbn [SwitchPulser.steps].
  destruct (SwitchPulser.step self w) as [s1 w1] eqn:E.
  apply IH. exact (proj1 (pulserInv_step _ _ _ _ _ _ _ Hinv E)).
Qed.

(** After join() the thread has ended and the finally block has left its
    channels off. *)
Lemma join_switchedOff (ind0 : indicator) (pres0 leds0 : list bool)
    (self : SwitchPulser.t) (w : World) :
  pulserInv ind0 pres0 leds0 self w ->
  (exists o,
      SwitchPulser.pc (fst (SwitchPulser.join self w))
      = SwitchPulser.Finished o)
  /\ switchedOff ind0 pres0 (snd (SwitchPulser.join self w))
  /\ framed ind0 pres0 leds0 (fst (SwitchPulser.join self w))
            (snd (SwitchPulser.join self w)).
Proof.
  intros Hinv.
  destruct (join_terminates self w) as [o Ho].
  pose proof (pulserInv_steps ind0 pres0 leds0
                (SwitchPulser.enoughSteps self) self w Hinv) as [Hf Hpc].
  fold (SwitchPulser.join self w) in Hf, Hpc.
  rewrite Ho in Hpc. split; [ eauto | ]. now split.
Qed.

Lemma finally_rumble (self : SwitchPulser.t) (w : World)
    (pending : SwitchPulser.outcome) :
  SwitchPulser.outputIndicator self = RUMBLE ->
  SwitchPulser.pc (fst (SwitchPulser.finally self w pending))
  = SwitchPulser.Finished (SwitchPulser.Raised SystemExit).
Proof.
  intros Hind. unfold SwitchPulser.finally. now rewrite Hind.
Qed.

Lemma rumble_outcome_step (pres0 leds0 : list bool)
    (self : SwitchPulser.t) (w : World) :
  pulserInv RUMBLE pres0 leds0 self w ->
  (forall o, SwitchPulser.pc self = SwitchPulser.Finished o ->
             o = SwitchPulser.Raised SystemExit) ->
  forall o,
    SwitchPulser.pc (fst (SwitchPulser.step self w))
    = SwitchPulser.Finished o ->
    o = SwitchPulser.Raised SystemExit.
Proof.
  intros [Hf Hpc] Hold o.
  pose proof Hf as (Hind & _).
  unfold SwitchPulser.step.
  destruct (SwitchPulser.pc self) as [ | | d | o' ] eqn:Epc.
  - destruct (Hpc eq_refl) as [p Hp].
    unfold SwitchPulser.turnIndicatorOn. rewrite Hind, Hp. simpl.
    discriminate.
  - destruct (is_shutdown w || SwitchPulser.stop self)%bool.
    { rewrite (finally_rumble _ _ _ Hind). congruence. }
    destruct (SwitchPulser.nextDurationFrom
                (SwitchPulser.patternArray self) None) as [ [ nd | ] | e ].
    + simpl. discriminate.
    + rewrite (finally_rumble _ _ _ Hind). congruence.
    + rewrite (finally_rumble _ _ _ Hind). congruence.
  - destruct (is_shutdown w).
    { rewrite (finally_rumble _ _ _ Hind). congruence. }
    unfold SwitchPulser.tick.
    destruct (SwitchPulser.tickFrom
                (length (SwitchPulser.patternArray self)) 0 self d
                (emit w (EvSleep d))) as [[s1 w1] r] eqn:Et.
    assert (Hsw : sweeping RUMBLE pres0 leds0 self (emit w (EvSleep d))).
    { split; [ exact Hf | discriminate ]. }
    destruct (sweeping_tickFrom _ _ _ _ _ _ _ _ _ _ _ Hsw Et)
      as [[(Hind1 & _) _] _].
    destruct r as [ [] | e ].
    + simpl. discriminate.
    + rewrite (finally_rumble _ _ _ Hind1). congruence.
  - simpl. rewrite Epc. apply Hold.
Qed.

Lemma rumble_outcome_exec (pres0 leds0 : list bool)
    (schedule : list SwitchPulser.action) :
  forall (self : SwitchPulser.t) (w : World),
    pulserInv RUMBLE pres0 leds0 self w ->
    (forall o, SwitchPulser.pc self = SwitchPulser.Finished o ->
               o = SwitchPulser.Raised SystemExit) ->
    forall o,
      SwitchPulser.pc (fst (SwitchPulser.exec schedule self w))
      = SwitchPulser.Finished o ->
      o = SwitchPulser.Raised SystemExit.
Proof.
  induction schedule as [ | a rest IH ]; intros self w Hinv Hold o;
    [ exact (Hold o) | ].
  cbn [SwitchPulser.exec].
  destruct (SwitchPulser.act a self w) as [s1 w1] eqn:Ea.
  apply IH.
  - exact (pulserInv_act _ _ _ a self s1 w w1 Hinv Ea).
  - destruct a; simpl in Ea.
    + pose proof (rumble_outcome_step pres0 leds0 self w Hinv Hold) as H.
      rewrite Ea in H. exact H.
    + injection Ea as <- <-. exact Hold.
    + injection Ea as <- <-. exact Hold.
Qed.

(** A rumble pulser thread ends with SystemExit whatever ended its
    sweep: the exit(0) of the finally block replaces an exception raised
    in the sweep, so no error of a rumble sweep reaches whoever started
    the thread. *)
Theorem rumble_run_ends_with_SystemExit
    (patterns : list (option OutputPattern.t)) (w : World)
    (schedule : list SwitchPulser.action) (o : SwitchPulser.outcome) :
  (exists p, nth_error patterns 0 = Some (Some p)) ->
  SwitchPulser.pc
    (fst (SwitchPulser.exec schedule
            (SwitchPulser.init patterns RUMBLE) w))
  = SwitchPulser.Finished o ->
  o = SwitchPulser.Raised SystemExit.
Proof.
  intros Hstart.
  apply (rumble_outcome_exec (presence patterns)
           (WIIMote.leds (wiimoteDevice w)) schedule).
  - apply pulserInv_init. intros _. exact Hstart.
  - simpl. discriminate.
Qed.

Lemma rumble_run_ends_with_SystemExit_witness :
  SwitchPulser.pc
    (fst (SwitchPulser.exec
            [SwitchPulser.ThreadStep; SwitchPulser.ThreadStep]
            (SwitchPulser.init [Some (OutputPattern.init [] 1)] RUMBLE)
            (mkWorld (WIIMote.mk false [false; false; false; false])
                     false [])))
  = SwitchPulser.Finished (SwitchPulser.Raised SystemExit).
Proof.
  assert (Hstart :
    exists p,
      nth_error [Some (OutputPattern.init [] 1)] 0 = Some (Some p)).
  { eexists. reflexivity. }
  assert (Hend :
    exists o,
      SwitchPulser.pc
        (fst (SwitchPulser.exec
                [SwitchPulser.ThreadStep; SwitchPulser.ThreadStep]
                (SwitchPulser.init [Some (OutputPattern.init [] 1)] RUMBLE)
                (mkWorld (WIIMote.mk false [false; false; false; false])
                         false [])))
      = SwitchPulser.Finished o).
  { eexists. reflexivity. }
  destruct Hend as [o Ho].
  rewrite Ho. f_equal.
  exact (rumble_run_ends_with_SystemExit
           [Some (OutputPattern.init [] 1)]
           (mkWorld (WIIMote.mk false [false; false; false; false]) false [])
           [SwitchPulser.ThreadStep; SwitchPulser.ThreadStep] o Hstart Ho).
Defined.

(** A rumble pulser whose first slot holds no pattern does not run:
    turnIndicatorOn raises ValueError (IndexError for an empty array)
    before the try statement is entered, so the thread ends at once,
    nothing is written to the device and the finally block is not run. *)
Theorem rumble_without_pattern_fails_at_start
    (patterns : list (option OutputPattern.t)) (w : World) :
  (nth_error patterns 0 = Some None ->
   SwitchPulser.join (SwitchPulser.init patterns RUMBLE) w
   = (SwitchPulser.withPc (SwitchPulser.init patterns RUMBLE)
        (SwitchPulser.Finished (SwitchPulser.Raised ValueError)), w))
  /\ (patterns = [] ->
      SwitchPulser.join (SwitchPulser.init patterns RUMBLE) w
      = (SwitchPulser.withPc (SwitchPulser.init patterns RUMBLE)
           (SwitchPulser.Finished (SwitchPulser.Raised IndexError)), w)).
Proof.
  assert (Hgen :
    forall e,
      SwitchPulser.step (SwitchPulser.init patterns RUMBLE) w
      = (SwitchPulser.withPc (SwitchPulser.init patterns RUMBLE)
           (SwitchPulser.Finished (SwitchPulser.Raised e)), w) ->
      SwitchPulser.join (SwitchPulser.init patterns RUMBLE) w
      = (SwitchPulser.withPc (SwitchPulser.init patterns RUMBLE)
           (SwitchPulser.Finished (SwitchPulser.Raised e)), w)).
  { intros e He. unfold SwitchPulser.join, SwitchPulser.enoughSteps.
    replace (2 * SwitchPulser.owedAll
                   (SwitchPulser.patternArray
                      (SwitchPulser.init patterns RUMBLE)) + 3)%nat
      with (S (2 * SwitchPulser.owedAll
                      (SwitchPulser.patternArray
                         (SwitchPulser.init patterns RUMBLE)) + 2))%nat
      by lia.
    cbn [SwitchPulser.steps]. rewrite He.
    now apply (steps_Finished _ _ _ (SwitchPulser.Raised e)). }
  split; intros H; apply Hgen; unfold SwitchPulser.step;
    cbn [SwitchPulser.pc SwitchPulser.init SwitchPulser.outputIndicator];
    unfold SwitchPulser.turnIndicatorOn;
    change (SwitchPulser.patternArray (SwitchPulser.init patterns RUMBLE))
      with patterns.
  - now rewrite H.
  - now rewrite H.
Qed.

Lemma rumble_without_pattern_fails_at_start_witness :
  SwitchPulser.join
    (SwitchPulser.init [None; Some (OutputPattern.init [(1 # 2)%Q] 1)] RUMBLE)
    (mkWorld (WIIMote.mk true [false; false; false; false]) false [])
  = (SwitchPulser.withPc
       (SwitchPulser.init
          [None; Some (OutputPattern.init [(1 # 2)%Q] 1)] RUMBLE)
       (SwitchPulser.Finished (SwitchPulser.Raised ValueError)),
     mkWorld (WIIMote.mk true [false; false; false; false]) false []).
Proof.
  exact (proj1 (rumble_without_pattern_fails_at_start
                  [None; Some (OutputPattern.init [(1 # 2)%Q] 1)]
                  (mkWorld (WIIMote.mk true [false; false; false; false])
                           false []))
               eq_refl).
Defined.

(* ===================================================================== *)
(* SwitchPulser: pattern sets that run to their end                        *)
(* ===================================================================== *)

Lemma turnIndicatorOn_ready (ind : indicator) (self : SwitchPulser.t)
    (w : World) :
  SwitchPulser.outputIndicator self = ind ->
  Forall ready (SwitchPulser.patternArray self) ->
  fits ind (length (SwitchPulser.patternArray self))
       (length (WIIMote.leds (wiimoteDevice w))) ->
  exists self' w',
    SwitchPulser.turnIndicatorOn self ind w = (self', w', Ok tt)
    /\ SwitchPulser.patternArray self' = SwitchPulser.patternArray self
    /\ SwitchPulser.outputIndicator self' = ind
    /\ SwitchPulser.stop self' = SwitchPulser.stop self
    /\ SwitchPulser.pc self' = SwitchPulser.pc self
    /\ length (WIIMote.leds (wiimoteDevice w'))
       = length (WIIMote.leds (wiimoteDevice w))
    /\ is_shutdown w' = is_shutdown w.
Proof.
  intros Hind Hready Hfits. unfold SwitchPulser.turnIndicatorOn.
  destruct ind.
  - destruct (SwitchPulser.patternArray self) as [ | slot pa ] eqn:Hpa;
      [ simpl in Hfits; lia | ].
    inversion Hready as [ | ? ? (p & -> & _) _ ]; subst.
    cbn [nth_error]. eexists. eexists. split; [ reflexivity | ].
    repeat split; auto.
  - eexists. eexists. split; [ reflexivity | ].
    repeat split; auto. simpl. apply length_applyMask.
Qed.

Lemma flip_ready (ind : indicator) (self : SwitchPulser.t) (index : nat)
    (w : World) :
  SwitchPulser.outputIndicator self = ind ->
  (index < length (SwitchPulser.patternArray self))%nat ->
  fits ind (length (SwitchPulser.patternArray self))
       (length (WIIMote.leds (wiimoteDevice w))) ->
  exists w',
    SwitchPulser.flipRumbleOrLED self index w = (w', Ok tt)
    /\ length (WIIMote.leds (wiimoteDevice w'))
       = length (WIIMote.leds (wiimoteDevice w))
    /\ is_shutdown w' = is_shutdown w.
Proof.
  intros Hind Hidx Hfits. unfold SwitchPulser.flipRumbleOrLED.
  rewrite Hind. destruct ind.
  - eexists. split; [ reflexivity | ]. now split.
  - destruct Hfits as [H4 Hleds].
    unfold SwitchPulser.flipLED, WIIMote.getLEDs.
    destruct (nth_error (WIIMote.leds (wiimoteDevice w)) index) as [ b | ]
      eqn:Eb.
    2: { apply nth_error_None in Eb. lia. }
    assert (Hlt : (index <? length [@None bool; None; None; None])%nat = true).
    { apply Nat.ltb_lt. simpl. lia. }
    rewrite Hlt. eexists. split; [ reflexivity | ].
    split; [ | reflexivity ].
    simpl. apply length_applyMask.
Qed.

Lemma ready_reduceTimer (pattern : OutputPattern.t) (d : Q) :
  wellFormed pattern ->
  exists reduced,
    OutputPattern.reduceTimer pattern d
    = (fst (OutputPattern.reduceTimer pattern d), Ok reduced)
    /\ wellFormed (fst (OutputPattern.reduceTimer pattern d)).
Proof.
  intros Hwf.
  destruct (wellFormed_reduceTimer_ok pattern d Hwf) as [r Hr].
  exists r. split.
  - destruct (OutputPattern.reduceTimer pattern d) as [p' res].
    simpl in *. now subst.
  - now apply wellFormed_reduceTimer.
Qed.

Lemma tickFrom_ready (ind : indicator) (n : nat) :
  forall (idx : nat) (self : SwitchPulser.t) (d : Q) (w : World),
    SwitchPulser.outputIndicator self = ind ->
    Forall ready (SwitchPulser.patternArray self) ->
    fits ind (length (SwitchPulser.patternArray self))
         (length (WIIMote.leds (wiimoteDevice w))) ->
    exists self' w',
      SwitchPulser.tickFrom n idx self d w = (self', w', Ok tt)
      /\ SwitchPulser.outputIndicator self' = ind
      /\ Forall ready (SwitchPulser.patternArray self')
      /\ length (SwitchPulser.patternArray self')
         = length (SwitchPulser.patternArray self)
      /\ length (WIIMote.leds (wiimoteDevice w'))
         = length (WIIMote.leds (wiimoteDevice w))
      /\ SwitchPulser.stop self' = SwitchPulser.stop self
      /\ is_shutdown w' = is_shutdown w.
Proof.
  induction n as [ | n IH ]; intros idx self d w Hind Hready Hfits.
  { exists self, w. now repeat split. }
  cbn [SwitchPulser.tickFrom].
  destruct (nth_error (SwitchPulser.patternArray self) idx)
    as [ slot | ] eqn:Hp.
  2: { exists self, w. now repeat split. }
  assert (Hslot : ready slot).
  { rewrite Forall_forall in Hready. apply Hready.
    now apply nth_error_In with idx. }
  destruct Hslot as (pattern & -> & Hwf).
  assert (Hidx : (idx < length (SwitchPulser.patternArray self))%nat).
  { apply nth_error_Some. congruence. }
  destruct (ready_reduceTimer pattern d Hwf) as (reduced & Ered & Hwf').
  rewrite Ered.
  set (pattern' := fst (OutputPattern.reduceTimer pattern d)) in *.
  set (self1 := SwitchPulser.withPatternArray self
                  (list_set (SwitchPulser.patternArray self) idx
                            (Some pattern'))).
  assert (Hready1 : Forall ready (SwitchPulser.patternArray self1)).
  { unfold self1. cbn [SwitchPulser.patternArray SwitchPulser.withPatternArray].
    apply Forall_list_set; [ exact Hready | ]. now exists pattern'. }
  assert (Hlen1 : length (SwitchPulser.patternArray self1)
                  = length (SwitchPulser.patternArray self)).
  { unfold self1. cbn [SwitchPulser.patternArray SwitchPulser.withPatternArray].
    apply length_list_set. }
  assert (Hon :
    exists self2 w2,
      (if OutputPattern.startOfRepeat pattern'
       then SwitchPulser.turnIndicatorOn self1
              (SwitchPulser.outputIndicator self1) w
       else (self1, w, Ok tt)) = (self2, w2, Ok tt)
      /\ SwitchPulser.patternArray self2 = SwitchPulser.patternArray self1
      /\ SwitchPulser.outputIndicator self2 = ind
      /\ SwitchPulser.stop self2 = SwitchPulser.stop self
      /\ length (WIIMote.leds (wiimoteDevice w2))
         = length (WIIMote.leds (wiimoteDevice w))
      /\ is_shutdown w2 = is_shutdown w).
  { destruct (OutputPattern.startOfRepeat pattern').
    - change (SwitchPulser.outputIndicator self1)
        with (SwitchPulser.outputIndicator self).
      rewrite Hind.
      destruct (turnIndicatorOn_ready ind self1 w Hind Hready1) as
        (self2 & w2 & E & Hpa & Hi & Hst & _ & Hl & Hsh).
      { now rewrite Hlen1. }
      exists self2, w2. now repeat split.
    - exists self1, w. now repeat split. }
  destruct Hon as (self2 & w2 & Eon & Hpa2 & Hind2 & Hstop2 & Hleds2 & Hsh2).
  rewrite Eon.
  assert (Hrec :
    forall w3,
      length (WIIMote.leds (wiimoteDevice w3))
      = length (WIIMote.leds (wiimoteDevice w)) ->
      is_shutdown w3 = is_shutdown w ->
      exists self' w',
        SwitchPulser.tickFrom n (S idx) self2 d w3 = (self', w', Ok tt)
        /\ SwitchPulser.outputIndicator self' = ind
        /\ Forall ready (SwitchPulser.patternArray self')
        /\ length (SwitchPulser.patternArray self')
           = length (SwitchPulser.patternArray self)
        /\ length (WIIMote.leds (wiimoteDevice w'))
           = length (WIIMote.leds (wiimoteDevice w))
        /\ SwitchPulser.stop self' = SwitchPulser.stop self
        /\ is_shutdown w' = is_shutdown w).
  { intros w3 Hl3 Hs3.
    destruct (IH (S idx) self2 d w3 Hind2) as
      (self' & w' & E & Hi & Hr & Hl & Hd & Hst & Hsh).
    { now rewrite Hpa2. }
    { rewrite Hpa2, Hlen1, Hl3. exact Hfits. }
    exists self', w'. repeat split; auto; congruence. }
  destruct reduced as [ rt | ]; [ | now apply Hrec ].
  destruct (Qeq_bool rt 0); [ | now apply Hrec ].
  destruct (flip_ready ind self2 idx w2 Hind2) as (w3 & Ef & Hl3 & Hs3).
  { rewrite Hpa2, Hlen1. exact Hidx. }
  { rewrite Hpa2, Hlen1, Hleds2. exact Hfits. }
  rewrite Ef. apply Hrec; congruence.
Qed.

Lemma ready_timeRemaining (pa : list (option OutputPattern.t)) :
  Forall ready pa ->
  (exists nd, SwitchPulser.nextDurationFrom pa None = Ok (Some nd))
  \/ (SwitchPulser.nextDurationFrom pa None = Ok None
      /\ forall i p,
           nth_error pa i = Some (Some p) ->
           OutputPattern.patternSpent p = true).
Proof.
  intros Hready.
  pose proof (nextDurationFrom_spec pa None) as Hspec.
  destruct (SwitchPulser.nextDurationFrom pa None) as [ [ nd | ] | e ].
  - left. eauto.
  - right. split; [ reflexivity | ]. destruct Hspec as [_ Hall].
    intros i p Hi. specialize (Hall i p Hi).
    unfold OutputPattern.timeRemaining in Hall.
    destruct (OutputPattern.patternSpent p); [ reflexivity | ].
    destruct (nth_error (OutputPattern.timePattern p)
                        (OutputPattern.patternPt p)); discriminate.
  - exfalso. destruct Hspec as [_ (i & p & Hi & Hp)].
    rewrite Forall_forall in Hready.
    destruct (Hready (Some p)) as (q & Hq & Hwf).
    { now apply nth_error_In with i. }
    injection Hq as <-.
    destruct (OutputPattern.patternSpent p) eqn:Es.
    + unfold OutputPattern.timeRemaining in Hp. rewrite Es in Hp.
      discriminate.
    + destruct (wellFormed_timeRemaining p Hwf Es) as [d Hd]. congruence.
Qed.

Lemma finally_patternArray (self : SwitchPulser.t) (w : World)
    (pending : SwitchPulser.outcome) :
  SwitchPulser.patternArray (fst (SwitchPulser.finally self w pending))
  = SwitchPulser.patternArray self
  /\ SwitchPulser.outputIndicator (fst (SwitchPulser.finally self w pending))
     = SwitchPulser.outputIndicator self
  /\ SwitchPulser.stop (fst (SwitchPulser.finally self w pending))
     = SwitchPulser.stop self
  /\ is_shutdown (snd (SwitchPulser.finally self w pending)) = is_shutdown w
  /\ length (WIIMote.leds
               (wiimoteDevice (snd (SwitchPulser.finally self w pending))))
     = length (WIIMote.leds (wiimoteDevice w))
  /\ SwitchPulser.pc (fst (SwitchPulser.finally self w pending))
     = SwitchPulser.Finished
         (match SwitchPulser.outputIndicator self with
          | RUMBLE => SwitchPulser.Raised SystemExit
          | LED => pending
          end).
Proof.
  unfold SwitchPulser.finally.
  destruct (SwitchPulser.outputIndicator self) eqn:E; simpl;
    repeat split; auto using length_applyMask.
Qed.

Lemma unattended_step (ind : indicator) (self : SwitchPulser.t) (w : World) :
  unattended ind self w ->
  unattended ind (fst (SwitchPulser.step self w))
                 (snd (SwitchPulser.step self w)).
Proof.
  intros (Hind & Hstop & Hshut & Hready & Hfits & Hend).
  unfold SwitchPulser.step.
  destruct (SwitchPulser.pc self) as [ | | d | o ] eqn:Epc.
  - destruct (turnIndicatorOn_ready ind self w Hind Hready Hfits) as
      (s1 & w1 & E & Hpa & Hi & Hst & Hpc1 & Hl & Hsh).
    rewrite Hind, E. cbn [fst snd].
    unfold unattended.
    cbn [SwitchPulser.outputIndicator SwitchPulser.stop
         SwitchPulser.patternArray SwitchPulser.pc SwitchPulser.withPc].
    rewrite Hpa, Hl. repeat split; auto; try congruence; discriminate.
  - rewrite Hshut, Hstop. cbn [orb].
    destruct (ready_timeRemaining _ Hready) as [ [nd End] | [End Hall] ];
      rewrite End.
    + cbn [fst snd]. unfold unattended.
      cbn [SwitchPulser.outputIndicator SwitchPulser.stop
           SwitchPulser.patternArray SwitchPulser.pc SwitchPulser.withPc].
      repeat split; auto; discriminate.
    + destruct (finally_patternArray self w
                  (SwitchPulser.Raised SystemExit))
        as (Hpa & Hi & Hst & Hsh & Hl & Hpc').
      unfold unattended. rewrite Hpa, Hi, Hst, Hsh, Hl, Hpc'.
      split; [ exact Hind | ]. split; [ exact Hstop | ].
      split; [ exact Hshut | ]. split; [ exact Hready | ].
      split; [ exact Hfits | ].
      intros o Ho. split; [ | exact Hall ].
      injection Ho as <-.
      now destruct (SwitchPulser.outputIndicator self).
  - rewrite Hshut. unfold SwitchPulser.tick.
    destruct (tickFrom_ready ind (length (SwitchPulser.patternArray self)) 0
                             self d (emit w (EvSleep d)) Hind Hready Hfits)
      as (s1 & w1 & E & Hi & Hr & Hlen & Hl & Hst & Hsh).
    rewrite E. cbn [fst snd]. unfold unattended.
    cbn [SwitchPulser.outputIndicator SwitchPulser.stop
         SwitchPulser.patternArray SwitchPulser.pc SwitchPulser.withPc].
    cbn [is_shutdown emit wiimoteDevice] in Hsh, Hl.
    rewrite Hlen, Hl.
    repeat split; auto; try congruence; discriminate.
  - cbn [fst snd]. unfold unattended. rewrite Epc.
    split; [ exact Hind | ]. split; [ exact Hstop | ].
    split; [ exact Hshut | ]. split; [ exact Hready | ].
    split; [ exact Hfits | ].
    intros o0 Ho. injection Ho as <-. now apply Hend.
Qed.

Lemma unattended_steps (ind : indicator) (n : nat) :
  forall (self : SwitchPulser.t) (w : World),
    unattended ind self w ->
    unattended ind (fst (SwitchPulser.steps n self w))
                   (snd (SwitchPulser.steps n self w)).
Proof.
  induction n as [ | n IH ]; intros self w H; [ exact H | ].
  cbn [SwitchPulser.steps].
  pose proof (unattended_step ind self w H) as H1.
  destruct (SwitchPulser.step self w) as [s1 w1]. now apply IH.
Qed.

(** Pattern sets as the callbacks build them run to their natural end.
    Every slot holds a pattern built from a non-empty sequence (any
    repeat counts), a rumble set has its slot 0, an LED set has at most 4
    slots and no more than the device has LEDs, and nobody stops the
    thread: then run() raises nothing in the sweep; it ends through the
    exit(0) taken when nothing is left to wait for, with every pattern
    spent. *)
Theorem constructed_patterns_run_to_completion
    (specs : list (list Q * Z)) (ind : indicator) (w : World) :
  Forall (fun s => fst s <> []) specs ->
  is_shutdown w = false ->
  fits ind (length specs) (length (WIIMote.leds (wiimoteDevice w))) ->
  let r :=
    SwitchPulser.join
      (SwitchPulser.init
         (map (fun s => Some (OutputPattern.init (fst s) (snd s))) specs)
         ind)
      w in
  SwitchPulser.pc (fst r)
  = SwitchPulser.Finished (SwitchPulser.Raised SystemExit)
  /\ Forall (fun slot =>
               exists p, slot = Some p
                         /\ OutputPattern.patternSpent p = true)
            (SwitchPulser.patternArray (fst r)).
Proof.
  intros Hne Hshut Hfits r.
  set (self0 :=
         SwitchPulser.init
           (map (fun s => Some (OutputPattern.init (fst s) (snd s))) specs)
           ind) in *.
  assert (H0 : unattended ind self0 w).
  { unfold unattended, self0.
    cbn [SwitchPulser.outputIndicator SwitchPulser.stop
         SwitchPulser.patternArray SwitchPulser.pc SwitchPulser.init].
    rewrite length_map.
    repeat split; auto; try discriminate.
    rewrite Forall_forall in *. intros slot Hin.
    apply in_map_iff in Hin. destruct Hin as (s & <- & Hs).
    eexists. split; [ reflexivity | ].
    apply wellFormed_init. now apply Hne. }
  pose proof (unattended_steps ind (SwitchPulser.enoughSteps self0)
                               self0 w H0) as H.
  fold (SwitchPulser.join self0 w) in H. fold r in H.
  destruct (join_terminates self0 w) as [o Ho]. fold r in Ho.
  destruct H as (_ & _ & _ & Hready & _ & Hend).
  destruct (Hend o Ho) as [-> Hspent].
  split; [ exact Ho | ].
  rewrite Forall_forall in *. intros slot Hin.
  destruct (Hready slot Hin) as (p & -> & _).
  exists p. split; [ reflexivity | ].
  destruct (In_nth_error _ _ Hin) as [i Hi]. now apply (Hspent i).
Qed.

Lemma constructed_patterns_run_to_completion_witness :
  SwitchPulser.pc
    (fst (SwitchPulser.join
            (SwitchPulser.init
               (map (fun s => Some (OutputPattern.init (fst s) (snd s)))
                    [([(1 # 5)%Q; (3 # 10)%Q], 1%Z); ([1%Q], 3%Z)])
               LED)
            (mkWorld (WIIMote.mk false [false; true; false; true])
                     false [])))
  = SwitchPulser.Finished (SwitchPulser.Raised SystemExit).
Proof.
  assert (Hne : Forall (fun s : list Q * Z => fst s <> [])
                       [([(1 # 5)%Q; (3 # 10)%Q], 1%Z); ([1%Q], 3%Z)]).
  { repeat constructor; discriminate. }
  assert (Hfits :
    fits LED
      (length [([(1 # 5)%Q; (3 # 10)%Q], 1%Z); ([1%Q], 3%Z)])
      (length (WIIMote.leds
                 (wiimoteDevice
                    (mkWorld (WIIMote.mk false [false; true; false; true])
                             false []))))).
  { simpl. lia. }
  exact (proj1 (constructed_patterns_run_to_completion
                  [([(1 # 5)%Q; (3 # 10)%Q], 1%Z); ([1%Q], 3%Z)] LED
                  (mkWorld (WIIMote.mk false [false; true; false; true])
                           false [])
                  Hne eq_refl Hfits)).
Defined.

(* ===================================================================== *)
(* WiimoteListeners: pattern requests                                      *)
(* ===================================================================== *)

Lemma steps_exec (n : nat) :
  forall (self : SwitchPulser.t) (w : World),
    SwitchPulser.steps n self w
    = SwitchPulser.exec (repeat SwitchPulser.ThreadStep n) self w.
Proof.
  induction n as [ | n IH ]; intros self w; [ reflexivity | ].
  simpl. destruct (SwitchPulser.step self w) as [s1 w1]. apply IH.
Qed.

(** A rumble pulse request with a repeat count other than 0 returns with
    the motor off, whatever the pattern (an empty one included), the
    repeat count and the state of the node: the callback has started the
    pulser and waited for it, and the pulser has ended, with SystemExit,
    through its finally block. *)
Theorem pulse_request_ends_off
    (SWITCH_ON SWITCH_OFF SWITCH_PULSE_PATTERN : Z)
    (self : WiimoteListeners.t) (msg : WiimoteListeners.TimedSwitch)
    (w : World) :
  WiimoteListeners.switch_mode msg <> SWITCH_ON ->
  WiimoteListeners.switch_mode msg <> SWITCH_OFF ->
  WiimoteListeners.switch_mode msg = SWITCH_PULSE_PATTERN ->
  WiimoteListeners.num_cycles msg <> 0%Z ->
  let r :=
    WiimoteListeners.rumbleSwitchCallback
      SWITCH_ON SWITCH_OFF SWITCH_PULSE_PATTERN self msg w in
  WIIMote.rumble (wiimoteDevice (snd (fst r))) = false
  /\ (exists th,
         WiimoteListeners.pulserThread (fst (fst r)) = Some th
         /\ SwitchPulser.pc th
            = SwitchPulser.Finished (SwitchPulser.Raised SystemExit))
  /\ snd r
     = snd (WiimoteListeners.stopPulser self w)
       ++ [WiimoteListeners.CallStart; WiimoteListeners.CallJoin].
Proof.
  intros Hon Hoff Hpp Hcycles r.
  apply Z.eqb_neq in Hon, Hoff, Hcycles. apply Z.eqb_eq in Hpp.
  unfold r, WiimoteListeners.rumbleSwitchCallback.
  destruct (WiimoteListeners.stopPulser self w) as [[self1 w1] calls].
  rewrite Hon, Hoff, Hpp, Hcycles. cbn [negb snd].
  set (th0 :=
         SwitchPulser.init
           [Some (OutputPattern.init (WiimoteListeners.pulse_pattern msg)
                                     (WiimoteListeners.num_cycles msg))]
           RUMBLE).
  assert (Hinv : pulserInv RUMBLE (presence (SwitchPulser.patternArray th0))
                           (WIIMote.leds (wiimoteDevice w1)) th0 w1).
  { apply pulserInv_init. intros _. eexists. reflexivity. }
  destruct (join_switchedOff _ _ _ _ _ Hinv) as ([o Ho] & Hoff' & _).
  assert (Hexit : o = SwitchPulser.Raised SystemExit).
  { unfold SwitchPulser.join in Ho. rewrite steps_exec in Ho.
    apply (rumble_outcome_exec _ _ _ th0 w1 Hinv) in Ho; [ exact Ho | ].
    simpl. discriminate. }
  subst o.
  destruct (SwitchPulser.join th0 w1) as [th' w2].
  cbn [fst snd WiimoteListeners.pulserThread] in *.
  split; [ exact Hoff' | ]. split; [ | reflexivity ].
  exists th'. now split.
Qed.

Lemma pulse_request_ends_off_witness :
  WIIMote.rumble
    (wiimoteDevice
       (snd (fst (WiimoteListeners.rumbleSwitchCallback 1 0 (-1)
                    (WiimoteListeners.mk None)
                    (WiimoteListeners.mkTimedSwitch (-1) 2
                       [(1 # 2)%Q; (1 # 2)%Q])
                    (mkWorld (WIIMote.mk true [false; false; false; false])
                             false [])))))
  = false.
Proof.
  assert (H1 : WiimoteListeners.switch_mode
                 (WiimoteListeners.mkTimedSwitch (-1) 2
                    [(1 # 2)%Q; (1 # 2)%Q]) <> 1%Z)
    by (simpl; lia).
  assert (H2 : WiimoteListeners.switch_mode
                 (WiimoteListeners.mkTimedSwitch (-1) 2
                    [(1 # 2)%Q; (1 # 2)%Q]) <> 0%Z)
    by (simpl; lia).
  assert (H3 : WiimoteListeners.num_cycles
                 (WiimoteListeners.mkTimedSwitch (-1) 2
                    [(1 # 2)%Q; (1 # 2)%Q]) <> 0%Z)
    by (simpl; lia).
  exact (proj1
    (pulse_request_ends_off 1 0 (-1)
       (WiimoteListeners.mk None)
       (WiimoteListeners.mkTimedSwitch (-1) 2 [(1 # 2)%Q; (1 # 2)%Q])
       (mkWorld (WIIMote.mk true [false; false; false; false]) false [])
       H1 H2 eq_refl H3)).
Defined.

Lemma presence_of_switches (tsa : list WiimoteListeners.TimedSwitch) (i : nat) :
  nth_error
    (presence
       (map (fun timedSwitch : WiimoteListeners.TimedSwitch =>
               Some (OutputPattern.init
                       (WiimoteListeners.pulse_pattern timedSwitch)
                       (WiimoteListeners.num_cycles timedSwitch)))
            tsa)) i
  = if (i <? length tsa)%nat then Some true else None.
Proof.
  rewrite nth_error_presence, nth_error_map.
  destruct (Nat.ltb_spec i (length tsa)) as [ Hlt | Hge ].
  - destruct (nth_error tsa i) eqn:E; [ reflexivity | ].
    apply nth_error_None in E. lia.
  - assert (E : nth_error tsa i = None) by now apply nth_error_None.
    now rewrite E.
Qed.

(** An LED pattern request (first entry of switch_array is -1) returns
    with the pulser it started ended and with every LED that has a timed
    switch (the first NUM_LEDS of them) off, whatever the patterns and
    repeat counts; the LEDs beyond the timed switches are as they were.
    The callback asks for a start and a join and nothing else. *)
Theorem led_pattern_request_ends_off (self : WiimoteListeners.t)
    (msg : WiimoteListeners.LEDControl) (w : World) (rest : list Z) :
  WiimoteListeners.switch_array msg = (-1)%Z :: rest ->
  exists th w' o,
    WiimoteListeners.ledControlCallback self msg w
    = Ok (WiimoteListeners.mk (Some th), w',
          [WiimoteListeners.CallStart; WiimoteListeners.CallJoin])
    /\ SwitchPulser.pc th = SwitchPulser.Finished o
    /\ forall i : nat,
         (i < NUM_LEDS)%nat ->
         (i < length (WIIMote.leds (wiimoteDevice w)))%nat ->
         nth_error (WIIMote.leds (wiimoteDevice w')) i
         = if (i <? length (WiimoteListeners.timed_switch_array msg))%nat
           then Some false
           else nth_error (WIIMote.leds (wiimoteDevice w)) i.
Proof.
  intros Harr. unfold WiimoteListeners.ledControlCallback. rewrite Harr.
  cbn [Z.eqb negb].
  change ((-1 =? -1)%Z) with true. cbn [negb].
  set (patterns :=
         map (fun timedSwitch : WiimoteListeners.TimedSwitch =>
                Some (OutputPattern.init
                        (WiimoteListeners.pulse_pattern timedSwitch)
                        (WiimoteListeners.num_cycles timedSwitch)))
             (WiimoteListeners.timed_switch_array msg)).
  assert (Hinv : pulserInv LED (presence patterns)
                           (WIIMote.leds (wiimoteDevice w))
                           (SwitchPulser.init patterns LED) w).
  { apply pulserInv_init. discriminate. }
  destruct (join_switchedOff _ _ _ _ _ Hinv)
    as ([o Ho] & Hoff & (_ & _ & Hlen & Habs)).
  destruct (SwitchPulser.join (SwitchPulser.init patterns LED) w)
    as [th w'].
  cbn [fst snd] in *.
  exists th, w', o. split; [ reflexivity | ]. split; [ exact Ho | ].
  intros i Hi Hlt.
  pose proof (presence_of_switches
                (WiimoteListeners.timed_switch_array msg) i) as Hp.
  fold patterns in Hp.
  destruct (i <? length (WiimoteListeners.timed_switch_array msg))%nat.
  - apply Hoff; [ exact Hi | lia | exact Hp ].
  - apply Habs. rewrite Hp. discriminate.
Qed.

Lemma led_pattern_request_ends_off_witness :
  exists th w' o,
    WiimoteListeners.ledControlCallback (WiimoteListeners.mk None)
      (WiimoteListeners.mkLEDControl
         [(-1)%Z; 0%Z; 0%Z; 0%Z]
         [WiimoteListeners.mkTimedSwitch 0 2 [(1 # 2)%Q; (1 # 2)%Q]])
      (mkWorld (WIIMote.mk false [true; true; false; true]) false [])
    = Ok (WiimoteListeners.mk (Some th), w',
          [WiimoteListeners.CallStart; WiimoteListeners.CallJoin])
    /\ SwitchPulser.pc th = SwitchPulser.Finished o
    /\ nth_error (WIIMote.leds (wiimoteDevice w')) 0 = Some false.
Proof.
  destruct (led_pattern_request_ends_off (WiimoteListeners.mk None)
              (WiimoteListeners.mkLEDControl
                 [(-1)%Z; 0%Z; 0%Z; 0%Z]
                 [WiimoteListeners.mkTimedSwitch 0 2 [(1 # 2)%Q; (1 # 2)%Q]])
              (mkWorld (WIIMote.mk false [true; true; false; true]) false [])
              [0%Z; 0%Z; 0%Z] eq_refl)
    as (th & w' & o & E & Ho & Hleds).
  exists th, w', o. split; [ exact E | ]. split; [ exact Ho | ].
  apply (Hleds 0%nat); unfold NUM_LEDS; simpl; lia.
Defined.

(* ===================================================================== *)
(* SwitchPulser: forcing on, and the tick as a whole                       *)
(* ===================================================================== *)

Lemma nth_error_onMask (pa : list (option OutputPattern.t)) (i : nat) :
  match nth_error (SwitchPulser.onMask pa) i with
  | Some (Some v) =>
    v = true /\ (i < NUM_LEDS)%nat /\ exists p, nth_error pa i = Some (Some p)
  | _ =>
    (NUM_LEDS <= i)%nat \/ nth_error pa i = Some None \/ nth_error pa i = None
  end.
Proof.
  rewrite onMask_maskOf, nth_error_maskOf, nth_error_presence.
  destruct (Nat.ltb_spec i NUM_LEDS) as [ Hlt | Hge ]; [ | now left ].
  destruct (nth_error pa i) as [ [ p | ] | ]; simpl.
  - repeat split; eauto.
  - right. now left.
  - right. now right.
Qed.

(** turnIndicatorOn for LEDs never fails and switches on every LED, among
    the first NUM_LEDS, whose slot holds a pattern, spent or not, and not
    only the LED whose pattern begins a repeat; all other LEDs, rumble
    and the patterns are left as they are. *)
Theorem turnIndicatorOn_LED_switches_all (self : SwitchPulser.t) (w : World) :
  let r := SwitchPulser.turnIndicatorOn self LED w in
  snd r = Ok tt
  /\ SwitchPulser.patternArray (fst (fst r)) = SwitchPulser.patternArray self
  /\ WIIMote.rumble (wiimoteDevice (snd (fst r)))
     = WIIMote.rumble (wiimoteDevice w)
  /\ forall (i : nat) (b : bool),
       nth_error (WIIMote.leds (wiimoteDevice w)) i = Some b ->
       nth_error (WIIMote.leds (wiimoteDevice (snd (fst r)))) i
       = Some (match nth_error (SwitchPulser.patternArray self) i with
               | Some (Some _) => if (i <? NUM_LEDS)%nat then true else b
               | _ => b
               end).
Proof.
  cbv zeta. unfold SwitchPulser.turnIndicatorOn.
  cbn [fst snd SwitchPulser.patternArray SwitchPulser.withLEDMask
       wiimoteDevice emit withDevice WIIMote.rumble WIIMote.leds
       WIIMote.setLEDs].
  repeat split.
  intros i b Hb. rewrite nth_error_applyMask, Hb. f_equal.
  pose proof (nth_error_onMask (SwitchPulser.patternArray self) i) as Hm.
  destruct (nth_error (SwitchPulser.onMask (SwitchPulser.patternArray self)) i)
    as [ [ v | ] | ].
  - destruct Hm as (-> & Hlt & p & Hp). rewrite Hp.
    apply Nat.ltb_lt in Hlt. now rewrite Hlt.
  - destruct Hm as [ Hge | [ Hp | Hp ] ]; try now rewrite Hp.
    destruct (nth_error (SwitchPulser.patternArray self) i) as [ [ p | ] | ];
      try reflexivity.
    destruct (Nat.ltb_spec i NUM_LEDS); [ lia | reflexivity ].
  - destruct Hm as [ Hge | [ Hp | Hp ] ]; try now rewrite Hp.
    destruct (nth_error (SwitchPulser.patternArray self) i) as [ [ p | ] | ];
      try reflexivity.
    destruct (Nat.ltb_spec i NUM_LEDS); [ lia | reflexivity ].
Qed.

Lemma turnIndicatorOn_LED_switches_all_witness :
  nth_error
    (WIIMote.leds
       (wiimoteDevice
          (snd (fst (SwitchPulser.turnIndicatorOn
                       (SwitchPulser.init
                          [Some (OutputPattern.init [(1 # 2)%Q] 1); None]
                          LED)
                       LED
                       (mkWorld (WIIMote.mk false [false; false; true; true])
                                false []))))))
    0
  = Some true.
Proof.
  exact (proj2 (proj2 (proj2
    (turnIndicatorOn_LED_switches_all
       (SwitchPulser.init [Some (OutputPattern.init [(1 # 2)%Q] 1); None] LED)
       (mkWorld (WIIMote.mk false [false; false; true; true]) false []))))
    0%nat false eq_refl).
Defined.

(** The channels advance in lockstep: a tick that completes has called
    reduceTimer exactly once on every slot, with the same wait, and there
    was a pattern in every slot; the kind of the pulser and its stop flag
    are untouched by it. *)
Theorem tick_is_lockstep (self self' : SwitchPulser.t) (d : Q)
    (w w' : World) :
  SwitchPulser.tick self d w = (self', w', Ok tt) ->
  SwitchPulser.patternArray self'
  = map (option_map (fun p => fst (OutputPattern.reduceTimer p d)))
        (SwitchPulser.patternArray self)
  /\ Forall (fun slot => slot <> None) (SwitchPulser.patternArray self)
  /\ exists mid, trace w' = trace w ++ mid /\ sleepsOf mid = [].
Proof.
  intros H. split; [ exact (tick_ok _ _ _ _ _ H) | ]. split.
  - rewrite Forall_forall. intros slot Hin ->.
    destruct (In_nth_error _ _ Hin) as [j Hj].
    assert (Hlt : (j < length (SwitchPulser.patternArray self))%nat)
      by (apply nth_error_Some; congruence).
    destruct (tickFrom_absent (length (SwitchPulser.patternArray self)) 0
                              self d w j) as [e He];
      [ lia | lia | exact Hj | ].
    unfold SwitchPulser.tick in H. rewrite H in He. discriminate.
  - unfold SwitchPulser.tick in H.
    revert H. generalize (length (SwitchPulser.patternArray self)) at 1.
    generalize 0%nat. intros idx n. revert idx self w.
    induction n as [ | n IH ]; intros idx self w H.
    { injection H as <- <-. exists []. now rewrite app_nil_r. }
    cbn [SwitchPulser.tickFrom] in H.
    destruct (nth_error (SwitchPulser.patternArray self) idx)
      as [ [ pattern | ] | ]; [ | discriminate | ].
    2: { injection H as <- <-. exists []. now rewrite app_nil_r. }
    destruct (OutputPattern.reduceTimer pattern d) as [ pattern' reduced ].
    destruct reduced as [ reduced | e ]; [ | discriminate ].
    set (self1 := SwitchPulser.withPatternArray self
                    (list_set (SwitchPulser.patternArray self) idx
                              (Some pattern'))) in *.
    assert (Hon :
      forall s2 w2 on,
        (if OutputPattern.startOfRepeat pattern'
         then SwitchPulser.turnIndicatorOn self1
                (SwitchPulser.outputIndicator self1) w
         else (self1, w, Ok tt)) = (s2, w2, on) ->
        exists mid, trace w2 = trace w ++ mid /\ sleepsOf mid = []).
    { intros s2 w2 on Hon.
      destruct (OutputPattern.startOfRepeat pattern').
      - unfold SwitchPulser.turnIndicatorOn in Hon.
        destruct (SwitchPulser.outputIndicator self1);
          [ destruct (nth_error (SwitchPulser.patternArray self1) 0)
              as [ [ ? | ] | ] | ];
          injection Hon as _ <- _;
          first [ now exists [EvOn]
                | exists []; now rewrite app_nil_r ].
      - injection Hon as _ <- _. exists []. now rewrite app_nil_r. }
    destruct (if OutputPattern.startOfRepeat pattern'
              then SwitchPulser.turnIndicatorOn self1
                     (SwitchPulser.outputIndicator self1) w
              else (self1, w, Ok tt)) as [[self2 w2] on] eqn:Eon.
    destruct (Hon _ _ _ eq_refl) as (mid2 & Htr2 & Hs2).
    destruct on as [ [] | e ]; [ | discriminate ].
    assert (Hrec :
      forall w3 mid3,
        trace w3 = trace w ++ mid3 -> sleepsOf mid3 = [] ->
        SwitchPulser.tickFrom n (S idx) self2 d w3 = (self', w', Ok tt) ->
        exists mid, trace w' = trace w ++ mid /\ sleepsOf mid = []).
    { intros w3 mid3 H3 Hs3 Hrec.
      destruct (IH _ _ _ Hrec) as (mid4 & H4 & Hs4).
      exists (mid3 ++ mid4). split.
      - now rewrite H4, H3, app_assoc.
      - now rewrite sleepsOf_app, Hs3, Hs4. }
    destruct reduced as [ rt | ]; [ | exact (Hrec w2 mid2 Htr2 Hs2 H) ].
    destruct (Qeq_bool rt 0); [ | exact (Hrec w2 mid2 Htr2 Hs2 H) ].
    destruct (SwitchPulser.flipRumbleOrLED self2 idx w2) as [w3 rf] eqn:Ef.
    destruct rf as [ [] | e ]; [ | discriminate ].
    assert (Hf : exists m, trace w3 = trace w2 ++ m /\ sleepsOf m = []).
    { unfold SwitchPulser.flipRumbleOrLED, SwitchPulser.flipLED in Ef.
      destruct (SwitchPulser.outputIndicator self2).
      - injection Ef as <-. eexists. split; reflexivity.
      - destruct (nth_error (WIIMote.getLEDs (wiimoteDevice w2)) idx);
          [ | discriminate ].
        destruct (idx <? length [@None bool; None; None; None])%nat;
          [ | discriminate ].
        injection Ef as <-. eexists. split; reflexivity. }
    destruct Hf as (m & Hm & Hsm).
    apply (Hrec w3 (mid2 ++ m)); [ | | exact H ].
    + now rewrite Hm, Htr2, app_assoc.
    + now rewrite sleepsOf_app, Hs2, Hsm.
Qed.

Lemma tick_is_lockstep_witness :
  SwitchPulser.patternArray
    (fst (fst (SwitchPulser.tick
                 (SwitchPulser.init
                    [Some (OutputPattern.init [(1 # 5)%Q; (3 # 10)%Q] 1);
                     Some (OutputPattern.init [1%Q] 3)]
                    LED)
                 (1 # 5)%Q
                 (mkWorld (WIIMote.mk false [true; true; false; true])
                          false []))))
  = map (option_map
           (fun p => fst (OutputPattern.reduceTimer p (1 # 5)%Q)))
        [Some (OutputPattern.init [(1 # 5)%Q; (3 # 10)%Q] 1);
         Some (OutputPattern.init [1%Q] 3)].
Proof.
  exact (proj1
    (tick_is_lockstep
       (SwitchPulser.init
          [Some (OutputPattern.init [(1 # 5)%Q; (3 # 10)%Q] 1);
           Some (OutputPattern.init [1%Q] 3)]
          LED)
       _ (1 # 5)%Q
       (mkWorld (WIIMote.mk false [true; true; false; true]) false [])
       _ eq_refl)).
Defined.

(* ===================================================================== *)
(* WiiSender: the LED and IR fields of the message                         *)
(* ===================================================================== *)

Lemma within_false (indx i : nat) :
  (indx <=? i)%nat && (i <? indx + 0)%nat = false.
Proof.
  destruct (Nat.leb_spec indx i); destruct (Nat.ltb_spec i (indx + 0));
    simpl; auto; lia.
Qed.

Lemma within_step (indx n i : nat) :
  (indx <=? i)%nat && (i <? indx + S n)%nat
  = (i =? indx)%nat || ((S indx <=? i)%nat && (i <? S indx + n)%nat).
Proof.
  destruct (Nat.eqb_spec i indx); destruct (Nat.leb_spec indx i);
    destruct (Nat.leb_spec (S indx) i);
    destruct (Nat.ltb_spec i (indx + S n));
    destruct (Nat.ltb_spec i (S indx + n)); simpl; auto; lia.
Qed.

Lemma ledsFrom_ok (n : nat) :
  forall (indx : nat) (ledStates : list bool) (LEDs : list Z),
    (indx + n <= length ledStates)%nat ->
    exists LEDs',
      WiiSender.ledsFrom n indx ledStates LEDs = (LEDs', Ok tt)
      /\ length LEDs' = length LEDs
      /\ forall i,
           (i < length LEDs)%nat ->
           nth_error LEDs' i
           = if (indx <=? i)%nat && (i <? indx + n)%nat
             then option_map (fun state : bool => if state then 1%Z else 0%Z)
                             (nth_error ledStates i)
             else nth_error LEDs i.
Proof.
  induction n as [ | n IH ]; intros indx ledStates LEDs Hs.
  - exists LEDs. repeat split. intros i _. now rewrite within_false.
  - cbn [WiiSender.ledsFrom].
    destruct (nth_error ledStates indx) as [ state | ] eqn:Hst.
    2: { apply nth_error_None in Hst. lia. }
    destruct (IH (S indx) ledStates
                 (list_set LEDs indx (if state then 1%Z else 0%Z)))
      as (LEDs' & Hrun & Hlen & Hnth); [ lia | ].
    rewrite length_list_set in Hlen.
    exists LEDs'. repeat split; auto.
    intros i Hi. rewrite Hnth by (rewrite length_list_set; exact Hi).
    rewrite within_step.
    destruct (Nat.eqb_spec i indx) as [ -> | Hne ]; cbn [orb].
    + destruct (Nat.leb_spec (S indx) indx); [ lia | ]. cbn [andb].
      now rewrite nth_error_list_set_eq, Hst by exact Hi.
    + destruct ((S indx <=? i)%nat && (i <? S indx + n)%nat); auto.
      apply nth_error_list_set_ne. congruence.
Qed.

Lemma ledsFrom_short (n : nat) :
  forall (indx : nat) (ledStates : list bool) (LEDs : list Z),
    (indx <= length ledStates < indx + n)%nat ->
    snd (WiiSender.ledsFrom n indx ledStates LEDs) = Raise IndexError.
Proof.
  induction n as [ | n IH ]; intros indx ledStates LEDs Hs; [ lia | ].
  cbn [WiiSender.ledsFrom].
  destruct (nth_error ledStates indx) as [ state | ] eqn:Hst;
    [ | reflexivity ].
  apply IH.
  assert (indx < length ledStates)%nat by (apply nth_error_Some; congruence).
  lia.
Qed.

(** The LEDs field of a wiimote message reports the device: when the
    device has at least as many LED states as the field has entries, the
    loop leaves in the field the first states, 1 for on and 0 for off,
    whatever the field held before; with fewer states the loop raises
    IndexError. *)
Theorem fillLEDs_reports_device (ledStates : list bool) (LEDs : list Z) :
  ((length LEDs <= length ledStates)%nat ->
   WiiSender.fillLEDs ledStates LEDs
   = (map (fun state : bool => if state then 1%Z else 0%Z)
          (firstn (length LEDs) ledStates), Ok tt))
  /\ ((length ledStates < length LEDs)%nat ->
      snd (WiiSender.fillLEDs ledStates LEDs) = Raise IndexError).
Proof.
  unfold WiiSender.fillLEDs. split; intros H.
  - destruct (ledsFrom_ok (length LEDs) 0 ledStates LEDs)
      as (LEDs' & -> & Hlen & Hnth); [ simpl; lia | ].
    f_equal. apply nth_error_ext. intros i.
    rewrite nth_error_map, nth_error_firstn.
    destruct (Nat.ltb_spec i (length LEDs)) as [ Hlt | Hge ].
    + rewrite Hnth by exact Hlt. cbn [Nat.leb andb Nat.add].
      apply Nat.ltb_lt in Hlt. now rewrite Hlt.
    + cbn [option_map]. apply nth_error_None. lia.
  - apply ledsFrom_short. lia.
Qed.

Lemma fillLEDs_reports_device_witness :
  WiiSender.fillLEDs [true; false; false; true] [7%Z; 7%Z; 7%Z; 7%Z]
  = ([1%Z; 0%Z; 0%Z; 1%Z], Ok tt).
Proof.
  exact (proj1 (fillLEDs_reports_device [true; false; false; true]
                                        [7%Z; 7%Z; 7%Z; 7%Z])
               (Nat.le_refl 4)).
Defined.

Lemma nth_error_store {A : Type} (l l' : list A) (i : nat) (v : A) :
  WiiSender.store l i v = Ok l' ->
  length l' = length l
  /\ forall j, nth_error l' j = if (j =? i)%nat then Some v else nth_error l j.
Proof.
  unfold WiiSender.store.
  destruct (Nat.ltb_spec i (length l)) as [ Hlt | ]; [ | discriminate ].
  intros [= <-]. split; [ apply length_list_set | ].
  intros j. destruct (Nat.eqb_spec j i) as [ -> | Hne ].
  - now apply nth_error_list_set_eq.
  - apply nth_error_list_set_ne. congruence.
Qed.

Lemma store_ok {A : Type} (l : list A) (i : nat) (v : A) :
  (i < length l)%nat -> WiiSender.store l i v = Ok (list_set l i v).
Proof.
  intros H. unfold WiiSender.store. apply Nat.ltb_lt in H. now rewrite H.
Qed.

Lemma irBody_ok (i : nat) (irSources : list (option WiiSender.IRSource))
    (ir_positions : list WiiSender.Point) (ir_sizes : list Q)
    (source : option WiiSender.IRSource) (before : Q) :
  nth_error irSources i = Some source ->
  nth_error ir_sizes i = Some before ->
  (i < length ir_positions)%nat ->
  exists ir_positions' ir_sizes',
    WiiSender.irBody i irSources ir_positions ir_sizes
    = (ir_positions', ir_sizes', Ok tt)
    /\ length ir_positions' = length ir_positions
    /\ length ir_sizes' = length ir_sizes
    /\ (forall j,
          nth_error ir_positions' j
          = if (j =? i)%nat then Some (irPosition source)
            else nth_error ir_positions j)
    /\ (forall j,
          nth_error ir_sizes' j
          = if (j =? i)%nat then Some (irSize source before)
            else nth_error ir_sizes j).
Proof.
  intros Hsrc Hsz Hp.
  assert (Hs : (i < length ir_sizes)%nat)
    by (apply nth_error_Some; congruence).
  assert (Hkeep :
    forall j, nth_error ir_sizes j
              = if (j =? i)%nat then Some before else nth_error ir_sizes j).
  { intros j. destruct (Nat.eqb_spec j i) as [ -> | ]; auto. }
  unfold WiiSender.irBody. rewrite Hsrc.
  destruct source as [ [ [ [ pos0 pos1 ] | ] [ size | ] ] | ];
    cbn [WiiSender.pos WiiSender.size irPosition irSize];
    rewrite ?(store_ok ir_positions) by exact Hp;
    rewrite ?(store_ok ir_sizes) by exact Hs;
    eexists; eexists; (split; [ reflexivity | ]);
    rewrite ?length_list_set; (split; [ reflexivity | ]);
    (split; [ reflexivity | ]); split; intros j; try apply Hkeep;
    (destruct (Nat.eqb_spec j i) as [ -> | Hne ];
     [ now apply nth_error_list_set_eq
     | apply nth_error_list_set_ne; congruence ]).
Qed.

Lemma irFrom_ok (n : nat) :
  forall (indx : nat) (irSources : list (option WiiSender.IRSource))
         (ir_positions : list WiiSender.Point) (ir_sizes : list Q),
    (indx + n <= length irSources)%nat ->
    (indx + n <= length ir_positions)%nat ->
    (indx + n <= length ir_sizes)%nat ->
    exists ir_positions' ir_sizes',
      WiiSender.irFrom n indx irSources ir_positions ir_sizes
      = (ir_positions', ir_sizes', Ok tt)
      /\ length ir_positions' = length ir_positions
      /\ length ir_sizes' = length ir_sizes
      /\ forall i,
           if (indx <=? i)%nat && (i <? indx + n)%nat
           then forall source before,
                  nth_error irSources i = Some source ->
                  nth_error ir_sizes i = Some before ->
                  nth_error ir_positions' i = Some (irPosition source)
                  /\ nth_error ir_sizes' i = Some (irSize source before)
           else nth_error ir_positions' i = nth_error ir_positions i
                /\ nth_error ir_sizes' i = nth_error ir_sizes i.
Proof.
  induction n as [ | n IH ];
    intros indx irSources ir_positions ir_sizes Hsrc Hp Hs.
  - exists ir_positions, ir_sizes. repeat split.
    intros i. rewrite within_false. now split.
  - cbn [WiiSender.irFrom].
    destruct (nth_error irSources indx) as [ source | ] eqn:Esrc.
    2: { apply nth_error_None in Esrc. lia. }
    destruct (nth_error ir_sizes indx) as [ before | ] eqn:Esz.
    2: { apply nth_error_None in Esz. lia. }
    destruct (irBody_ok indx irSources ir_positions ir_sizes source before
                        Esrc Esz)
      as (ps1 & ss1 & -> & Hlp & Hls & Hnp & Hns); [ lia | ].
    destruct (IH (S indx) irSources ps1 ss1)
      as (ps2 & ss2 & Hrun & Hlp2 & Hls2 & Hnth); try lia.
    exists ps2, ss2. rewrite Hrun.
    split; [ reflexivity | ]. split; [ congruence | ].
    split; [ congruence | ].
    intros i. specialize (Hnth i). rewrite within_step.
    destruct (Nat.eqb_spec i indx) as [ -> | Hne ]; cbn [orb].
    + destruct (Nat.leb_spec (S indx) indx); [ lia | ].
      cbn [andb] in Hnth. destruct Hnth as [ Hp2 Hs2 ].
      intros source' before' Hsrc' Hsz'.
      rewrite Hp2, Hs2, Hnp, Hns, Nat.eqb_refl. split; congruence.
    + specialize (Hnp i). specialize (Hns i).
      apply Nat.eqb_neq in Hne. rewrite Hne in Hnp, Hns.
      destruct ((S indx <=? i)%nat && (i <? S indx + n)%nat).
      * intros source' before' Hsrc' Hsz'.
        apply Hnth; [ exact Hsrc' | now rewrite Hns ].
      * now rewrite <- Hnp, <- Hns.
Qed.

(** The IR loop of WiiSender.run, for lists that have a slot for each of
    the NUM_IR_SENSORS sensors: it ends without an exception, keeps the
    lengths, and touches no slot from NUM_IR_SENSORS on. Below that, the
    position is (x, y, -1) for a source that has a position and
    (-1, -1, -1) otherwise; the size is -1 when the source is None or has
    a position and no size, the reported size when it has both, and the
    value the message held before when the source has no position, even
    if it reports a size. *)
Theorem fillIR_fills_every_sensor (NUM_IR_SENSORS : nat)
    (irSources : list (option WiiSender.IRSource))
    (ir_positions : list WiiSender.Point) (ir_sizes : list Q) :
  (NUM_IR_SENSORS <= length irSources)%nat ->
  (NUM_IR_SENSORS <= length ir_positions)%nat ->
  (NUM_IR_SENSORS <= length ir_sizes)%nat ->
  exists ir_positions' ir_sizes',
    WiiSender.fillIR NUM_IR_SENSORS irSources ir_positions ir_sizes
    = (ir_positions', ir_sizes', Ok tt)
    /\ length ir_positions' = length ir_positions
    /\ length ir_sizes' = length ir_sizes
    /\ (forall i source before,
          (i < NUM_IR_SENSORS)%nat ->
          nth_error irSources i = Some source ->
          nth_error ir_sizes i = Some before ->
          nth_error ir_positions' i = Some (irPosition source)
          /\ nth_error ir_sizes' i = Some (irSize source before))
    /\ (forall i,
          (NUM_IR_SENSORS <= i)%nat ->
          nth_error ir_positions' i = nth_error ir_positions i
          /\ nth_error ir_sizes' i = nth_error ir_sizes i).
Proof.
  intros Hsrc Hp Hs. unfold WiiSender.fillIR.
  destruct (irFrom_ok NUM_IR_SENSORS 0 irSources ir_positions ir_sizes)
    as (ps & ss & Hrun & Hlp & Hls & Hnth); try (simpl; lia).
  exists ps, ss. split; [ exact Hrun | ]. split; [ exact Hlp | ].
  split; [ exact Hls | ]. split.
  - intros i source before Hi Hsi Hbi.
    specialize (Hnth i). cbn [Nat.leb andb Nat.add] in Hnth.
    apply Nat.ltb_lt in Hi. rewrite Hi in Hnth. now apply Hnth.
  - intros i Hi.
    specialize (Hnth i). cbn [Nat.leb andb Nat.add] in Hnth.
    destruct (Nat.ltb_spec i NUM_IR_SENSORS); [ lia | exact Hnth ].
Qed.

Lemma fillIR_fills_every_sensor_witness :
  exists ir_positions' ir_sizes',
    WiiSender.fillIR 2
      [Some (WiiSender.mkIRSource None (Some 5%Q));
       Some (WiiSender.mkIRSource (Some (3%Q, 4%Q)) None)]
      [WiiSender.mkPoint 0 0 0; WiiSender.mkPoint 0 0 0]
      [9%Q; 9%Q]
    = (ir_positions', ir_sizes', Ok tt)
    /\ nth_error ir_sizes' 0 = Some 9%Q
    /\ nth_error ir_positions' 1 = Some (WiiSender.mkPoint 3 4 (-1)).
Proof.
  destruct (fillIR_fills_every_sensor 2
              [Some (WiiSender.mkIRSource None (Some 5%Q));
               Some (WiiSender.mkIRSource (Some (3%Q, 4%Q)) None)]
              [WiiSender.mkPoint 0 0 0; WiiSender.mkPoint 0 0 0]
              [9%Q; 9%Q]
              (Nat.le_refl 2) (Nat.le_refl 2) (Nat.le_refl 2))
    as (ps & ss & Hrun & _ & _ & Hin & _).
  exists ps, ss. split; [ exact Hrun | ]. split.
  - exact (proj2 (Hin 0%nat _ _ (Nat.lt_0_succ 1) eq_refl eq_refl)).
  - exact (proj1 (Hin 1%nat _ _ (Nat.lt_succ_diag_r 1) eq_refl eq_refl)).
Defined.

(* ===================================================================== *)
(* SwitchPulser: one pattern of a set, followed through the sweep          *)
(* ===================================================================== *)

Lemma stateAfter_app (index : nat) (a b : list event) :
  forall s, stateAfter index (a ++ b) s
            = stateAfter index b (stateAfter index a s).
Proof.
  induction a as [ | [ | d | j v | ] a IH ]; intros s; simpl; auto.
Qed.

Lemma inverted_app (index : nat) (a b : list event) :
  forall s, inverted index (a ++ b) s
            = inverted index a s ++ inverted index b (stateAfter index a s).
Proof.
  induction a as [ | [ | d | j v | ] a IH ]; intros s; simpl; auto.
  destruct (j =? index)%nat; simpl; now rewrite IH.
Qed.

Lemma inverted_alternation (index : nat) (tr : list event) :
  forall s,
    forcedOn tr = 0%nat ->
    inverted index tr s
    = alternation (length (inverted index tr s)) (negb s).
Proof.
  induction tr as [ | [ | d | j v | ] tr IH ]; intros s H; simpl in *;
    auto; try discriminate.
  destruct (j =? index)%nat; simpl; auto.
  f_equal. now apply IH.
Qed.

Lemma inverted_silent (index : nat) (tr : list event) :
  forall s, flipsOf index tr = [] -> inverted index tr s = [].
Proof.
  induction tr as [ | [ | d | j v | ] tr IH ]; intros s H; simpl in *; auto.
  destruct (j =? index)%nat; [ discriminate | auto ].
Qed.

Lemma Qsum_app (a b : list Q) : (Qsum (a ++ b) == Qsum a + Qsum b)%Q.
Proof.
  unfold Qsum. induction a as [ | x a IH ]; simpl; [ lra | ].
  rewrite IH. lra.
Qed.

Lemma Qsum_firstn_S (l : list Q) :
  forall c : nat,
    (c < length l)%nat ->
    (Qsum (firstn (S c) l) == Qsum (firstn c l) + nth c l 0)%Q.
Proof.
  induction l as [ | x l IH ]; intros c Hc; simpl in Hc; [ lia | ].
  destruct c as [ | c ].
  - unfold Qsum. simpl. lra.
  - change (firstn (S (S c)) (x :: l)) with (x :: firstn (S c) l).
    change (firstn (S c) (x :: l)) with (x :: firstn c l).
    change (nth (S c) (x :: l) 0%Q) with (nth c l 0%Q).
    unfold Qsum in *. cbn [fold_right].
    rewrite (IH c) by lia. lra.
Qed.

Lemma Qnat_S (c : nat) :
  (inject_Z (Z.of_nat (S c)) == inject_Z (Z.of_nat c) + 1)%Q.
Proof.
  rewrite Nat2Z.inj_succ. unfold Z.succ. rewrite inject_Z_plus. reflexivity.
Qed.

(** What turnIndicatorOn does to one channel of a set it can serve. *)
Lemma turnIndicatorOn_channelAt (ind : indicator) (i : nat)
    (self : SwitchPulser.t) (w : World) :
  SwitchPulser.outputIndicator self = ind ->
  Forall ready (SwitchPulser.patternArray self) ->
  fits ind (length (SwitchPulser.patternArray self))
       (length (WIIMote.leds (wiimoteDevice w))) ->
  (i < length (SwitchPulser.patternArray self))%nat ->
  exists self' w',
    SwitchPulser.turnIndicatorOn self ind w = (self', w', Ok tt)
    /\ SwitchPulser.patternArray self' = SwitchPulser.patternArray self
    /\ SwitchPulser.outputIndicator self' = ind
    /\ trace w' = trace w ++ [EvOn]
    /\ channelAt ind i (wiimoteDevice w') = Some true
    /\ length (WIIMote.leds (wiimoteDevice w'))
       = length (WIIMote.leds (wiimoteDevice w)).
Proof.
  intros Hind Hready Hfits Hi.
  assert (Hpres : forall j,
            (j < length (SwitchPulser.patternArray self))%nat ->
            exists p, nth_error (SwitchPulser.patternArray self) j
                      = Some (Some p)).
  { intros j Hj.
    destruct (nth_error (SwitchPulser.patternArray self) j) as [ slot | ]
      eqn:E; [ | apply nth_error_None in E; lia ].
    rewrite Forall_forall in Hready.
    destruct (Hready slot (nth_error_In _ _ E)) as (p & -> & _). eauto. }
  unfold SwitchPulser.turnIndicatorOn. destruct ind.
  - cbn [fits] in Hfits. destruct (Hpres 0%nat Hfits) as [p0 ->].
    eexists. eexists. split; [ reflexivity | ]. now repeat split.
  - cbn [fits] in Hfits. destruct Hfits as [ H4 Hleds ].
    eexists. eexists. split; [ reflexivity | ].
    cbn [SwitchPulser.patternArray SwitchPulser.withLEDMask
         SwitchPulser.outputIndicator trace emit withDevice wiimoteDevice
         WIIMote.setLEDs WIIMote.leds channelAt].
    split; [ reflexivity | ]. split; [ exact Hind | ].
    split; [ reflexivity | ].
    split; [ | apply length_applyMask ].
    rewrite nth_error_applyMask.
    destruct (nth_error (WIIMote.leds (wiimoteDevice w)) i) as [ b0 | ]
      eqn:Eb; [ | apply nth_error_None in Eb; lia ].
    f_equal.
    pose proof (nth_error_onMask (SwitchPulser.patternArray self) i) as Hm.
    destruct (nth_error (SwitchPulser.onMask (SwitchPulser.patternArray self))
                        i) as [ [ v | ] | ].
    + now destruct Hm.
    + destruct (Hpres i Hi) as [p Hp]. unfold NUM_LEDS in Hm.
      destruct Hm as [ Hm | [ Hm | Hm ] ]; [ lia | congruence | congruence ].
    + destruct (Hpres i Hi) as [p Hp]. unfold NUM_LEDS in Hm.
      destruct Hm as [ Hm | [ Hm | Hm ] ]; [ lia | congruence | congruence ].
Qed.

(** What the flip for slot [idx] does to channel [i]. *)
Lemma flip_channelAt (ind : indicator) (i idx : nat)
    (self : SwitchPulser.t) (w : World) (b : bool) :
  SwitchPulser.outputIndicator self = ind ->
  fits ind (length (SwitchPulser.patternArray self))
       (length (WIIMote.leds (wiimoteDevice w))) ->
  (ind = RUMBLE -> length (SwitchPulser.patternArray self) = 1%nat) ->
  (idx < length (SwitchPulser.patternArray self))%nat ->
  (i < length (SwitchPulser.patternArray self))%nat ->
  channelAt ind i (wiimoteDevice w) = Some b ->
  exists w' j v,
    SwitchPulser.flipRumbleOrLED self idx w = (w', Ok tt)
    /\ trace w' = trace w ++ [EvFlip j v]
    /\ (j =? i)%nat = (idx =? i)%nat
    /\ (idx = i -> v = negb b)
    /\ channelAt ind i (wiimoteDevice w')
       = Some (if (idx =? i)%nat then negb b else b)
    /\ length (WIIMote.leds (wiimoteDevice w'))
       = length (WIIMote.leds (wiimoteDevice w)).
Proof.
  intros Hind Hfits Hlone Hidx Hi Hb.
  unfold SwitchPulser.flipRumbleOrLED. rewrite Hind. destruct ind.
  - specialize (Hlone eq_refl).
    assert (idx = 0%nat) by lia. assert (i = 0%nat) by lia. subst idx i.
    cbn [channelAt] in Hb. injection Hb as <-.
    exists (SwitchPulser.flipRumble w), 0%nat,
           (negb (WIIMote.getRumble (wiimoteDevice w))).
    now repeat split.
  - cbn [fits] in Hfits. destruct Hfits as [ H4 Hleds ].
    cbn [channelAt] in Hb. unfold SwitchPulser.flipLED.
    destruct (nth_error (WIIMote.getLEDs (wiimoteDevice w)) idx) as [ c | ]
      eqn:Ec.
    2: { apply nth_error_None in Ec. unfold WIIMote.getLEDs in Ec. lia. }
    assert (Hlt : (idx <? length [@None bool; None; None; None])%nat = true)
      by (apply Nat.ltb_lt; simpl; lia).
    rewrite Hlt.
    eexists. exists idx, (negb c). split; [ reflexivity | ].
    cbn [trace emit withDevice wiimoteDevice WIIMote.setLEDs WIIMote.leds
         channelAt].
    split; [ reflexivity | ]. split; [ reflexivity | ].
    unfold WIIMote.getLEDs in Ec.
    split; [ intros ->; congruence | ].
    rewrite applyMask_flip by lia.
    split; [ | apply length_list_set ].
    destruct (Nat.eqb_spec idx i) as [ -> | Hne ].
    + rewrite nth_error_list_set_eq by lia. congruence.
    + now rewrite nth_error_list_set_ne.
Qed.

Lemma flipsAfter_of (pattern pattern' : OutputPattern.t) (d : Q)
    (reduced : option Q) :
  OutputPattern.reduceTimer pattern d = (pattern', Ok reduced) ->
  flipsAfter pattern d
  = match reduced with
    | Some rt => Qeq_bool rt 0
    | None => false
    end.
Proof. intros H. unfold flipsAfter. now rewrite H. Qed.

(** The second loop of run(), seen from channel [i]: it adds no wait,
    every flip of the channel inverts the state the channel then has, and
    the channel is flipped once if reduceTimer returns 0.0 for its
    pattern and not at all otherwise. *)
Lemma tickFrom_channel (ind : indicator) (i : nat) (n : nat) :
  forall (idx : nat) (self self' : SwitchPulser.t) (d : Q) (w w' : World)
         (p : OutputPattern.t) (b : bool),
    SwitchPulser.outputIndicator self = ind ->
    Forall ready (SwitchPulser.patternArray self) ->
    fits ind (length (SwitchPulser.patternArray self))
         (length (WIIMote.leds (wiimoteDevice w))) ->
    (ind = RUMBLE -> length (SwitchPulser.patternArray self) = 1%nat) ->
    nth_error (SwitchPulser.patternArray self) i = Some (Some p) ->
    channelAt ind i (wiimoteDevice w) = Some b ->
    SwitchPulser.tickFrom n idx self d w = (self', w', Ok tt) ->
    exists mid,
      trace w' = trace w ++ mid
      /\ sleepsOf mid = []
      /\ flipsOf i mid = inverted i mid b
      /\ channelAt ind i (wiimoteDevice w') = Some (stateAfter i mid b)
      /\ length (flipsOf i mid)
         = if (idx <=? i)%nat && (i <? idx + n)%nat && flipsAfter p d
           then 1%nat else 0%nat.
Proof.
  induction n as [ | n IH ];
    intros idx self self' d w w' p b Hind Hready Hfits Hlone Hp Hb H.
  { injection H as <- <-. exists []. rewrite app_nil_r, within_false.
    now repeat split. }
  assert (Hi : (i < length (SwitchPulser.patternArray self))%nat)
    by (apply nth_error_Some; congruence).
  cbn [SwitchPulser.tickFrom] in H.
  destruct (nth_error (SwitchPulser.patternArray self) idx)
    as [ slot | ] eqn:Hslot.
  2: { injection H as <- <-. exists []. rewrite app_nil_r.
       apply nth_error_None in Hslot.
       destruct (Nat.leb_spec idx i); [ lia | ]. now repeat split. }
  assert (Hrs : ready slot).
  { rewrite Forall_forall in Hready. apply Hready.
    now apply nth_error_In with idx. }
  destruct Hrs as (pattern & -> & Hwf).
  assert (Hidx : (idx < length (SwitchPulser.patternArray self))%nat)
    by (apply nth_error_Some; congruence).
  destruct (ready_reduceTimer pattern d Hwf) as (reduced & Ered & Hwf').
  pose proof (flipsAfter_of _ _ _ _ Ered) as Hfa.
  rewrite Ered in H.
  set (pattern' := fst (OutputPattern.reduceTimer pattern d)) in *.
  set (self1 := SwitchPulser.withPatternArray self
                  (list_set (SwitchPulser.patternArray self) idx
                            (Some pattern'))) in *.
  assert (Hready1 : Forall ready (SwitchPulser.patternArray self1)).
  { unfold self1. cbn [SwitchPulser.patternArray SwitchPulser.withPatternArray].
    apply Forall_list_set; [ exact Hready | ]. now exists pattern'. }
  assert (Hlen1 : length (SwitchPulser.patternArray self1)
                  = length (SwitchPulser.patternArray self)).
  { unfold self1. cbn [SwitchPulser.patternArray SwitchPulser.withPatternArray].
    apply length_list_set. }
  assert (Hon :
    exists self2 w2 pre,
      (if OutputPattern.startOfRepeat pattern'
       then SwitchPulser.turnIndicatorOn self1
              (SwitchPulser.outputIndicator self1) w
       else (self1, w, Ok tt)) = (self2, w2, Ok tt)
      /\ SwitchPulser.patternArray self2 = SwitchPulser.patternArray self1
      /\ SwitchPulser.outputIndicator self2 = ind
      /\ trace w2 = trace w ++ pre
      /\ sleepsOf pre = []
      /\ flipsOf i pre = []
      /\ inverted i pre b = []
      /\ channelAt ind i (wiimoteDevice w2) = Some (stateAfter i pre b)
      /\ length (WIIMote.leds (wiimoteDevice w2))
         = length (WIIMote.leds (wiimoteDevice w))).
  { destruct (OutputPattern.startOfRepeat pattern').
    - change (SwitchPulser.outputIndicator self1)
        with (SwitchPulser.outputIndicator self).
      rewrite Hind.
      destruct (turnIndicatorOn_channelAt ind i self1 w Hind Hready1) as
        (self2 & w2 & E & Hpa & Hi2 & Htr & Hch & Hl).
      { now rewrite Hlen1. }
      { now rewrite Hlen1. }
      exists self2, w2, [EvOn]. now repeat split.
    - exists self1, w, []. rewrite app_nil_r. now repeat split. }
  destruct Hon as (self2 & w2 & pre & Eon & Hpa2 & Hind2 & Htr2 & Hsl2
                   & Hfl2 & Hinv2 & Hch2 & Hleds2).
  rewrite Eon in H.
  assert (Hlen2 : length (SwitchPulser.patternArray self2)
                  = length (SwitchPulser.patternArray self))
    by now rewrite Hpa2.
  assert (Hrec :
    forall (w3 : World) (pre3 : list event),
      trace w3 = trace w ++ pre3 ->
      sleepsOf pre3 = [] ->
      flipsOf i pre3 = inverted i pre3 b ->
      channelAt ind i (wiimoteDevice w3) = Some (stateAfter i pre3 b) ->
      length (WIIMote.leds (wiimoteDevice w3))
      = length (WIIMote.leds (wiimoteDevice w)) ->
      length (flipsOf i pre3)
      = (if (i =? idx)%nat && flipsAfter p d then 1%nat else 0%nat) ->
      SwitchPulser.tickFrom n (S idx) self2 d w3 = (self', w', Ok tt) ->
      exists mid,
        trace w' = trace w ++ mid
        /\ sleepsOf mid = []
        /\ flipsOf i mid = inverted i mid b
        /\ channelAt ind i (wiimoteDevice w') = Some (stateAfter i mid b)
        /\ length (flipsOf i mid)
           = if (idx <=? i)%nat && (i <? idx + S n)%nat && flipsAfter p d
             then 1%nat else 0%nat).
  { intros w3 pre3 Htr3 Hsl3 Hfl3 Hch3 Hl3 Hcnt3 Hrun.
    assert (Hp2 : exists p2,
               nth_error (SwitchPulser.patternArray self2) i
               = Some (Some p2)
               /\ (i <> idx -> p2 = p)).
    { rewrite Hpa2. unfold self1.
      cbn [SwitchPulser.patternArray SwitchPulser.withPatternArray].
      destruct (Nat.eq_dec i idx) as [ -> | Hne ].
      - exists pattern'. split; [ | congruence ].
        now apply nth_error_list_set_eq.
      - exists p. split; [ | reflexivity ].
        rewrite nth_error_list_set_ne by congruence. exact Hp. }
    destruct Hp2 as (p2 & Hp2 & Hsame).
    destruct (IH (S idx) self2 self' d w3 w' p2 (stateAfter i pre3 b)
                 Hind2) as (mid & Htr & Hsl & Hfl & Hch & Hcnt); auto.
    { now rewrite Hpa2. }
    { rewrite Hlen2, Hl3. exact Hfits. }
    { rewrite Hlen2. exact Hlone. }
    exists (pre3 ++ mid).
    split; [ now rewrite Htr, Htr3, app_assoc | ].
    split; [ now rewrite sleepsOf_app, Hsl3, Hsl | ].
    split; [ now rewrite flipsOf_app, inverted_app, Hfl3, Hfl | ].
    split; [ now rewrite stateAfter_app | ].
    rewrite flipsOf_app, length_app, Hcnt3, Hcnt, within_step.
    destruct (Nat.eqb_spec i idx) as [ -> | Hne ]; cbn [orb andb].
    - destruct (Nat.leb_spec (S idx) idx); [ lia | ]. cbn [andb].
      destruct (flipsAfter p d); reflexivity.
    - rewrite (Hsame Hne).
      destruct ((S idx <=? i)%nat && (i <? S idx + n)%nat); cbn [andb];
        [ destruct (flipsAfter p d) | ]; reflexivity. }
  assert (Hquiet :
    length (flipsOf i pre)
    = (if (i =? idx)%nat && false then 1%nat else 0%nat)).
  { rewrite Hfl2, andb_false_r. reflexivity. }
  assert (Hpi : i = idx -> p = pattern) by (intros ->; congruence).
  destruct reduced as [ rt | ].
  2: { apply (Hrec w2 pre); auto; try congruence.
       rewrite Hquiet.
       destruct (Nat.eqb_spec i idx) as [ E | ]; [ | reflexivity ].
       now rewrite (Hpi E), Hfa. }
  destruct (Qeq_bool rt 0) eqn:Ert.
  2: { apply (Hrec w2 pre); auto; try congruence.
       rewrite Hquiet.
       destruct (Nat.eqb_spec i idx) as [ E | ]; [ | reflexivity ].
       now rewrite (Hpi E), Hfa. }
  destruct (flip_channelAt ind i idx self2 w2 (stateAfter i pre b) Hind2)
    as (w3 & j & v & Ef & Htr3 & Hj & Hv & Hch3 & Hl3); auto.
  { rewrite Hlen2, Hleds2. exact Hfits. }
  { now rewrite Hlen2. }
  { now rewrite Hlen2. }
  { now rewrite Hlen2. }
  rewrite Ef in H.
  apply (Hrec w3 (pre ++ [EvFlip j v])); auto.
  - now rewrite Htr3, Htr2, app_assoc.
  - now rewrite sleepsOf_app, Hsl2.
  - rewrite flipsOf_app, inverted_app, Hfl2, Hinv2. cbn [flipsOf inverted app].
    rewrite Hj. destruct (Nat.eqb_spec idx i) as [ E | ]; [ | reflexivity ].
    now rewrite (Hv E).
  - rewrite stateAfter_app. cbn [stateAfter]. now rewrite Hj.
  - congruence.
  - rewrite flipsOf_app, length_app, Hfl2. cbn [flipsOf length Nat.add].
    rewrite Hj, Nat.eqb_sym.
    destruct (Nat.eqb_spec i idx) as [ E | ]; [ | reflexivity ].
    now rewrite (Hpi E), Hfa.
Qed.

(** reduceTimer on the unspent pattern of a single pass, by a time that
    does not exceed its head: the head is kept with what is left of it,
    or, less than 0.005 s being left, the cursor moves on with a flip, or
    the pattern is spent without one. *)
Lemma single_pass_reduce (l : list Q) (p : OutputPattern.t) (h t : Q) :
  singlePass l 1 p ->
  OutputPattern.patternSpent p = false ->
  nth_error (OutputPattern.timePattern p) (OutputPattern.patternPt p)
  = Some h ->
  (forall j : nat,
      (OutputPattern.patternPt p < j)%nat ->
      nth_error (OutputPattern.timePattern p) j = nth_error l j) ->
  (t <= h)%Q ->
  let p' := fst (OutputPattern.reduceTimer p t) in
  ((1 # 200 <= h - t)%Q
   /\ OutputPattern.patternSpent p' = false
   /\ OutputPattern.patternPt p' = OutputPattern.patternPt p
   /\ nth_error (OutputPattern.timePattern p') (OutputPattern.patternPt p')
      = Some (h - t)%Q
   /\ (forall j : nat,
          (OutputPattern.patternPt p' < j)%nat ->
          nth_error (OutputPattern.timePattern p') j = nth_error l j)
   /\ flipsAfter p t = false)
  \/ ((h - t < 1 # 200)%Q
      /\ (S (OutputPattern.patternPt p) < length l)%nat
      /\ OutputPattern.patternSpent p' = false
      /\ OutputPattern.patternPt p' = S (OutputPattern.patternPt p)
      /\ nth_error (OutputPattern.timePattern p')
                   (OutputPattern.patternPt p')
         = nth_error l (S (OutputPattern.patternPt p))
      /\ (forall j : nat,
             (OutputPattern.patternPt p' < j)%nat ->
             nth_error (OutputPattern.timePattern p') j = nth_error l j)
      /\ flipsAfter p t = true)
  \/ ((h - t < 1 # 200)%Q
      /\ S (OutputPattern.patternPt p) = length l
      /\ OutputPattern.patternSpent p' = true
      /\ flipsAfter p t = false).
Proof.
  intros (Hsr & Hlen & Hun & Hsp) Hs Hh Htail Hle.
  destruct (Hun Hs) as [ Hpt Hreps ].
  assert (Hrest : (0 <= h - t)%Q) by lra.
  assert (Hclamp : OutputPattern.clamp (h - t) = (h - t)%Q).
  { unfold OutputPattern.clamp.
    destruct (Qltb (h - t) 0) eqn:E; [ | reflexivity ].
    apply Qltb_lt in E. lra. }
  unfold flipsAfter. cbv zeta.
  destruct (reduceTimerP p t) as
    [ Hs' | Hs' Hh' | head Hs' Hh' Hr | head Hs' Hh' Hr Hlt
    | head Hs' Hh' Hr Hge Hn | head Hs' Hh' Hr Hge Hn ];
    try congruence; try lia;
    rewrite Hh in Hh'; injection Hh' as <-; rewrite Hclamp in *;
    cbn [fst snd OutputPattern.patternSpent OutputPattern.patternPt
         OutputPattern.timePattern].
  - left.
    assert (Hbig : (1 # 200 <= h - t)%Q).
    { destruct (Qlt_le_dec (h - t) (1 # 200)) as [ Hlt | ]; [ | assumption ].
      apply (round2_expired _ Hrest) in Hlt. congruence. }
    split; [ exact Hbig | ]. split; [ reflexivity | ].
    split; [ reflexivity | ].
    split; [ apply nth_error_list_set_eq; lia | ].
    split.
    + intros j Hj. rewrite nth_error_list_set_ne by lia. now apply Htail.
    + apply not_true_is_false. intros E. apply Qeq_bool_iff in E.
      assert (Hz : Qle_bool (round2 (h - t)) 0 = true)
        by (apply Qle_bool_iff; lra).
      congruence.
  - right. left.
    split; [ now apply (round2_expired _ Hrest) | ].
    split; [ lia | ]. split; [ reflexivity | ]. split; [ reflexivity | ].
    split; [ rewrite nth_error_list_set_ne by lia; apply Htail; lia | ].
    split.
    + intros j Hj. rewrite nth_error_list_set_ne by lia. apply Htail. lia.
    + apply Qeq_bool_iff. apply Qle_bool_iff in Hr.
      pose proof (round2_nonneg _ Hrest). lra.
  - right. right.
    split; [ now apply (round2_expired _ Hrest) | ].
    split; [ lia | ]. split; reflexivity.
Qed.

(** One turn of the while loop of a pulser that is left alone and has a
    pattern to wait for: two steps, the wait being the least head. *)
Lemma one_sweep (ind : indicator) (self : SwitchPulser.t) (w : World)
    (i : nat) (p : OutputPattern.t) :
  unattended ind self w ->
  SwitchPulser.pc self = SwitchPulser.LoopHead ->
  nth_error (SwitchPulser.patternArray self) i = Some (Some p) ->
  OutputPattern.patternSpent p = false ->
  exists (t : Q) (self' : SwitchPulser.t) (w' : World),
    SwitchPulser.nextDurationFrom (SwitchPulser.patternArray self) None
    = Ok (Some t)
    /\ SwitchPulser.step self w
       = (SwitchPulser.withPc self (SwitchPulser.Sleeping t), w)
    /\ SwitchPulser.tickFrom (length (SwitchPulser.patternArray self)) 0
         (SwitchPulser.withPc self (SwitchPulser.Sleeping t)) t
         (emit w (EvSleep t))
       = (self', w', Ok tt)
    /\ SwitchPulser.steps 2 self w
       = (SwitchPulser.withPc self' SwitchPulser.LoopHead, w').
Proof.
  intros (Hind & Hstop & Hshut & Hready & Hfits & Hend) Hpc Hp Hs.
  destruct (ready_timeRemaining _ Hready) as [ [t Et] | [_ Hall] ].
  2: { specialize (Hall i p Hp). congruence. }
  assert (Estep : SwitchPulser.step self w
                  = (SwitchPulser.withPc self (SwitchPulser.Sleeping t), w)).
  { unfold SwitchPulser.step. now rewrite Hpc, Hshut, Hstop, Et. }
  destruct (tickFrom_ready ind (length (SwitchPulser.patternArray self)) 0
              (SwitchPulser.withPc self (SwitchPulser.Sleeping t)) t
              (emit w (EvSleep t)) Hind Hready Hfits)
    as (self' & w' & E & _).
  exists t, self', w'. split; [ exact Et | ]. split; [ exact Estep | ].
  split; [ exact E | ].
  cbn [SwitchPulser.steps]. rewrite Estep.
  unfold SwitchPulser.step at 1.
  cbn [SwitchPulser.pc SwitchPulser.withPc]. rewrite Hshut.
  unfold SwitchPulser.tick.
  cbn [SwitchPulser.patternArray SwitchPulser.withPc] in E |- *.
  now rewrite E.
Qed.

Lemma elapsed_after_sleep (w w' : World) (t : Q) (mid : list event) :
  trace w' = (trace w ++ [EvSleep t]) ++ mid ->
  sleepsOf mid = [] ->
  (elapsed w' == elapsed w + t)%Q.
Proof.
  intros Htr Hsl. unfold elapsed.
  rewrite Htr, !sleepsOf_app, Hsl, app_nil_r, Qsum_app.
  unfold Qsum. simpl. lra.
Qed.

Lemma owed_unspent (l : list Q) (n : Z) (p : OutputPattern.t) :
  singlePass l n p ->
  OutputPattern.patternSpent p = false ->
  (0 < SwitchPulser.owed p)%nat.
Proof.
  intros (_ & Hlen & Hun & _) Hs. destruct (Hun Hs) as [ Hpt _ ].
  unfold SwitchPulser.owed. rewrite Hs.
  generalize (Z.to_nat (OutputPattern.numReps p - 1)
              * length (OutputPattern.origTimePattern p))%nat.
  intros x. lia.
Qed.

(** From the loop head to the turn of the loop that spends the pattern
    of slot [i]. *)
Lemma sweep_until_spent (ind : indicator) (i : nat) (l : list Q) (m : nat) :
  forall (self : SwitchPulser.t) (w : World),
    unattended ind self w ->
    SwitchPulser.pc self = SwitchPulser.LoopHead ->
    (ind = RUMBLE -> length (SwitchPulser.patternArray self) = 1%nat) ->
    (SwitchPulser.owedAll (SwitchPulser.patternArray self) <= m)%nat ->
    tracked ind i l self w ->
    exists (k : nat) (mid : list event),
      (k <= 2 * m)%nat
      /\ (forall j, (j < k)%nat ->
                    spentAt i (fst (SwitchPulser.steps j self w)) = false)
      /\ spentAt i (fst (SwitchPulser.steps k self w)) = true
      /\ length (SwitchPulser.patternArray
                   (fst (SwitchPulser.steps k self w)))
         = length (SwitchPulser.patternArray self)
      /\ trace (snd (SwitchPulser.steps k self w)) = trace w ++ mid
      /\ (Qsum l - (1 # 200) * inject_Z (Z.of_nat (length l))
          < elapsed (snd (SwitchPulser.steps k self w)))%Q
      /\ (elapsed (snd (SwitchPulser.steps k self w)) <= Qsum l)%Q
      /\ (length (SwitchPulser.patternArray self) = 1%nat ->
          (elapsed (snd (SwitchPulser.steps k self w)) == Qsum l)%Q)
      /\ length (flipsOf i (trace (snd (SwitchPulser.steps k self w))))
         = (length l - 1)%nat
      /\ flipsOf i (trace (snd (SwitchPulser.steps k self w)))
         = inverted i (trace (snd (SwitchPulser.steps k self w))) false.
Proof.
  induction m as [ | m IH ]; intros self w Hun Hpc Hlone Howed Htr.
  { destruct Htr as (p & h & loss & Hp & Hsp & Hs & _).
    pose proof (owed_unspent _ _ _ Hsp Hs).
    pose proof (owed_le_owedAll _ _ _ Hp). lia. }
  destruct Htr as (p & h & loss & Hp & Hsp & Hs & Hh & Htail & Hcnt & Hinv
                   & Hch & Hl0 & Hl1 & Htime & Hex).
  destruct (one_sweep ind self w i p Hun Hpc Hp Hs)
    as (t & self' & w' & Et & Estep & Etick & Esteps).
  pose proof (unattended_steps ind 2 self w Hun) as Hun2.
  rewrite Esteps in Hun2. cbn [fst snd] in Hun2.
  destruct Hun as (Hind & Hstop & Hshut & Hready & Hfits & Hend).
  (* the wait is at most the head of the pattern *)
  assert (Hle : (t <= h)%Q).
  { pose proof (nextDurationFrom_spec (SwitchPulser.patternArray self) None)
      as Hspec.
    rewrite Et in Hspec. destruct Hspec as [ _ Hmin ].
    apply (Hmin i p h Hp).
    unfold OutputPattern.timeRemaining. now rewrite Hs, Hh. }
  (* alone, the wait is the head *)
  assert (Halone :
    length (SwitchPulser.patternArray self) = 1%nat -> t = h).
  { intros H1.
    destruct (nextDurationFrom_head _ _ _ Et) as [ E | (i0 & p0 & Hp0 & Ht0) ];
      [ discriminate | ].
    assert (Hi0 : (i0 < length (SwitchPulser.patternArray self))%nat)
      by (apply nth_error_Some; congruence).
    assert (Hi1 : (i < length (SwitchPulser.patternArray self))%nat)
      by (apply nth_error_Some; congruence).
    assert (i0 = i) by lia. subst i0.
    rewrite Hp in Hp0. injection Hp0 as <-.
    unfold OutputPattern.timeRemaining in Ht0. rewrite Hs, Hh in Ht0.
    congruence. }
  (* the patterns after the turn *)
  assert (Epa :
    SwitchPulser.patternArray self'
    = map (option_map (fun q => fst (OutputPattern.reduceTimer q t)))
          (SwitchPulser.patternArray self)).
  { apply (tick_ok (SwitchPulser.withPc self (SwitchPulser.Sleeping t))
                   self' t (emit w (EvSleep t)) w').
    exact Etick. }
  assert (Hp' :
    nth_error (SwitchPulser.patternArray self') i
    = Some (Some (fst (OutputPattern.reduceTimer p t)))).
  { now rewrite Epa, nth_error_map, Hp. }
  assert (Hlen' : length (SwitchPulser.patternArray self')
                  = length (SwitchPulser.patternArray self))
    by now rewrite Epa, length_map.
  assert (Hi : (i < length (SwitchPulser.patternArray self))%nat)
    by (apply nth_error_Some; congruence).
  (* the channel during the turn *)
  destruct (tickFrom_channel ind i (length (SwitchPulser.patternArray self))
              0 (SwitchPulser.withPc self (SwitchPulser.Sleeping t)) self'
              t (emit w (EvSleep t)) w' p
              (stateAfter i (trace w) false))
    as (mid & Htr' & Hsl & Hfl & Hch' & Hone); auto.
  apply Nat.ltb_lt in Hi as Hib.
  cbn [Nat.leb Nat.add andb] in Hone. rewrite Hib in Hone.
  cbn [andb] in Hone.
  cbn [trace emit] in Htr'.
  pose proof (elapsed_after_sleep w w' t mid Htr' Hsl) as Hel.
  assert (Hflips : flipsOf i (trace w') = flipsOf i (trace w) ++ flipsOf i mid).
  { rewrite Htr', !flipsOf_app. cbn [flipsOf]. now rewrite app_nil_r. }
  assert (Hinv' : flipsOf i (trace w') = inverted i (trace w') false).
  { rewrite Hflips, Htr', !inverted_app, stateAfter_app.
    cbn [inverted stateAfter]. now rewrite app_nil_r, Hinv, Hfl. }
  assert (Hstate : channelAt ind i (wiimoteDevice w')
                   = Some (stateAfter i (trace w') false)).
  { rewrite Hch', Htr', !stateAfter_app. reflexivity. }
  assert (Hcnt' : length (flipsOf i (trace w'))
                  = (OutputPattern.patternPt p
                     + if flipsAfter p t then 1 else 0)%nat).
  { now rewrite Hflips, length_app, Hcnt, Hone. }
  (* the first two steps leave the pattern unspent *)
  assert (Hearly :
    forall j, (j < 2)%nat ->
              spentAt i (fst (SwitchPulser.steps j self w)) = false).
  { intros [ | [ | j ] ] Hj; [ | | lia ].
    - cbn [SwitchPulser.steps fst]. unfold spentAt. now rewrite Hp.
    - cbn [SwitchPulser.steps]. rewrite Estep. cbn [fst].
      unfold spentAt.
      cbn [SwitchPulser.patternArray SwitchPulser.withPc]. now rewrite Hp. }
  (* going on from the next loop head *)
  assert (Hnext :
    tracked ind i l (SwitchPulser.withPc self' SwitchPulser.LoopHead) w' ->
    exists (k : nat) (mid : list event),
      (k <= 2 * S m)%nat
      /\ (forall j, (j < k)%nat ->
                    spentAt i (fst (SwitchPulser.steps j self w)) = false)
      /\ spentAt i (fst (SwitchPulser.steps k self w)) = true
      /\ length (SwitchPulser.patternArray
                   (fst (SwitchPulser.steps k self w)))
         = length (SwitchPulser.patternArray self)
      /\ trace (snd (SwitchPulser.steps k self w)) = trace w ++ mid
      /\ (Qsum l - (1 # 200) * inject_Z (Z.of_nat (length l))
          < elapsed (snd (SwitchPulser.steps k self w)))%Q
      /\ (elapsed (snd (SwitchPulser.steps k self w)) <= Qsum l)%Q
      /\ (length (SwitchPulser.patternArray self) = 1%nat ->
          (elapsed (snd (SwitchPulser.steps k self w)) == Qsum l)%Q)
      /\ length (flipsOf i (trace (snd (SwitchPulser.steps k self w))))
         = (length l - 1)%nat
      /\ flipsOf i (trace (snd (SwitchPulser.steps k self w)))
         = inverted i (trace (snd (SwitchPulser.steps k self w))) false).
  { intros Htracked.
    destruct (IH (SwitchPulser.withPc self' SwitchPulser.LoopHead) w')
      as (k & mid2 & Hk & Hmin & Hspent & Hlenk & Htrk & Hlo & Hhi & Hexact
          & Hn & Hi2);
      auto.
    { cbn [SwitchPulser.patternArray SwitchPulser.withPc].
      rewrite Hlen'. exact Hlone. }
    { cbn [SwitchPulser.patternArray SwitchPulser.withPc].
      destruct (nextDurationFrom_head _ _ _ Et) as [ E | (i0 & p0 & Hp0 & Ht0) ];
        [ discriminate | ].
      pose proof (owedAll_map_lt
                    (fun q => fst (OutputPattern.reduceTimer q t))
                    (SwitchPulser.patternArray self) i0 p0
                    (fun q => owed_reduceTimer_le q t) Hp0
                    (owed_reduceTimer_lt p0 t Ht0)) as Hlt.
      rewrite Epa. lia. }
    assert (Eadd : SwitchPulser.steps (2 + k) self w
                   = SwitchPulser.steps k
                       (SwitchPulser.withPc self' SwitchPulser.LoopHead) w').
    { rewrite steps_add, Esteps. reflexivity. }
    exists (2 + k)%nat, (([EvSleep t] ++ mid) ++ mid2).
    rewrite Eadd.
    split; [ lia | ].
    split.
    { intros j Hj. destruct (Nat.lt_ge_cases j 2) as [ Hj2 | Hj2 ].
      - now apply Hearly.
      - replace j with (2 + (j - 2))%nat by lia.
        rewrite steps_add, Esteps. cbn [fst snd]. apply Hmin. lia. }
    split; [ exact Hspent | ].
    split; [ rewrite Hlenk;
             cbn [SwitchPulser.patternArray SwitchPulser.withPc];
             exact Hlen' | ].
    split; [ rewrite Htrk, Htr', <- !app_assoc; reflexivity | ].
    split; [ exact Hlo | ]. split; [ exact Hhi | ].
    split.
    { intros H1. apply Hexact.
      cbn [SwitchPulser.patternArray SwitchPulser.withPc]. congruence. }
    split; assumption. }
  destruct (single_pass_reduce l p h t Hsp Hs Hh Htail Hle)
    as [ (Hbig & Hs' & Hpt' & Hh' & Htail' & Hfa)
       | [ (Hsmall & Hmore & Hs' & Hpt' & Hh' & Htail' & Hfa)
         | (Hsmall & Hlast & Hs' & Hfa) ] ].
  - (* the head is kept *)
    apply Hnext.
    exists (fst (OutputPattern.reduceTimer p t)), (h - t)%Q, loss.
    cbn [SwitchPulser.patternArray SwitchPulser.withPc].
    split; [ exact Hp' | ].
    split; [ now apply singlePass_reduceTimer | ].
    split; [ exact Hs' | ]. split; [ exact Hh' | ].
    split; [ exact Htail' | ].
    split; [ rewrite Hcnt', Hfa, Hpt'; lia | ].
    split; [ exact Hinv' | ]. split; [ exact Hstate | ].
    split; [ exact Hl0 | ]. rewrite Hpt'.
    split; [ exact Hl1 | ].
    split; [ rewrite Hel; lra | ].
    intros H1. apply Hex. congruence.
  - (* the cursor moves on *)
    apply Hnext.
    exists (fst (OutputPattern.reduceTimer p t)),
           (nth (S (OutputPattern.patternPt p)) l 0%Q),
           (loss + (h - t))%Q.
    cbn [SwitchPulser.patternArray SwitchPulser.withPc].
    split; [ exact Hp' | ].
    split; [ now apply singlePass_reduceTimer | ].
    split; [ exact Hs' | ].
    split; [ rewrite Hh'; now apply nth_error_nth' | ].
    split; [ exact Htail' | ].
    split; [ rewrite Hcnt', Hfa, Hpt'; lia | ].
    split; [ exact Hinv' | ]. split; [ exact Hstate | ].
    split; [ lra | ]. rewrite Hpt'.
    split; [ rewrite Qnat_S; lra | ].
    split; [ rewrite Hel, Qsum_firstn_S by lia; lra | ].
    intros H1. rewrite Hlen' in H1.
    rewrite (Halone H1), (Hex H1). lra.
  - (* the pattern is spent *)
    exists 2%nat, ([EvSleep t] ++ mid).
    rewrite Esteps. cbn [fst snd].
    split; [ lia | ]. split; [ exact Hearly | ].
    split.
    { unfold spentAt.
      cbn [SwitchPulser.patternArray SwitchPulser.withPc].
      now rewrite Hp'. }
    split; [ exact Hlen' | ].
    split; [ now rewrite Htr', <- app_assoc | ].
    assert (Hall : (Qsum l
                    == Qsum (firstn (OutputPattern.patternPt p) l)
                       + nth (OutputPattern.patternPt p) l 0)%Q).
    { rewrite <- Qsum_firstn_S by lia. rewrite Hlast, firstn_all.
      reflexivity. }
    assert (Hn : (inject_Z (Z.of_nat (length l))
                  == inject_Z (Z.of_nat (OutputPattern.patternPt p)) + 1)%Q).
    { rewrite <- Hlast. apply Qnat_S. }
    split; [ rewrite Hel, Hall, Hn; lra | ].
    split; [ rewrite Hel, Hall; lra | ].
    split.
    { intros H1. pose proof (Hex H1). rewrite Hel, Hall, (Halone H1). lra. }
    split; [ rewrite Hcnt', Hfa; lia | ].
    exact Hinv'.
Qed.

Lemma channelAt_defined (ind : indicator) (i n : nat) (dev : WIIMote.t) :
  fits ind n (length (WIIMote.leds dev)) ->
  (i < n)%nat ->
  exists b, channelAt ind i dev = Some b.
Proof.
  intros Hfits Hi. destruct ind; cbn [channelAt fits] in *; [ eauto | ].
  destruct (nth_error (WIIMote.leds dev) i) as [ b | ] eqn:E; [ eauto | ].
  apply nth_error_None in E. lia.
Qed.

Lemma reduceTimer_spent (p : OutputPattern.t) (d : Q) :
  OutputPattern.patternSpent p = true ->
  OutputPattern.reduceTimer p d = (p, Ok None).
Proof. intros H. unfold OutputPattern.reduceTimer. now rewrite H. Qed.

(** Once the pattern of slot [i] is spent, it stays so and its channel is
    not flipped any more. *)
Lemma spent_step_silent (ind : indicator) (i : nat)
    (self : SwitchPulser.t) (w : World) :
  unattended ind self w ->
  (ind = RUMBLE -> length (SwitchPulser.patternArray self) = 1%nat) ->
  spentAt i self = true ->
  spentAt i (fst (SwitchPulser.step self w)) = true
  /\ flipsOf i (trace (snd (SwitchPulser.step self w)))
     = flipsOf i (trace w)
  /\ length (SwitchPulser.patternArray (fst (SwitchPulser.step self w)))
     = length (SwitchPulser.patternArray self).
Proof.
  intros (Hind & Hstop & Hshut & Hready & Hfits & Hend) Hlone Hspent.
  unfold spentAt in Hspent.
  destruct (nth_error (SwitchPulser.patternArray self) i)
    as [ [ p | ] | ] eqn:Hp; try discriminate.
  assert (Hi : (i < length (SwitchPulser.patternArray self))%nat)
    by (apply nth_error_Some; congruence).
  unfold SwitchPulser.step.
  destruct (SwitchPulser.pc self) as [ | | d | o ] eqn:Epc.
  - destruct (turnIndicatorOn_channelAt ind i self w Hind Hready Hfits Hi)
      as (s1 & w1 & E & Hpa & _ & Htr & _).
    rewrite Hind, E. cbn [fst snd]. unfold spentAt.
    cbn [SwitchPulser.patternArray SwitchPulser.withPc].
    rewrite Hpa, Hp, Htr, flipsOf_app. cbn [flipsOf].
    now rewrite app_nil_r.
  - rewrite Hshut, Hstop. cbn [orb].
    destruct (ready_timeRemaining _ Hready) as [ [nd End] | [End _] ];
      rewrite End.
    + cbn [fst snd]. unfold spentAt.
      cbn [SwitchPulser.patternArray SwitchPulser.withPc].
      now rewrite Hp.
    + destruct (finally_patternArray self w (SwitchPulser.Raised SystemExit))
        as (Hpa & _).
      unfold spentAt. rewrite Hpa, Hp, finally_trace, flipsOf_app.
      cbn [flipsOf]. now rewrite app_nil_r.
  - rewrite Hshut. unfold SwitchPulser.tick.
    destruct (tickFrom_ready ind (length (SwitchPulser.patternArray self)) 0
                             self d (emit w (EvSleep d)) Hind Hready Hfits)
      as (s1 & w1 & E & _ & _ & Hlen & _).
    rewrite E. cbn [fst snd].
    pose proof (tick_ok self s1 d (emit w (EvSleep d)) w1 E) as Epa.
    destruct (channelAt_defined ind i _ _ Hfits Hi) as [b Hb].
    destruct (tickFrom_channel ind i (length (SwitchPulser.patternArray self))
                0 self s1 d (emit w (EvSleep d)) w1 p b)
      as (mid & Htr & _ & _ & _ & Hone); auto.
    unfold flipsAfter in Hone.
    rewrite (reduceTimer_spent p d Hspent), andb_false_r in Hone.
    apply length_zero_iff_nil in Hone.
    unfold spentAt.
    cbn [SwitchPulser.patternArray SwitchPulser.withPc].
    rewrite Epa, nth_error_map, Hp. cbn [option_map].
    rewrite (reduceTimer_spent p d Hspent). cbn [fst].
    split; [ exact Hspent | ].
    split; [ | now rewrite length_map ].
    rewrite Htr. cbn [trace emit]. rewrite !flipsOf_app, Hone.
    cbn [flipsOf]. now rewrite !app_nil_r.
  - cbn [fst snd]. unfold spentAt. now rewrite Hp.
Qed.

Lemma spent_steps_silent (ind : indicator) (i : nat) (n : nat) :
  forall (self : SwitchPulser.t) (w : World),
    unattended ind self w ->
    (ind = RUMBLE -> length (SwitchPulser.patternArray self) = 1%nat) ->
    spentAt i self = true ->
    spentAt i (fst (SwitchPulser.steps n self w)) = true
    /\ flipsOf i (trace (snd (SwitchPulser.steps n self w)))
       = flipsOf i (trace w).
Proof.
  induction n as [ | n IH ]; intros self w Hun Hlone Hspent.
  { now split. }
  cbn [SwitchPulser.steps].
  pose proof (unattended_step ind self w Hun) as Hun1.
  destruct (spent_step_silent ind i self w Hun Hlone Hspent)
    as (Hs1 & Hf1 & Hl1).
  destruct (SwitchPulser.step self w) as [self1 w1]. cbn [fst snd] in *.
  destruct (IH self1 w1 Hun1) as [ Hs Hf ]; auto.
  { now rewrite Hl1. }
  split; [ exact Hs | congruence ].
Qed.

(* Sets in which no pattern begins a repeat *)

Lemma quiet_reduceTimer (p : OutputPattern.t) (d : Q) :
  (OutputPattern.numReps p <= 1)%Z ->
  OutputPattern.startOfRepeat p = false ->
  (OutputPattern.numReps (fst (OutputPattern.reduceTimer p d)) <= 1)%Z
  /\ OutputPattern.startOfRepeat (fst (OutputPattern.reduceTimer p d))
     = false.
Proof.
  intros Hn Hr.
  destruct (reduceTimerP p d) as
    [ Hs' | Hs' Hh' | head Hs' Hh' Hr' | head Hs' Hh' Hr' Hlt
    | head Hs' Hh' Hr' Hge Hn' | head Hs' Hh' Hr' Hge Hn' ];
    cbn [fst OutputPattern.numReps OutputPattern.startOfRepeat];
    split; auto; lia.
Qed.

Lemma forcedOn_flip (self : SwitchPulser.t) (index : nat) (w : World) :
  forcedOn (trace (fst (SwitchPulser.flipRumbleOrLED self index w)))
  = forcedOn (trace w).
Proof.
  unfold SwitchPulser.flipRumbleOrLED, SwitchPulser.flipLED,
    SwitchPulser.flipRumble.
  destruct (SwitchPulser.outputIndicator self).
  - cbn [fst trace emit]. rewrite forcedOn_app. simpl. lia.
  - destruct (nth_error (WIIMote.getLEDs (wiimoteDevice w)) index);
      [ | reflexivity ].
    destruct (index <? length [@None bool; None; None; None])%nat;
      [ | reflexivity ].
    cbn [fst trace emit]. rewrite forcedOn_app. simpl. lia.
Qed.

Lemma tickFrom_quiet (n : nat) :
  forall (idx : nat) (self : SwitchPulser.t) (d : Q) (w : World),
    Forall quietSlot (SwitchPulser.patternArray self) ->
    Forall quietSlot
      (SwitchPulser.patternArray
         (fst (fst (SwitchPulser.tickFrom n idx self d w))))
    /\ forcedOn (trace (snd (fst (SwitchPulser.tickFrom n idx self d w))))
       = forcedOn (trace w).
Proof.
  induction n as [ | n IH ]; intros idx self d w Hq; [ now split | ].
  cbn [SwitchPulser.tickFrom].
  destruct (nth_error (SwitchPulser.patternArray self) idx)
    as [ [ pattern | ] | ] eqn:Hslot; try now split.
  assert (Hqp : quietSlot (Some pattern)).
  { rewrite Forall_forall in Hq. apply Hq. now apply nth_error_In with idx. }
  destruct (Hqp pattern eq_refl) as [ Hn Hr ].
  destruct (quiet_reduceTimer pattern d Hn Hr) as [ Hn' Hr' ].
  destruct (OutputPattern.reduceTimer pattern d) as [ pattern' reducedTime ].
  cbn [fst] in Hn', Hr'.
  set (self1 := SwitchPulser.withPatternArray self
                  (list_set (SwitchPulser.patternArray self) idx
                            (Some pattern'))).
  assert (Hq1 : Forall quietSlot (SwitchPulser.patternArray self1)).
  { unfold self1. cbn [SwitchPulser.patternArray SwitchPulser.withPatternArray].
    apply Forall_list_set; [ exact Hq | ].
    intros q [= <-]. now split. }
  destruct reducedTime as [ reduced | e ]; [ | now split ].
  rewrite Hr'.
  destruct reduced as [ rt | ]; [ | now apply IH ].
  destruct (Qeq_bool rt 0); [ | now apply IH ].
  pose proof (forcedOn_flip self1 idx w) as Hf.
  destruct (SwitchPulser.flipRumbleOrLED self1 idx w) as [ w3 [ [] | e ] ];
    cbn [fst] in Hf.
  - destruct (IH (S idx) self1 d w3 Hq1) as [ Hq' Hf' ].
    split; [ exact Hq' | congruence ].
  - now split.
Qed.

Lemma quiet_step (self : SwitchPulser.t) (w : World) :
  Forall quietSlot (SwitchPulser.patternArray self) ->
  SwitchPulser.pc self <> SwitchPulser.Created ->
  Forall quietSlot (SwitchPulser.patternArray (fst (SwitchPulser.step self w)))
  /\ SwitchPulser.pc (fst (SwitchPulser.step self w)) <> SwitchPulser.Created
  /\ forcedOn (trace (snd (SwitchPulser.step self w))) = forcedOn (trace w).
Proof.
  intros Hq Hpc.
  assert (Hfin :
    forall s x pending,
      Forall quietSlot (SwitchPulser.patternArray s) ->
      forcedOn (trace x) = forcedOn (trace w) ->
      Forall quietSlot
        (SwitchPulser.patternArray (fst (SwitchPulser.finally s x pending)))
      /\ SwitchPulser.pc (fst (SwitchPulser.finally s x pending))
         <> SwitchPulser.Created
      /\ forcedOn (trace (snd (SwitchPulser.finally s x pending)))
         = forcedOn (trace w)).
  { intros s x pending Hs Hx.
    destruct (finally_patternArray s x pending)
      as (Hpa & _ & _ & _ & _ & Hpc').
    rewrite Hpa, Hpc', finally_trace, forcedOn_app, Hx.
    split; [ exact Hs | ]. split; [ discriminate | simpl; lia ]. }
  unfold SwitchPulser.step.
  destruct (SwitchPulser.pc self) as [ | | d | o ] eqn:Epc;
    [ congruence | | | ].
  - destruct (is_shutdown w || SwitchPulser.stop self);
      [ now apply Hfin | ].
    destruct (SwitchPulser.nextDurationFrom (SwitchPulser.patternArray self)
                                            None) as [ [ nd | ] | e ];
      try now apply Hfin.
    cbn [fst snd SwitchPulser.patternArray SwitchPulser.withPc
         SwitchPulser.pc].
    split; [ exact Hq | ]. split; [ discriminate | reflexivity ].
  - destruct (is_shutdown w); [ now apply Hfin | ].
    unfold SwitchPulser.tick.
    destruct (tickFrom_quiet (length (SwitchPulser.patternArray self)) 0
                             self d (emit w (EvSleep d)) Hq) as [ Hq' Hf' ].
    cbn [trace emit] in Hf'. rewrite forcedOn_app in Hf'.
    cbn [forcedOn] in Hf'. rewrite Nat.add_0_r in Hf'.
    destruct (SwitchPulser.tickFrom
                (length (SwitchPulser.patternArray self)) 0 self d
                (emit w (EvSleep d))) as [ [ s1 w1 ] [ [] | e ] ];
      cbn [fst snd] in Hq', Hf'.
    + cbn [fst snd SwitchPulser.patternArray SwitchPulser.withPc
           SwitchPulser.pc].
      split; [ exact Hq' | ]. split; [ discriminate | exact Hf' ].
    + now apply Hfin.
  - cbn [fst snd]. rewrite Epc.
    split; [ exact Hq | ]. split; [ discriminate | reflexivity ].
Qed.

Lemma quiet_steps (n : nat) :
  forall (self : SwitchPulser.t) (w : World),
    Forall quietSlot (SwitchPulser.patternArray self) ->
    SwitchPulser.pc self <> SwitchPulser.Created ->
    forcedOn (trace (snd (SwitchPulser.steps n self w)))
    = forcedOn (trace w).
Proof.
  induction n as [ | n IH ]; intros self w Hq Hpc; [ reflexivity | ].
  cbn [SwitchPulser.steps].
  destruct (quiet_step self w Hq Hpc) as (Hq1 & Hpc1 & Hf1).
  destruct (SwitchPulser.step self w) as [self1 w1]. cbn [fst snd] in *.
  rewrite (IH self1 w1 Hq1 Hpc1). exact Hf1.
Qed.

Lemma unattended_init (specs : list (list Q * Z)) (ind : indicator)
    (w : World) :
  Forall (fun s => fst s <> []) specs ->
  is_shutdown w = false ->
  fits ind (length specs) (length (WIIMote.leds (wiimoteDevice w))) ->
  unattended ind
    (SwitchPulser.init
       (map (fun s => Some (OutputPattern.init (fst s) (snd s))) specs) ind)
    w.
Proof.
  intros Hne Hshut Hfits. unfold unattended.
  cbn [SwitchPulser.outputIndicator SwitchPulser.stop
       SwitchPulser.patternArray SwitchPulser.pc SwitchPulser.init].
  rewrite length_map.
  repeat split; auto; try discriminate.
  rewrite Forall_forall in *. intros slot Hin.
  apply in_map_iff in Hin. destruct Hin as (s & <- & Hs).
  eexists. split; [ reflexivity | ].
  apply wellFormed_init. now apply Hne.
Qed.

(** C3, as the code has it.  A pattern with repeat count 1 and durations
    d0 .. dn-1, n > 0, in slot i of a pattern set that the pulser can
    serve and that nobody stops: every pattern of the set is built from a
    non-empty sequence, with any repeat count; a rumble set holds this
    pattern alone, as the docstring of the constructor has it; an LED set
    has at most 4 patterns and no more than the device has LEDs.
    - The pattern becomes spent in some turn of the loop, k steps into
      the run, and not before.  The time waited until then is at most
      d0 + ... + dn-1 and falls short of it by less than n * 0.005 s.
    - Alone in the set, the pattern is spent after d0 + ... + dn-1
      exactly, and the record of the whole run is: forced on, d0 .. dn-1
      waited out with a flip after each of them but the last, switched
      off.
    - The channel is flipped n - 1 times in the whole run.
    - The flips alternate off, on, off, ... if the run has forced its
      channels on at its start only until the pattern is spent, as it
      has when no pattern of the set has a repeat count above 1: a
      pattern that begins a repeat forces every channel of the set on.
    - The run ends by itself, with the pattern spent and the channel
      switched off by the finally block. *)
Theorem single_pass_in_pattern_set (specs : list (list Q * Z))
    (ind : indicator) (dev : WIIMote.t) (i : nat) (l : list Q) :
  Forall (fun s => fst s <> []) specs ->
  fits ind (length specs) (length (WIIMote.leds dev)) ->
  (ind = RUMBLE -> length specs = 1%nat) ->
  nth_error specs i = Some (l, 1%Z) ->
  let start :=
    SwitchPulser.init
      (map (fun s => Some (OutputPattern.init (fst s) (snd s))) specs)
      ind in
  let w0 := mkWorld dev false [] in
  let r := SwitchPulser.join start w0 in
  exists k : nat,
    (forall j, (j < k)%nat ->
               spentAt i (fst (SwitchPulser.steps j start w0)) = false)
    /\ spentAt i (fst (SwitchPulser.steps k start w0)) = true
    /\ (Qsum l - (1 # 200) * inject_Z (Z.of_nat (length l))
        < elapsed (snd (SwitchPulser.steps k start w0)))%Q
    /\ (elapsed (snd (SwitchPulser.steps k start w0)) <= Qsum l)%Q
    /\ (length specs = 1%nat ->
        (elapsed (snd (SwitchPulser.steps k start w0)) == Qsum l)%Q
        /\ trace (snd r) = EvOn :: pulse l true ++ [EvOff]
        /\ sleepsOf (trace (snd r)) = l)
    /\ length (flipsOf i (trace (snd r))) = (length l - 1)%nat
    /\ (forcedOn (trace (snd (SwitchPulser.steps k start w0))) = 1%nat ->
        flipsOf i (trace (snd r)) = alternation (length l - 1) false)
    /\ (Forall (fun s => (snd s <= 1)%Z) specs ->
        flipsOf i (trace (snd r)) = alternation (length l - 1) false)
    /\ SwitchPulser.pc (fst r)
       = SwitchPulser.Finished (SwitchPulser.Raised SystemExit)
    /\ spentAt i (fst r) = true
    /\ channelAt ind i (wiimoteDevice (snd r)) = Some false.
Proof.
  intros Hne Hfits Hlone Hspec start w0 r.
  set (pa0 := map (fun s : list Q * Z =>
                     Some (OutputPattern.init (fst s) (snd s))) specs)
    in *.
  assert (Hl : l <> []).
  { rewrite Forall_forall in Hne.
    apply (Hne (l, 1%Z)). now apply nth_error_In with i. }
  assert (Hlen0 : length pa0 = length specs) by apply length_map.
  assert (Hi : (i < length pa0)%nat).
  { rewrite Hlen0. apply nth_error_Some. congruence. }
  assert (Hp0 : nth_error pa0 i = Some (Some (OutputPattern.init l 1))).
  { unfold pa0. now rewrite nth_error_map, Hspec. }
  assert (H0 : unattended ind start w0)
    by (apply unattended_init; auto).
  (* the start *)
  assert (Hready0 : Forall ready (SwitchPulser.patternArray start))
    by (destruct H0 as (_ & _ & _ & Hready & _); exact Hready).
  assert (Hfits0 : fits ind (length (SwitchPulser.patternArray start))
                        (length (WIIMote.leds (wiimoteDevice w0)))).
  { change (SwitchPulser.patternArray start) with pa0.
    rewrite Hlen0. exact Hfits. }
  destruct (turnIndicatorOn_channelAt ind i start w0 eq_refl Hready0 Hfits0
                                      Hi)
    as (s1 & w1 & E & Hpa & Hind1 & Htr1 & Hch1 & Hl1).
  cbn [trace w0 app] in Htr1.
  change (SwitchPulser.patternArray start) with pa0 in Hpa.
  assert (Estep : SwitchPulser.step start w0
                  = (SwitchPulser.withPc s1 SwitchPulser.LoopHead, w1)).
  { unfold SwitchPulser.step.
    change (SwitchPulser.pc start) with SwitchPulser.Created.
    change (SwitchPulser.outputIndicator start) with ind.
    cbv iota. now rewrite E. }
  pose proof (unattended_step ind start w0 H0) as Hun1.
  rewrite Estep in Hun1. cbn [fst snd] in Hun1.
  set (self1 := SwitchPulser.withPc s1 SwitchPulser.LoopHead) in *.
  assert (Hpa1 : SwitchPulser.patternArray self1 = pa0) by exact Hpa.
  assert (Hlone1 : ind = RUMBLE ->
                   length (SwitchPulser.patternArray self1) = 1%nat).
  { intros Hr. rewrite Hpa1, Hlen0. now apply Hlone. }
  assert (Htracked : tracked ind i l self1 w1).
  { destruct l as [ | h0 rest ]; [ congruence | ].
    exists (OutputPattern.init (h0 :: rest) 1), h0, 0%Q.
    rewrite Hpa1, Htr1.
    split; [ exact Hp0 | ].
    split; [ now apply singlePass_init | ].
    split; [ reflexivity | ]. split; [ reflexivity | ].
    split; [ reflexivity | ]. split; [ reflexivity | ].
    split; [ reflexivity | ]. split; [ exact Hch1 | ].
    split; [ lra | ].
    split; [ vm_compute; discriminate | ].
    split; [ | reflexivity ].
    unfold elapsed. rewrite Htr1. cbn. unfold Qsum. cbn. lra. }
  destruct (sweep_until_spent ind i l
              (SwitchPulser.owedAll (SwitchPulser.patternArray self1))
              self1 w1 Hun1 eq_refl Hlone1 (le_n _) Htracked)
    as (k & mid & Hk & Hmin & Hspent & Hlenk & Htrk & Hlo & Hhi & Hexact
        & Hn & Hinv).
  assert (Sk : forall j, SwitchPulser.steps (S j) start w0
                         = SwitchPulser.steps j self1 w1).
  { intros j. cbn [SwitchPulser.steps]. now rewrite Estep. }
  (* from the spending of the pattern to the end of the run *)
  set (sk := fst (SwitchPulser.steps k self1 w1)) in *.
  set (wk := snd (SwitchPulser.steps k self1 w1)) in *.
  assert (Hunk : unattended ind sk wk)
    by (apply unattended_steps; exact Hun1).
  assert (Er : r = SwitchPulser.steps
                     (SwitchPulser.enoughSteps start - S k) sk wk).
  { unfold r, SwitchPulser.join.
    replace (SwitchPulser.enoughSteps start)
      with (S k + (SwitchPulser.enoughSteps start - S k))%nat at 1.
    - rewrite steps_add, Sk. reflexivity.
    - unfold SwitchPulser.enoughSteps.
      change (SwitchPulser.patternArray start) with pa0.
      rewrite Hpa1 in Hk. lia. }
  destruct (spent_steps_silent ind i
              (SwitchPulser.enoughSteps start - S k) sk wk Hunk)
    as [ Hspent_r Hflips_r ]; auto.
  { intros Hr. rewrite Hlenk. now apply Hlone1. }
  rewrite <- Er in Hspent_r, Hflips_r.
  assert (Halt :
    forcedOn (trace wk) = 1%nat ->
    flipsOf i (trace (snd r)) = alternation (length l - 1) false).
  { intros Hon. rewrite Hflips_r.
    rewrite Htrk, Htr1 in Hon. cbn [app forcedOn] in Hon.
    rewrite <- Hn, Hinv. rewrite Htrk, Htr1. cbn [app inverted].
    rewrite (inverted_alternation i mid true) at 1 by lia.
    reflexivity. }
  exists (S k). rewrite Sk. fold sk wk.
  split.
  { intros [ | j ] Hj.
    - cbn [SwitchPulser.steps fst]. unfold spentAt.
      change (SwitchPulser.patternArray start) with pa0.
      now rewrite Hp0.
    - rewrite Sk. apply Hmin. lia. }
  split; [ exact Hspent | ]. split; [ exact Hlo | ].
  split; [ exact Hhi | ].
  split.
  { intros H1. split.
    - apply Hexact. now rewrite Hpa1, Hlen0.
    - destruct specs as [ | s0 [ | s1' rest ] ]; try discriminate.
      destruct i as [ | i ]; [ | destruct i; discriminate ].
      cbn [nth_error] in Hspec. injection Hspec as ->.
      assert (Hleds : ind = LED -> WIIMote.leds dev <> []).
      { intros ->. cbn [fits length] in Hfits.
        destruct (WIIMote.leds dev); [ simpl in Hfits; lia | discriminate ]. }
      destruct (lone_single_pass l ind dev Hl Hleds)
        as (_ & _ & Htrace & Hsleeps & _).
      split; [ exact Htrace | exact Hsleeps ]. }
  split; [ now rewrite Hflips_r | ].
  split; [ exact Halt | ].
  split.
  { intros Hq. apply Halt.
    unfold wk. rewrite quiet_steps.
    - rewrite Htr1. reflexivity.
    - rewrite Hpa1. unfold pa0. rewrite Forall_forall in *.
      intros slot Hin. apply in_map_iff in Hin.
      destruct Hin as (s & <- & Hs). intros p [= <-].
      split; [ now apply Hq | reflexivity ].
    - discriminate. }
  split.
  { destruct (join_terminates start w0) as [o Ho]. fold r in Ho.
    pose proof (unattended_steps ind (SwitchPulser.enoughSteps start)
                                 start w0 H0) as Hend.
    fold (SwitchPulser.join start w0) in Hend. fold r in Hend.
    destruct Hend as (_ & _ & _ & _ & _ & Hend).
    destruct (Hend o Ho) as [ -> _ ]. exact Ho. }
  split; [ exact Hspent_r | ].
  assert (Hinv0 : pulserInv ind (presence pa0) (WIIMote.leds dev) start w0).
  { apply (pulserInv_init pa0 ind w0). intros Hr.
    specialize (Hlone Hr).
    assert (i = 0%nat) by lia. subst i. eauto. }
  destruct (join_switchedOff _ _ _ _ _ Hinv0)
    as (_ & Hoff & (_ & _ & Hleds & _)).
  fold r in Hoff, Hleds.
  destruct ind; cbn [switchedOff channelAt] in *.
  - now rewrite Hoff.
  - destruct Hfits as [ H4 Hfl ].
    apply Hoff.
    + unfold NUM_LEDS. lia.
    + lia.
    + now rewrite nth_error_presence, Hp0.
Qed.

Lemma single_pass_in_pattern_set_witness :
  length
    (flipsOf 0
       (trace
          (snd (SwitchPulser.join
                  (SwitchPulser.init
                     (map (fun s => Some (OutputPattern.init (fst s) (snd s)))
                          [([(1 # 5)%Q; (3 # 10)%Q; (1 # 2)%Q], 1%Z);
                           ([(1 # 4)%Q], 3%Z)])
                     LED)
                  (mkWorld (WIIMote.mk false [false; true; false; true])
                           false [])))))
  = (length [(1 # 5)%Q; (3 # 10)%Q; (1 # 2)%Q] - 1)%nat.
Proof.
  assert (Hne : Forall (fun s : list Q * Z => fst s <> [])
                       [([(1 # 5)%Q; (3 # 10)%Q; (1 # 2)%Q], 1%Z);
                        ([(1 # 4)%Q], 3%Z)]).
  { repeat constructor; discriminate. }
  assert (Hfits :
    fits LED
      (length [([(1 # 5)%Q; (3 # 10)%Q; (1 # 2)%Q], 1%Z);
               ([(1 # 4)%Q], 3%Z)])
      (length (WIIMote.leds (WIIMote.mk false [false; true; false; true])))).
  { simpl. lia. }
  assert (Hlone :
    LED = RUMBLE ->
    length [([(1 # 5)%Q; (3 # 10)%Q; (1 # 2)%Q], 1%Z); ([(1 # 4)%Q], 3%Z)]
    = 1%nat) by discriminate.
  destruct (single_pass_in_pattern_set
              [([(1 # 5)%Q; (3 # 10)%Q; (1 # 2)%Q], 1%Z); ([(1 # 4)%Q], 3%Z)]
              LED (WIIMote.mk false [false; true; false; true]) 0
              [(1 # 5)%Q; (3 # 10)%Q; (1 # 2)%Q]
              Hne Hfits Hlone eq_refl)
    as (k & _ & _ & _ & _ & _ & Hflips & _).
  exact Hflips.
Defined.
